(** * Routing and orchestration core: model selection and the agent protocol

    A shallow embedding of two services of the tutoring backend:

    - [MultiLLMRouter] (server/services, class [MultiLLMRouter]): the
      scoring and selection of a backend model, and the running
      performance statistics;
    - [MCPProtocol] (server/services/mcpProtocol.js): sessions, agents,
      the intent classifier, the routing plan and its execution.

    Conventions of the embedding.

    - A JavaScript string is the sequence of its code units; the model keeps
      the code units below 256, one [ascii] each, so [String.length] is
      [.length].
    - A JavaScript number that holds a measurement or a mean (latency, rates,
      scores, confidences) is a rational [Q]: arithmetic is exact, and two
      numbers are compared with [==].  Counters and lengths are integers [Z].
    - A [Map] or [Set] whose iteration order the code observes is an
      association list or a duplicate-free list in insertion order; a [Map]
      only looked up by key is a [gmap].
    - [throw] is the [Throw] completion of a small state-and-error monad; the
      mutations made before a [throw] stay in the state, as in the source.
    - Every method is [async] and is modelled as running to completion: a
      sequence of calls is a sequence of state transformers, with no
      interleaving at an [await].
    - A session object is referred to by the id under which [sessions] holds
      it.
    - [logger] calls write to a log file only and are left out. *)

From Stdlib Require Import Ascii String ZArith QArith Qfield Lqa Floats.
From stdpp Require Import base option list strings gmap.

Set Warnings "-inexact-float".

Local Open Scope string_scope.
Local Open Scope nat_scope.

(** ** JavaScript helpers shared by both services *)

Module JS.

(** How a call completes: with a value, or with a thrown [Error] of the
    given message. *)
Inductive Completion (A : Type) :=
| Normal (a : A)
| Throw (message : string).
Arguments Normal {A} a.
Arguments Throw {A} message.

(** An argument that a caller may pass as [null].  An argument left out
    ([undefined]) is replaced by the parameter's default, an object, before
    the body runs; reading a property of [null] throws a [TypeError]. *)
Inductive Nullable (A : Type) :=
| Null
| Obj (a : A).
Arguments Null {A}.
Arguments Obj {A} a.

(** The message of the [TypeError] thrown when [property] is read from
    [null]. *)
Definition isNull {A} (o : Nullable A) : bool :=
  match o with
  | Null => true
  | Obj _ => false
  end.

Definition typeError (property : string) : string :=
  "Cannot read properties of null (reading '" ++ property ++ "')".

(** [Map.prototype.set] on an insertion-ordered map: an existing key keeps
    its position, a new key goes last. *)
Fixpoint Map_set {V} (k : string) (v : V) (m : list (string * V)) : list (string * V) :=
  match m with
  | [] => [(k, v)]
  | (k', v') :: rest =>
      if String.eqb k' k then (k, v) :: rest else (k', v') :: Map_set k v rest
  end.

Fixpoint Map_get {V} (k : string) (m : list (string * V)) : option V :=
  match m with
  | [] => None
  | (k', v') :: rest => if String.eqb k' k then Some v' else Map_get k rest
  end.

Definition Map_values {V} (m : list (string * V)) : list V := map snd m.

(** [Set.prototype.add] on an insertion-ordered set. *)
Definition Set_add (x : string) (s : list string) : list string :=
  if existsb (String.eqb x) s then s else s ++ [x].

(** [Array.prototype.includes] on an array of strings. *)
Definition includes (x : string) (l : list string) : bool :=
  existsb (String.eqb x) l.

(** [Array.prototype.sort(comparefn)]: the sort is stable, [a] is placed
    before [b] when [comparefn a b < 0] and after it when
    [comparefn a b > 0].  For a consistent comparator the result of a stable
    sort is unique; it is computed here by insertion from the right. *)
Section Sort.
Context {A : Type} (comparefn : A -> A -> Q).

Fixpoint sort_insert (x : A) (l : list A) : list A :=
  match l with
  | [] => [x]
  | y :: l' =>
      if Qlt_le_dec 0 (comparefn x y) then y :: sort_insert x l'
      else x :: y :: l'
  end.

Definition sort (l : list A) : list A := foldr sort_insert [] l.
End Sort.

(** Characters: [\w] of a regular expression without the [u] flag, and the
    case mapping of [toLowerCase] / the [i] flag on code units below 256. *)
Definition isWordChar (c : ascii) : bool :=
  let n := nat_of_ascii c in
  ((48 <=? n) && (n <=? 57)) || ((65 <=? n) && (n <=? 90))
  || ((97 <=? n) && (n <=? 122)) || (n =? 95).

Definition toLowerChar (c : ascii) : ascii :=
  let n := nat_of_ascii c in
  if ((65 <=? n) && (n <=? 90))
     || ((192 <=? n) && (n <=? 222) && negb (n =? 215))
  then ascii_of_nat (n + 32) else c.

Fixpoint toLowerCase (s : string) : string :=
  match s with
  | EmptyString => EmptyString
  | String c rest => String (toLowerChar c) (toLowerCase rest)
  end.

(** Under the [i] flag an ASCII letter of the pattern matches its two cases
    and nothing else. *)
Definition eqCI (p c : ascii) : bool :=
  let lowerAscii (a : ascii) :=
    let n := nat_of_ascii a in
    if (65 <=? n) && (n <=? 90) then ascii_of_nat (n + 32) else a in
  Ascii.eqb (lowerAscii p) (lowerAscii c).

(** [String.prototype.includes]: [needle] occurs in [s]. *)
Fixpoint startsWith (needle s : string) : bool :=
  match needle, s with
  | EmptyString, _ => true
  | String a n', String b s' => Ascii.eqb a b && startsWith n' s'
  | String _ _, EmptyString => false
  end.

Fixpoint str_includes (needle s : string) : bool :=
  startsWith needle s ||
  match s with
  | EmptyString => false
  | String _ s' => str_includes needle s'
  end.

(** Decimal rendering of a natural number, as a template literal does. *)
Definition digit (n : nat) : ascii := ascii_of_nat (48 + n).

Fixpoint toDecimal_aux (fuel n : nat) (acc : string) : string :=
  match fuel with
  | O => acc
  | S fuel' =>
      let acc' := String (digit (n mod 10)) acc in
      if n / 10 =? 0 then acc' else toDecimal_aux fuel' (n / 10) acc'
  end.

Definition toDecimal (n : nat) : string := toDecimal_aux (S n) n EmptyString.

(** *** Regular expressions of the form [/\b(w1|...|wn)\b/gi] *)

(** The word boundary assertion between two neighbouring characters
    ([None] is the edge of the input). *)
Definition isWord (c : option ascii) : bool :=
  match c with Some a => isWordChar a | None => false end.

Definition wordBoundary (prev next : option ascii) : bool :=
  xorb (isWord prev) (isWord next).

Definition head_char (s : string) : option ascii :=
  match s with EmptyString => None | String c _ => Some c end.

(** [matchWord w prev s]: the alternative [w] matches case-insensitively at
    the head of [s]; returns the last character matched and the rest. *)
Fixpoint matchWord (w : string) (prev : option ascii) (s : string)
  : option (option ascii * string) :=
  match w with
  | EmptyString => Some (prev, s)
  | String p w' =>
      match s with
      | EmptyString => None
      | String c s' => if eqCI p c then matchWord w' (Some c) s' else None
      end
  end.

(** One attempt at a position: the leading [\b], the alternatives in order,
    the trailing [\b] (a failed trailing assertion backtracks into the next
    alternative).  Returns the length of the match. *)
Fixpoint matchAlternatives (ws : list string) (prev : option ascii) (s : string)
  : option nat :=
  match ws with
  | [] => None
  | w :: ws' =>
      match matchWord w prev s with
      | Some (last, rest) =>
          if wordBoundary last (head_char rest) then Some (String.length w)
          else matchAlternatives ws' prev s
      | None => matchAlternatives ws' prev s
      end
  end.

Definition matchAt (ws : list string) (prev : option ascii) (s : string) : option nat :=
  if wordBoundary prev (head_char s) then matchAlternatives ws prev s else None.

(** [re.test(s)] on a fresh regular expression ([lastIndex = 0]). *)
Fixpoint test_from (ws : list string) (prev : option ascii) (s : string) : bool :=
  match matchAt ws prev s with
  | Some _ => true
  | None =>
      match s with
      | EmptyString => false
      | String c s' => test_from ws (Some c) s'
      end
  end.

Definition test (ws : list string) (s : string) : bool := test_from ws None s.

(** The number of elements of [s.match(re)] under the [g] flag ([0] for
    [null]): matches are taken left to right and do not overlap; [skip]
    counts the characters of the current match still to be passed. *)
Fixpoint countMatches_from (ws : list string) (prev : option ascii) (s : string)
  (skip : nat) : nat :=
  match s with
  | EmptyString => 0
  | String c s' =>
      match skip with
      | S k => countMatches_from ws (Some c) s' k
      | O =>
          match matchAt ws prev s with
          | Some len => S (countMatches_from ws (Some c) s' (len - 1))
          | None => countMatches_from ws (Some c) s' 0
          end
      end
  end.

Definition countMatches (ws : list string) (s : string) : nat :=
  countMatches_from ws None s 0.

End JS.

(** ** The model router (class [MultiLLMRouter]) *)

Module MultiLLMRouter.
Import JS.

(** *** Documents (models/LLMModel.js and the user profile schema) *)

Record Performance := {
  averageLatency : Q;
  successRate : Q;
  userSatisfaction : Q;
  totalRequests : Z;
  errorCount : Z
}.

Record Capabilities := {
  supportsMultimodal : bool;
  supportsFunctionCalling : bool;
  supportsStreaming : bool;
  maxContextLength : Z
}.

Record LLMModel := {
  name : string;
  type : string;
  specialization : string;
  performance : Performance;
  capabilities : Capabilities;
  isActive : bool
}.

(** The schema defaults of [performance]: the statistics of a model that has
    served no request yet. *)
Definition defaultPerformance : Performance :=
  {| averageLatency := 0; successRate := 100; userSatisfaction := 5;
     totalRequests := 0; errorCount := 0 |}.

Record Preferences := { preferredLLM : string; learningStyle : string }.

Record UserProfile := { userId : string; preferences : Preferences }.

(** The caller's [context] argument; only [urgency] is read. *)
Record RequestContext := { urgency : option string }.

(** An entry of [loadBalancer].  [NaN] is what [undefined + 1] leaves in the
    map when a counter is incremented before it was set. *)
Inductive Load := Count (n : Z) | NaN.

(** The router object: the registry in insertion order and the in-flight
    counters. *)
Record Router := {
  llmModels : list (string * LLMModel);
  loadBalancer : gmap string Load
}.

Definition emptyRouter : Router := {| llmModels := []; loadBalancer := ∅ |}.

(** [initializeModels]: [LLMModel.find({ isActive: true })] over the
    collection, then one registry entry and one zero counter per model. *)
Definition initializeModels (collection : list LLMModel) (r : Router) : Router :=
  let models := filter (fun m => isActive m = true) collection in
  foldl (fun r model =>
           {| llmModels := Map_set (name model) model (llmModels r);
              loadBalancer := <[name model := Count 0]> (loadBalancer r) |})
        r models.

(** *** Request criteria *)

Record Criteria := {
  criteria_type : string;
  complexity : string;
  domain : string;
  criteria_requiresReasoning : bool;
  criteria_isConversational : bool;
  criteria_isTechnical : bool;
  criteria_requiresCreativity : bool;
  contentLength : Z;
  criteria_urgency : string
}.

Definition complexityIndicators : list (list string) :=
  [ ["analyze"; "compare"; "evaluate"; "synthesize"; "integrate"];
    ["algorithm"; "equation"; "formula"; "theorem"];
    ["hypothesis"; "methodology"; "framework"] ].

Definition assessComplexity (content : string) : string :=
  let complexityScore :=
    foldl (fun score pattern => score + countMatches pattern content)
          0 complexityIndicators in
  if 5 <? complexityScore then "high"
  else if 2 <? complexityScore then "medium"
  else "low".

Definition domainPatterns : list (string * list string) :=
  [ ("engineering", ["engineering"; "mechanical"; "electrical"; "civil";
                     "software"; "design"; "circuit"; "system"]);
    ("mathematics", ["math"; "calculus"; "algebra"; "geometry"; "statistics";
                     "equation"; "theorem"]);
    ("science", ["physics"; "chemistry"; "biology"; "research"; "experiment";
                 "hypothesis"]);
    ("programming", ["code"; "programming"; "algorithm"; "function";
                     "variable"; "loop"; "array"]);
    ("business", ["business"; "marketing"; "finance"; "management";
                  "strategy"; "revenue"]) ].

Fixpoint identifyDomain_in (entries : list (string * list string)) (content : string)
  : string :=
  match entries with
  | [] => "general"
  | (domain, pattern) :: rest =>
      if test pattern content then domain else identifyDomain_in rest content
  end.

Definition identifyDomain (content : string) : string :=
  identifyDomain_in domainPatterns content.

Definition requiresReasoning (content : string) : bool :=
  test ["why"; "how"; "analyze"; "explain"; "compare"; "evaluate"; "reason";
        "logic"; "cause"; "effect"] content.

Definition isConversational (requestType : string) : bool :=
  includes requestType ["chat"; "conversation"; "casual"].

Definition isTechnical (content : string) : bool :=
  test ["technical"; "specification"; "implementation"; "architecture";
        "protocol"; "algorithm"] content.

Definition requiresCreativity (requestType : string) : bool :=
  includes requestType ["creative"; "content_generation"; "story"; "poem";
                        "presentation"].

Definition analyzeRequestCriteria (requestType content : string)
  (context : RequestContext) : Criteria :=
  {| criteria_type := requestType;
     complexity := assessComplexity content;
     domain := identifyDomain content;
     criteria_requiresReasoning := requiresReasoning content;
     criteria_isConversational := isConversational requestType;
     criteria_isTechnical := isTechnical content;
     criteria_requiresCreativity := requiresCreativity requestType;
     contentLength := Z.of_nat (String.length content);
     criteria_urgency :=
       match urgency context with
       | Some u => if String.eqb u "" then "normal" else u
       | None => "normal"
       end |}.

(** *** Scoring and selection *)

(** [this.loadBalancer.get(model.name) || 0]. *)
Definition currentLoad (r : Router) (model : LLMModel) : Z :=
  match loadBalancer r !! name model with
  | Some (Count n) => n
  | Some NaN | None => 0
  end.

Definition calculateModelScore (r : Router) (model : LLMModel)
  (criteria : Criteria) (userProfile : option UserProfile) : Q :=
  let score := 0%Q in
  (* Base specialization matching *)
  let ty := criteria_type criteria in
  let score :=
    if String.eqb ty "chat" || String.eqb ty "conversation" then
      if String.eqb (specialization model) "chat" then (score + 50)%Q else score
    else if String.eqb ty "reasoning" || String.eqb ty "analysis"
            || String.eqb ty "problem_solving" then
      if String.eqb (specialization model) "reasoning" then (score + 50)%Q else score
    else if String.eqb ty "technical" || String.eqb ty "code"
            || String.eqb ty "engineering" then
      if String.eqb (specialization model) "technical" then (score + 50)%Q else score
    else if String.eqb ty "creative" || String.eqb ty "content_generation" then
      if String.eqb (specialization model) "creative" then (score + 50)%Q else score
    else if String.eqb ty "academic" || String.eqb ty "educational" then
      if String.eqb (specialization model) "academic" then (score + 50)%Q else score
    else score in
  (* Performance factors *)
  let score := (score + (100 - averageLatency (performance model) / 10))%Q in
  let score := (score + successRate (performance model) * 0.3)%Q in
  let score := (score + userSatisfaction (performance model) * 10)%Q in
  (* User preference *)
  let score :=
    match userProfile with
    | Some profile =>
        if String.eqb (preferredLLM (preferences profile)) (type model)
        then (score + 20)%Q else score
    | None => score
    end in
  (* Load balancing *)
  let score := (score - inject_Z (currentLoad r model) * 2)%Q in
  (* Context length requirements *)
  let score :=
    if (maxContextLength (capabilities model) <? contentLength criteria)%Z
    then (score - 100)%Q else score in
  score.

(** The comparator handed to [sort]: [(a, b) => b.score - a.score]. *)
Definition byScore {A} (a b : A * Q) : Q := (snd b - snd a)%Q.

Definition selectOptimalModel (r : Router) (requestType content : string)
  (userProfile : option UserProfile) (context : RequestContext) : option LLMModel :=
  let criteria := analyzeRequestCriteria requestType content context in
  let availableModels := Map_values (llmModels r) in
  let modelScores :=
    map (fun model => (model, calculateModelScore r model criteria userProfile))
        availableModels in
  let modelScores := sort byScore modelScores in
  match modelScores with
  | [] => None
  | best :: _ => Some (fst best)
  end.

(** *** Routing *)

Record Routing := {
  model : LLMModel;
  routingReason : string;
  estimatedLatency : Q
}.

Definition getRoutingReason (requestType : string) (selectedModel : LLMModel) : string :=
  "Selected " ++ name selectedModel ++ " (" ++ type selectedModel ++ ") for "
  ++ requestType ++ " based on specialization: " ++ specialization selectedModel.

(** [UserProfile.findOne({ userId })]. *)
Definition findProfile (profiles : list UserProfile) (uid : string) : option UserProfile :=
  List.find (fun p => String.eqb (userId p) uid) profiles.

Definition routeRequest (profiles : list UserProfile) (r : Router)
  (requestType content uid : string) (context : RequestContext)
  : Completion Routing * Router :=
  let userProfile := findProfile profiles uid in
  match selectOptimalModel r requestType content userProfile context with
  | None => (Throw "No suitable LLM model found for request", r)
  | Some selectedModel =>
      let load :=
        match loadBalancer r !! name selectedModel with
        | Some (Count n) => Count (n + 1)
        | Some NaN | None => NaN
        end in
      (Normal {| model := selectedModel;
                 routingReason := getRoutingReason requestType selectedModel;
                 estimatedLatency := averageLatency (performance selectedModel) |},
       {| llmModels := llmModels r;
          loadBalancer := <[name selectedModel := load]> (loadBalancer r) |})
  end.

(** *** Outcome feedback *)

Record Metrics := {
  latency : Q;
  success : bool;
  userRating : option Q
}.

(** The body of [updateModelPerformance] on the statistics of the document
    found. *)
Definition updatePerformance (p : Performance) (metrics : Metrics) : Performance :=
  let total := (totalRequests p + 1)%Z in
  let n := inject_Z total in
  let avg := ((averageLatency p * (n - 1) + latency metrics) / n)%Q in
  let '(rate, errors) :=
    if success metrics
    then (((successRate p * (n - 1) + 100) / n)%Q, errorCount p)
    else (((successRate p * (n - 1)) / n)%Q, (errorCount p + 1)%Z) in
  let satisfaction :=
    match userRating metrics with
    | Some rating =>
        if Qeq_bool rating 0 then userSatisfaction p
        else ((userSatisfaction p * (n - 1) + rating) / n)%Q
    | None => userSatisfaction p
    end in
  {| averageLatency := avg; successRate := rate; userSatisfaction := satisfaction;
     totalRequests := total; errorCount := errors |}.

Definition setPerformance (m : LLMModel) (p : Performance) : LLMModel :=
  {| name := name m; type := type m; specialization := specialization m;
     performance := p; capabilities := capabilities m; isActive := isActive m |}.

(** [LLMModel.findOne({ name })] and [model.save()] on the collection. *)
Definition findOne (collection : list LLMModel) (modelName : string) : option LLMModel :=
  List.find (fun m => String.eqb (name m) modelName) collection.

Fixpoint save (doc : LLMModel) (collection : list LLMModel) : list LLMModel :=
  match collection with
  | [] => []
  | m :: rest =>
      if String.eqb (name m) (name doc) then doc :: rest else m :: save doc rest
  end.

Definition updateModelPerformance (collection : list LLMModel)
  (modelName : string) (metrics : Metrics) : list LLMModel :=
  match findOne collection modelName with
  | Some m => save (setPerformance m (updatePerformance (performance m) metrics)) collection
  | None => collection
  end.

(** [recordOutcome] called once per element of [outcomes], in order. *)
Definition recordOutcomes (collection : list LLMModel) (modelName : string)
  (outcomes : list Metrics) : list LLMModel :=
  foldl (fun c metrics => updateModelPerformance c modelName metrics) collection outcomes.

(** *** Status report *)

Record ModelStatus := {
  status_name : string;
  status_type : string;
  status_specialization : string;
  status_isActive : bool;
  status_currentLoad : Z;
  status_performance : Performance
}.

Definition getModelStatus (r : Router) : list ModelStatus :=
  map (fun m =>
         {| status_name := name m; status_type := type m;
            status_specialization := specialization m;
            status_isActive := isActive m;
            status_currentLoad := currentLoad r m;
            status_performance := performance m |})
      (Map_values (llmModels r)).

End MultiLLMRouter.

(** ** The agent protocol (class [MCPProtocol]) *)

Module MCPProtocol.
Import JS.

(** *** Data *)

(** An object of configuration values, each kept as its JSON text. *)
Definition Config := list (string * string).

(** [{ ...a, ...b }]. *)
Definition spread (a b : Config) : Config :=
  foldl (fun acc kv => Map_set (fst kv) (snd kv) acc) a b.

Inductive ToolFunction :=
| webSearchTool | fileAnalysisTool | contentGenerationTool
| calculationTool | codeExecutionTool.

Record Tool := {
  tool_id : string;
  function : ToolFunction;
  tool_registeredAt : Z;
  usageCount : Z;
  lastUsed : option Z
}.

Record AgentDefinition := {
  def_name : string;
  description : string;
  def_capabilities : list string;
  def_tools : list string;
  defaultConfig : Config;
  def_id : string;
  def_registeredAt : Z;
  activeSessions : list string
}.

Record ActionResult := {
  res_action : string;
  res_agentId : string;
  res_instanceId : string;
  res_timestamp : Z;
  data : string
}.

Record AgentInstance := {
  instanceId : string;
  agentId : string;
  inst_sessionId : string;
  inst_config : Config;
  state : string;
  capabilities : list string;
  inst_availableTools : list string;
  memory : gmap string string;
  executionHistory : list ActionResult;
  inst_createdAt : Z
}.

Record Context := {
  ctx_sessionId : string;
  globalContext : gmap string string;
  agentContexts : list (string * AgentInstance);
  sharedMemory : gmap string string;
  executionStack : list string;
  currentTask : option string;
  metadata : Z * Z
}.

Record MCPMessage := {
  messageId : string;
  msg_sessionId : string;
  content : string;
  timestamp : Z;
  sender : string;
  msg_type : string;
  msg_metadata : Config
}.

Record SessionConfig := { maxAgents : Z; maxTools : Z; timeout : Z }.

(** The caller's [sessionConfig]: each key may be absent. *)
Record SessionOptions := {
  opt_maxAgents : option Z;
  opt_maxTools : option Z;
  opt_timeout : option Z
}.

Record Session := {
  sessionId : string;
  userId : string;
  createdAt : Z;
  lastActivity : Z;
  config : SessionConfig;
  activeAgents : list string;
  availableTools : list string;
  context : Context;
  messageHistory : list MCPMessage;
  isActive : bool;
  endTime : option Z
}.

Inductive Event :=
| sessionCreated (sessionId userId : string)
| agentSpawned (sessionId agentInstanceId agentId : string)
| messageProcessed (sessionId messageId : string)
| sessionClosed (sessionId : string).

(** The value stored in [this.contexts] under a session id is the very
    object held in that session's [context] field; the map entry is kept as
    a reference to it. *)
Inductive ContextRef := ContextOf (sessionId : string).

(** The protocol object, with the part of the environment it reads: the
    clock behind [new Date()] and the number of identifiers drawn from
    [uuidv4] so far.  [events] is the sequence of [emit] calls. *)
Record Protocol := {
  sessions : gmap string Session;
  agents : gmap string AgentDefinition;
  tools : list (string * Tool);
  contexts : gmap string ContextRef;
  messageQueue : gmap string (list MCPMessage);
  events : list Event;
  now : Z;
  drawn : nat
}.

Record Intent := {
  intent_type : string;
  confidence : Q;
  entities : list string;
  requiredCapabilities : list string;
  intent_complexity : string
}.

Record Step := { action : string; agent : string; step_tools : list string }.

Record Plan := {
  planId : string;
  intent : Intent;
  steps : list Step;
  estimatedDuration : Z;
  requiredAgents : list string;
  requiredTools : list string
}.

Inductive Status := executing | completed | failed.

Record StepExecution := {
  stepId : string;
  se_action : string;
  se_agentId : string;
  se_tools : list string;
  se_startTime : Z;
  se_status : Status;
  result : ActionResult;
  se_endTime : Z;
  se_duration : Z
}.

Record Execution := {
  ex_planId : string;
  ex_sessionId : string;
  startTime : Z;
  ex_steps : list StepExecution;
  results : list ActionResult;
  status : Status;
  error : option string;
  ex_endTime : option Z;
  duration : option Z
}.

Record PlanMetadata := {
  md_planId : string;
  md_duration : option Z;
  stepsExecuted : nat;
  agentsUsed : list string;
  toolsUsed : list string
}.

Record PlanResult := {
  response : string;
  execution : Execution;
  plan_metadata : PlanMetadata
}.

Record MessageOptions := {
  opt_sender : option string;
  opt_type : option string;
  opt_metadata : option Config
}.

Record SessionInfo := {
  info_sessionId : string;
  info_userId : string;
  info_createdAt : Z;
  info_lastActivity : Z;
  info_activeAgents : list string;
  messageCount : nat;
  info_isActive : bool
}.

(** *** Field updates *)

Definition with_sessions (f : gmap string Session -> gmap string Session)
  (p : Protocol) : Protocol :=
  {| sessions := f (sessions p); agents := agents p; tools := tools p;
     contexts := contexts p; messageQueue := messageQueue p;
     events := events p; now := now p; drawn := drawn p |}.

Definition with_agents (f : gmap string AgentDefinition -> gmap string AgentDefinition)
  (p : Protocol) : Protocol :=
  {| sessions := sessions p; agents := f (agents p); tools := tools p;
     contexts := contexts p; messageQueue := messageQueue p;
     events := events p; now := now p; drawn := drawn p |}.

Definition with_tools (f : list (string * Tool) -> list (string * Tool))
  (p : Protocol) : Protocol :=
  {| sessions := sessions p; agents := agents p; tools := f (tools p);
     contexts := contexts p; messageQueue := messageQueue p;
     events := events p; now := now p; drawn := drawn p |}.

Definition with_contexts (f : gmap string ContextRef -> gmap string ContextRef)
  (p : Protocol) : Protocol :=
  {| sessions := sessions p; agents := agents p; tools := tools p;
     contexts := f (contexts p); messageQueue := messageQueue p;
     events := events p; now := now p; drawn := drawn p |}.

Definition emit (e : Event) (p : Protocol) : Protocol :=
  {| sessions := sessions p; agents := agents p; tools := tools p;
     contexts := contexts p; messageQueue := messageQueue p;
     events := events p ++ [e]; now := now p; drawn := drawn p |}.

Definition with_drawn (n : nat) (p : Protocol) : Protocol :=
  {| sessions := sessions p; agents := agents p; tools := tools p;
     contexts := contexts p; messageQueue := messageQueue p;
     events := events p; now := now p; drawn := n |}.

(** The environment lets time pass between two calls. *)
Definition tick (dt : Z) (p : Protocol) : Protocol :=
  {| sessions := sessions p; agents := agents p; tools := tools p;
     contexts := contexts p; messageQueue := messageQueue p;
     events := events p; now := (now p + dt)%Z; drawn := drawn p |}.

Definition with_context (f : Context -> Context) (s : Session) : Session :=
  {| sessionId := sessionId s; userId := userId s; createdAt := createdAt s;
     lastActivity := lastActivity s; config := config s;
     activeAgents := activeAgents s; availableTools := availableTools s;
     context := f (context s); messageHistory := messageHistory s;
     isActive := isActive s; endTime := endTime s |}.

Definition with_activeAgents (f : list string -> list string) (s : Session) : Session :=
  {| sessionId := sessionId s; userId := userId s; createdAt := createdAt s;
     lastActivity := lastActivity s; config := config s;
     activeAgents := f (activeAgents s); availableTools := availableTools s;
     context := context s; messageHistory := messageHistory s;
     isActive := isActive s; endTime := endTime s |}.

Definition with_lastActivity (t : Z) (s : Session) : Session :=
  {| sessionId := sessionId s; userId := userId s; createdAt := createdAt s;
     lastActivity := t; config := config s;
     activeAgents := activeAgents s; availableTools := availableTools s;
     context := context s; messageHistory := messageHistory s;
     isActive := isActive s; endTime := endTime s |}.

Definition push_message (m : MCPMessage) (s : Session) : Session :=
  {| sessionId := sessionId s; userId := userId s; createdAt := createdAt s;
     lastActivity := lastActivity s; config := config s;
     activeAgents := activeAgents s; availableTools := availableTools s;
     context := context s; messageHistory := messageHistory s ++ [m];
     isActive := isActive s; endTime := endTime s |}.

Definition deactivate (t : Z) (s : Session) : Session :=
  {| sessionId := sessionId s; userId := userId s; createdAt := createdAt s;
     lastActivity := lastActivity s; config := config s;
     activeAgents := activeAgents s; availableTools := availableTools s;
     context := context s; messageHistory := messageHistory s;
     isActive := false; endTime := Some t |}.

Definition with_agentContexts
  (f : list (string * AgentInstance) -> list (string * AgentInstance))
  (c : Context) : Context :=
  {| ctx_sessionId := ctx_sessionId c; globalContext := globalContext c;
     agentContexts := f (agentContexts c); sharedMemory := sharedMemory c;
     executionStack := executionStack c; currentTask := currentTask c;
     metadata := metadata c |}.

Definition push_history (r : ActionResult) (a : AgentInstance) : AgentInstance :=
  {| instanceId := instanceId a; agentId := agentId a;
     inst_sessionId := inst_sessionId a; inst_config := inst_config a;
     state := state a; capabilities := capabilities a;
     inst_availableTools := inst_availableTools a; memory := memory a;
     executionHistory := executionHistory a ++ [r];
     inst_createdAt := inst_createdAt a |}.

(** *** The monad of the protocol's methods *)

Definition M (A : Type) : Type := Protocol -> Completion A * Protocol.

Definition ret {A} (a : A) : M A := fun p => (Normal a, p).

Definition bind {A B} (c : M A) (k : A -> M B) : M B :=
  fun p =>
    match c p with
    | (Normal a, p') => k a p'
    | (Throw e, p') => (Throw e, p')
    end.

Definition throw {A} (message : string) : M A := fun p => (Throw message, p).

(** Reading the property [name] of an argument that may be [null]: of
    [null] it throws the engine's [TypeError]. *)
Definition property {A} (name : string) (o : Nullable A) : M A :=
  match o with
  | Null => throw (typeError name)
  | Obj a => ret a
  end.

Definition gets {A} (f : Protocol -> A) : M A := fun p => (Normal (f p), p).

Definition modify (f : Protocol -> Protocol) : M unit := fun p => (Normal tt, f p).

Notation "x <- c ;; k" := (bind c (fun x => k))
  (at level 100, c at next level, right associativity).
Notation "c ;;; k" := (bind c (fun _ => k))
  (at level 100, right associativity).

(** *** Registries *)

Definition registerAgent (id : string) (d : AgentDefinition) : M unit :=
  t <- gets now;;
  modify (with_agents (insert id
    {| def_name := def_name d; description := description d;
       def_capabilities := def_capabilities d; def_tools := def_tools d;
       defaultConfig := defaultConfig d; def_id := id;
       def_registeredAt := t; activeSessions := [] |})).

Definition registerTool (toolId : string) (toolFunction : ToolFunction) : M unit :=
  t <- gets now;;
  modify (with_tools (Map_set toolId
    {| tool_id := toolId; function := toolFunction; tool_registeredAt := t;
       usageCount := 0; lastUsed := None |})).

Definition agentTemplate (nm descr : string) (caps tls : list string) (cfg : Config)
  : AgentDefinition :=
  {| def_name := nm; description := descr; def_capabilities := caps;
     def_tools := tls; defaultConfig := cfg; def_id := ""; def_registeredAt := 0;
     activeSessions := [] |}.

Definition createResearchAgent : AgentDefinition :=
  agentTemplate "Research Agent"
    "Specialized in information gathering and research"
    ["web_search"; "data_collection"; "source_verification"]
    ["web_search"; "file_analysis"]
    [("maxSources", "10"); ("searchDepth", "comprehensive"); ("verifyFacts", "true")].

Definition createAnalysisAgent : AgentDefinition :=
  agentTemplate "Analysis Agent"
    "Specialized in data analysis and pattern recognition"
    ["data_analysis"; "pattern_recognition"; "insight_generation"]
    ["file_analysis"; "calculation"]
    [("analysisDepth", "detailed"); ("includeVisualization", "false");
     ("confidenceThreshold", "0.8")].

Definition createCreativeAgent : AgentDefinition :=
  agentTemplate "Creative Agent"
    "Specialized in content creation and creative tasks"
    ["content_generation"; "creative_writing"; "ideation"]
    ["content_generation"]
    [("creativityLevel", "high"); ("tone", "professional"); ("includeExamples", "true")].

Definition createProblemSolverAgent : AgentDefinition :=
  agentTemplate "Problem Solver Agent"
    "Specialized in problem-solving and logical reasoning"
    ["logical_reasoning"; "problem_decomposition"; "solution_synthesis"]
    ["calculation"; "code_execution"]
    [("approachStyle", "systematic"); ("showWorkingSteps", "true");
     ("verifyResults", "true")].

Definition initializeProtocol : M unit :=
  registerTool "web_search" webSearchTool;;;
  registerTool "file_analysis" fileAnalysisTool;;;
  registerTool "content_generation" contentGenerationTool;;;
  registerTool "calculation" calculationTool;;;
  registerTool "code_execution" codeExecutionTool;;;
  registerAgent "research_agent" createResearchAgent;;;
  registerAgent "analysis_agent" createAnalysisAgent;;;
  registerAgent "creative_agent" createCreativeAgent;;;
  registerAgent "problem_solver_agent" createProblemSolverAgent.

(** The protocol object as the constructor leaves it, at time [t0]. *)
Definition emptyProtocol (t0 : Z) : Protocol :=
  {| sessions := ∅; agents := ∅; tools := []; contexts := ∅; messageQueue := ∅;
     events := []; now := t0; drawn := 0 |}.

Definition newProtocol (t0 : Z) : Protocol := snd (initializeProtocol (emptyProtocol t0)).

(** *** Intent analysis and planning *)

Definition analyzeIntent (message : string) (context : Context) : Intent :=
  let keywords := toLowerCase message in
  let has k := str_includes k keywords in
  let '(ty, caps, conf) :=
    if has "search" || has "find" || has "look up" then
      ("information_retrieval", ["web_search"; "data_analysis"], 0.8%Q)
    else if has "analyze" || has "examine" || has "study" then
      ("analysis", ["data_analysis"; "pattern_recognition"], 0.8%Q)
    else if has "create" || has "generate" || has "make" then
      ("content_creation", ["content_generation"; "creative_writing"], 0.8%Q)
    else if has "solve" || has "calculate" || has "compute" then
      ("problem_solving", ["calculation"; "logical_reasoning"], 0.8%Q)
    else if has "explain" || has "teach" || has "how" then
      ("educational", ["knowledge_synthesis"; "explanation"], 0.7%Q)
    else ("unknown", [], 0.5%Q) in
  let cx :=
    if (500 <? String.length message) || has "complex" || has "detailed" then "high"
    else if String.length message <? 50 then "low"
    else "medium" in
  {| intent_type := ty; confidence := conf; entities := [];
     requiredCapabilities := caps; intent_complexity := cx |}.

Definition mkStep (a g : string) (ts : list string) : Step :=
  {| action := a; agent := g; step_tools := ts |}.

Definition routingTable (ty : string) : list string * list string * list Step :=
  if String.eqb ty "information_retrieval" then
    (["research_agent"], ["web_search"],
     [mkStep "search_information" "research_agent" ["web_search"];
      mkStep "synthesize_results" "analysis_agent" ["content_generation"]])
  else if String.eqb ty "analysis" then
    (["analysis_agent"], ["file_analysis"; "calculation"],
     [mkStep "analyze_data" "analysis_agent" ["file_analysis"];
      mkStep "generate_insights" "analysis_agent" ["calculation"]])
  else if String.eqb ty "content_creation" then
    (["creative_agent"], ["content_generation"],
     [mkStep "plan_content" "creative_agent" [];
      mkStep "generate_content" "creative_agent" ["content_generation"]])
  else if String.eqb ty "problem_solving" then
    (["problem_solver_agent"], ["calculation"; "code_execution"],
     [mkStep "analyze_problem" "problem_solver_agent" [];
      mkStep "solve_problem" "problem_solver_agent" ["calculation"; "code_execution"]])
  else
    (["research_agent"; "analysis_agent"], ["web_search"; "content_generation"],
     [mkStep "gather_information" "research_agent" ["web_search"];
      mkStep "process_response" "analysis_agent" ["content_generation"]]).

Section WithIdentifiers.

(** [uuidv4 n] is the [n]-th identifier the generator hands out. *)
Variable uuidv4 : nat -> string.

Definition draw : M string :=
  fun p => (Normal (uuidv4 (drawn p)), with_drawn (S (drawn p)) p).

Definition createRoutingPlan (i : Intent) (sid : string) : M Plan :=
  id <- draw;;
  let '(ags, tls, sts) := routingTable (intent_type i) in
  ret {| planId := id; intent := i; steps := sts;
         estimatedDuration := (Z.of_nat (length sts) * 5000)%Z;
         requiredAgents := ags; requiredTools := tls |}.

(** *** Sessions and agents *)

Definition createSessionContext (sid : string) : M Context :=
  t <- gets now;;
  modify (with_contexts (insert sid (ContextOf sid)));;;
  ret {| ctx_sessionId := sid; globalContext := ∅; agentContexts := [];
         sharedMemory := ∅; executionStack := []; currentTask := None;
         metadata := (t, t) |}.

(** [a || d] on an optional number, then the override of [...sessionConfig]
    when the key is present. *)
Definition configValue (o : option Z) (d : Z) : Z :=
  let base := match o with
              | Some v => if (v =? 0)%Z then d else v
              | None => d
              end in
  match o with Some v => v | None => base end.

Definition createSession (uid : string) (sessionConfig : Nullable SessionOptions)
  : M string :=
  sid <- draw;;
  t <- gets now;;
  sessionConfig <- property "maxAgents" sessionConfig;;
  ctx <- createSessionContext sid;;
  tls <- gets tools;;
  let session :=
    {| sessionId := sid; userId := uid; createdAt := t; lastActivity := t;
       config := {| maxAgents := configValue (opt_maxAgents sessionConfig) 5;
                    maxTools := configValue (opt_maxTools sessionConfig) 10;
                    timeout := configValue (opt_timeout sessionConfig) 300000 |};
       activeAgents := []; availableTools := map fst tls; context := ctx;
       messageHistory := []; isActive := true; endTime := None |} in
  modify (with_sessions (insert sid session));;;
  modify (emit (sessionCreated sid uid));;;
  ret sid.

(** The session object of a method call is the one the map holds under the
    id; a mutation of the object is a mutation of that entry. *)
Definition updateSession (sid : string) (f : Session -> Session) : M unit :=
  modify (with_sessions (alter f sid)).

(** The guard shared by [spawnAgent] and [processMessage]. *)
Definition activeSession (sid : string) : M Session :=
  s <- gets (fun p => sessions p !! sid);;
  match s with
  | Some session =>
      if isActive session then ret session
      else throw "Invalid or inactive session"
  | None => throw "Invalid or inactive session"
  end.

Definition spawnAgent (sid aid : string) (agentConfig : Config) : M string :=
  session <- activeSession sid;;
  d <- gets (fun p => agents p !! aid);;
  match d with
  | None => throw ("Agent " ++ aid ++ " not found")
  | Some agentDefinition =>
      if (maxAgents (config session) <=? Z.of_nat (length (activeAgents session)))%Z
      then throw "Maximum number of agents reached for this session"
      else
        u <- draw;;
        t <- gets now;;
        let agentInstanceId := aid ++ "_" ++ u in
        let agentInstance :=
          {| instanceId := agentInstanceId; agentId := aid; inst_sessionId := sid;
             inst_config := spread (defaultConfig agentDefinition) agentConfig;
             state := "idle"; capabilities := def_capabilities agentDefinition;
             inst_availableTools := foldl (fun s x => Set_add x s) [] (def_tools agentDefinition);
             memory := ∅; executionHistory := []; inst_createdAt := t |} in
        updateSession sid (with_activeAgents (Set_add agentInstanceId));;;
        updateSession sid
          (with_context (with_agentContexts (Map_set agentInstanceId agentInstance)));;;
        modify (emit (agentSpawned sid agentInstanceId aid));;;
        ret agentInstanceId
  end.

Definition closeSession (sid : string) : M unit :=
  s <- gets (fun p => sessions p !! sid);;
  match s with
  | Some session =>
      t <- gets now;;
      updateSession sid (deactivate t);;;
      modify (with_contexts (delete sid));;;
      modify (emit (sessionClosed sid))
  | None => ret tt
  end.

Definition getSessionInfo (sid : string) (p : Protocol) : option SessionInfo :=
  match sessions p !! sid with
  | None => None
  | Some session =>
      Some {| info_sessionId := sessionId session; info_userId := userId session;
              info_createdAt := createdAt session;
              info_lastActivity := lastActivity session;
              info_activeAgents := activeAgents session;
              messageCount := length (messageHistory session);
              info_isActive := isActive session |}
  end.

(** *** Plan execution *)

Definition performWebSearch (tls : list string) : string :=
  if includes "web_search" tls
  then "Performed web search and found relevant information."
  else "Web search not available.".

Definition performDataAnalysis (tls : list string) : string :=
  if includes "file_analysis" tls
  then "Analyzed data and identified key patterns."
  else "Data analysis not available.".

Definition performContentGeneration (tls : list string) : string :=
  if includes "content_generation" tls
  then "Generated comprehensive content based on requirements."
  else "Content generation not available.".

Definition performProblemSolving (tls : list string) : string :=
  if includes "calculation" tls
  then "Solved the problem using mathematical analysis."
  else "Problem solving tools not available.".

(** The instance that [executeStep] finds: the first value of
    [agentContexts], in insertion order, spawned from the template. *)
Definition findAgentInstance (sid aid : string) (p : Protocol) : option AgentInstance :=
  match sessions p !! sid with
  | Some session =>
      List.find (fun a => String.eqb (agentId a) aid)
                (Map_values (agentContexts (context session)))
  | None => None
  end.

(** A mutation of the instance found: of the first entry for the template. *)
Fixpoint alterFound (aid : string) (f : AgentInstance -> AgentInstance)
  (m : list (string * AgentInstance)) : list (string * AgentInstance) :=
  match m with
  | [] => []
  | (k, a) :: rest =>
      if String.eqb (agentId a) aid then (k, f a) :: rest
      else (k, a) :: alterFound aid f rest
  end.

Definition executeAgentAction (agentInstance : AgentInstance) (act : string)
  (tls : list string) (sid : string) : M ActionResult :=
  t <- gets now;;
  let d :=
    if String.eqb act "search_information" then performWebSearch tls
    else if String.eqb act "analyze_data" then performDataAnalysis tls
    else if String.eqb act "generate_content" then performContentGeneration tls
    else if String.eqb act "solve_problem" then performProblemSolving tls
    else "Executed " ++ act ++ " with agent " ++ agentId agentInstance in
  let actionResult :=
    {| res_action := act; res_agentId := agentId agentInstance;
       res_instanceId := instanceId agentInstance; res_timestamp := t;
       data := d |} in
  updateSession sid
    (with_context (with_agentContexts
       (alterFound (agentId agentInstance) (push_history actionResult))));;;
  ret actionResult.

(** [executeStep]: the step record is local and is returned once completed;
    when the step fails the record is marked [failed] and dropped, and the
    error is thrown on. *)
Definition executeStep (step : Step) (sid : string) : M StepExecution :=
  id <- draw;;
  t <- gets now;;
  found <- gets (findAgentInstance sid (agent step));;
  match found with
  | None => throw ("Agent " ++ agent step ++ " not found in session")
  | Some agentInstance =>
      r <- executeAgentAction agentInstance (action step) (step_tools step) sid;;
      t' <- gets now;;
      ret {| stepId := id; se_action := action step; se_agentId := agent step;
             se_tools := step_tools step; se_startTime := t;
             se_status := completed; result := r;
             se_endTime := t'; se_duration := (t' - t)%Z |}
  end.

(** Whether some active instance of the session was spawned from [aid]. *)
Definition hasAgentInstance (sid aid : string) (p : Protocol) : bool :=
  match sessions p !! sid with
  | Some session =>
      existsb (fun i =>
                 match Map_get i (agentContexts (context session)) with
                 | Some a => String.eqb (agentId a) aid
                 | None => false
                 end)
              (activeAgents session)
  | None => false
  end.

Fixpoint ensureAgents (required : list string) (sid : string) : M unit :=
  match required with
  | [] => ret tt
  | aid :: rest =>
      present <- gets (hasAgentInstance sid aid);;
      (if present then ret tt else (_ <- spawnAgent sid aid [];; ret tt));;;
      ensureAgents rest sid
  end.

Definition record_step (se : StepExecution) (r : ActionResult) (e : Execution)
  : Execution :=
  {| ex_planId := ex_planId e; ex_sessionId := ex_sessionId e;
     startTime := startTime e; ex_steps := ex_steps e ++ [se];
     results := results e ++ [r]; status := status e; error := error e;
     ex_endTime := ex_endTime e; duration := duration e |}.

Definition finish (st : Status) (err : option string) (t : Z) (d : option Z)
  (e : Execution) : Execution :=
  {| ex_planId := ex_planId e; ex_sessionId := ex_sessionId e;
     startTime := startTime e; ex_steps := ex_steps e; results := results e;
     status := st; error := err; ex_endTime := Some t; duration := d |}.

(** The loop over [plan.steps], threading the local [execution] record. *)
Fixpoint executeSteps (sts : list Step) (sid : string) (e : Execution) (p : Protocol)
  : Completion unit * Execution * Protocol :=
  match sts with
  | [] => (Normal tt, e, p)
  | step :: rest =>
      match executeStep step sid p with
      | (Normal se, p') => executeSteps rest sid (record_step se (result se) e) p'
      | (Throw msg, p') => (Throw msg, e, p')
      end
  end.

Definition nl : string := String (ascii_of_nat 10) "".

Fixpoint synthesizeLines (rs : list ActionResult) (index : nat) : string :=
  match rs with
  | [] => ""
  | r :: rest =>
      (if String.eqb (data r) "" then ""
       else toDecimal (index + 1) ++ ". " ++ data r ++ nl)
      ++ synthesizeLines rest (S index)
  end.

Definition closingRemark : string :=
  "This response was generated using multiple AI agents working together through the Model Context Protocol.".

Definition synthesizeResponse (rs : list ActionResult) (originalMessage : MCPMessage)
  : string :=
  "Based on my analysis:" ++ nl ++ nl ++ synthesizeLines rs 0 ++ nl ++ closingRemark.

(** [executePlan], together with the local [execution] record as it is when
    the call completes.  On a failure the source marks the record and throws
    the error on; the record itself is not handed to the caller. *)
Definition executePlan_trace (plan : Plan) (sid : string) (originalMessage : MCPMessage)
  (p : Protocol) : Execution * Completion PlanResult * Protocol :=
  let e0 :=
    {| ex_planId := planId plan; ex_sessionId := sid; startTime := now p;
       ex_steps := []; results := []; status := executing; error := None;
       ex_endTime := None; duration := None |} in
  match ensureAgents (requiredAgents plan) sid p with
  | (Throw msg, p1) => (finish failed (Some msg) (now p1) None e0, Throw msg, p1)
  | (Normal _, p1) =>
      match executeSteps (steps plan) sid e0 p1 with
      | (Throw msg, e1, p2) =>
          (finish failed (Some msg) (now p2) None e1, Throw msg, p2)
      | (Normal _, e1, p2) =>
          let e2 := finish completed None (now p2) (Some (now p2 - startTime e1)%Z) e1 in
          (e2,
           Normal {| response := synthesizeResponse (results e2) originalMessage;
                     execution := e2;
                     plan_metadata :=
                       {| md_planId := planId plan; md_duration := duration e2;
                          stepsExecuted := length (ex_steps e2);
                          agentsUsed := requiredAgents plan;
                          toolsUsed := requiredTools plan |} |},
           p2)
      end
  end.

Definition executePlan (plan : Plan) (sid : string) (originalMessage : MCPMessage)
  : M PlanResult :=
  fun p => let '(_, c, p') := executePlan_trace plan sid originalMessage p in (c, p').

(** *** Message processing *)

Definition orDefault (o : option string) (d : string) : string :=
  match o with
  | Some v => if String.eqb v "" then d else v
  | None => d
  end.

Definition processMessage (sid message : string) (options : Nullable MessageOptions)
  : M PlanResult :=
  session <- activeSession sid;;
  t <- gets now;;
  updateSession sid (with_lastActivity t);;;
  id <- draw;;
  options <- property "sender" options;;
  let mcpMessage :=
    {| messageId := id; msg_sessionId := sid; content := message; timestamp := t;
       sender := orDefault (opt_sender options) "user";
       msg_type := orDefault (opt_type options) "query";
       msg_metadata := match opt_metadata options with Some m => m | None => [] end |} in
  updateSession sid (push_message mcpMessage);;;
  let i := analyzeIntent message (context session) in
  routingPlan <- createRoutingPlan i sid;;
  r <- executePlan routingPlan sid mcpMessage;;
  modify (emit (messageProcessed sid id));;;
  ret r.

(** *** Sequences of calls *)

(** One call of the exposed operations, or the passing of time. *)
Inductive Op :=
| CreateSession (uid : string) (sessionConfig : Nullable SessionOptions)
| SpawnAgent (sid aid : string) (agentConfig : Config)
| ProcessMessage (sid message : string) (options : Nullable MessageOptions)
| CloseSession (sid : string)
| Tick (dt : Z).

(** The state a call leaves behind, whether it returns or throws. *)
Definition step (o : Op) (p : Protocol) : Protocol :=
  match o with
  | CreateSession uid cfg => snd (createSession uid cfg p)
  | SpawnAgent sid aid cfg => snd (spawnAgent sid aid cfg p)
  | ProcessMessage sid message options => snd (processMessage sid message options p)
  | CloseSession sid => snd (closeSession sid p)
  | Tick dt => tick dt p
  end.

Definition run (ops : list Op) (p : Protocol) : Protocol :=
  foldl (fun p o => step o p) p ops.

End WithIdentifiers.

(** *** Statistics *)

Record SystemStats := {
  stats_activeSessions : nat;
  totalSessions : nat;
  registeredAgents : nat;
  registeredTools : nat;
  totalContexts : nat
}.

Definition getSystemStats (p : Protocol) : SystemStats :=
  {| stats_activeSessions :=
       length (filter (fun s => isActive s = true)
                 (snd <$> map_to_list (sessions p)));
     totalSessions := size (sessions p);
     registeredAgents := size (agents p);
     registeredTools := length (tools p);
     totalContexts := size (contexts p) |}.

End MCPProtocol.

(** ** Specification-side definitions

    The statements of the specification, written from its words, against
    which the functions above are compared. *)

Module Spec.
Import JS.

(** [x] is the first maximum of [l]: strictly above every element before
    it, at least every element after it. *)
Definition firstMax {A} (x : A * Q) (l : list (A * Q)) : Prop :=
  exists pre post,
    l = (pre ++ x :: post)%list
    /\ Forall (fun y => (snd y < snd x)%Q) pre
    /\ Forall (fun y => (snd y <= snd x)%Q) post.

(** The request-type to specialization table. *)
Definition specializationTable : list (list string * string) :=
  [ (["chat"; "conversation"], "chat");
    (["reasoning"; "analysis"; "problem_solving"], "reasoning");
    (["technical"; "code"; "engineering"], "technical");
    (["creative"; "content_generation"], "creative");
    (["academic"; "educational"], "academic") ].

Definition specializationFor (requestType : string) : option string :=
  snd <$> List.find (fun row => includes requestType (fst row)) specializationTable.

(** The model's specialization is the one the table gives the request
    type. *)
Definition matchesSpecialization (requestType specialization : string) : bool :=
  match specializationFor requestType with
  | Some s => String.eqb specialization s
  | None => false
  end.

(** The caller has a stored profile whose preferred type is the model's. *)
Definition preferredBy (userProfile : option MultiLLMRouter.UserProfile)
  (m : MultiLLMRouter.LLMModel) : bool :=
  match userProfile with
  | Some profile =>
      String.eqb (MultiLLMRouter.preferredLLM (MultiLLMRouter.preferences profile))
                 (MultiLLMRouter.type m)
  | None => false
  end.

(** The content is longer than the model's context. *)
Definition oversize (content : string) (m : MultiLLMRouter.LLMModel) : bool :=
  (MultiLLMRouter.maxContextLength (MultiLLMRouter.capabilities m)
   <? Z.of_nat (String.length content))%Z.

(** The score as the sum of its seven terms. *)
Definition score (matches preferred oversize : bool)
  (averageLatency successRate userSatisfaction : Q) (load : Z) : Q :=
  ((if matches then 50 else 0)
   + (100 - averageLatency / 10)
   + successRate * 0.3
   + userSatisfaction * 10
   + (if preferred then 20 else 0)
   - 2 * inject_Z load
   - (if oversize then 100 else 0))%Q.

(** The sum of a list of rationals, and the arithmetic mean of a non-empty
    one. *)
Definition total (l : list Q) : Q := foldr Qplus 0%Q l.

Definition mean (l : list Q) : Q := (total l / inject_Z (Z.of_nat (length l)))%Q.

(** The sample a call contributes to the success rate. *)
Definition successSample (success : bool) : Q := if success then 100%Q else 0%Q.

(** The ordered keyword table of the intent classifier. *)
Definition intentTable : list (list string * string * Q) :=
  [ (["search"; "find"; "look up"], "information_retrieval", 0.8%Q);
    (["analyze"; "examine"; "study"], "analysis", 0.8%Q);
    (["create"; "generate"; "make"], "content_creation", 0.8%Q);
    (["solve"; "calculate"; "compute"], "problem_solving", 0.8%Q);
    (["explain"; "teach"; "how"], "educational", 0.7%Q) ].

(** The first row of the table one of whose keywords occurs in the
    lower-cased message; [unknown] at [0.5] when there is none. *)
Definition classify (message : string) : string * Q :=
  match List.find (fun row => existsb (fun k => str_includes k (toLowerCase message))
                                      (fst (fst row)))
                  intentTable with
  | Some (_, ty, conf) => (ty, conf)
  | None => ("unknown", 0.5%Q)
  end.

(** A session is closed: it is marked inactive and the context map has no
    entry for it. *)
Definition closed (sid : string) (p : MCPProtocol.Protocol) : Prop :=
  MCPProtocol.isActive <$> MCPProtocol.sessions p !! sid = Some false
  /\ MCPProtocol.contexts p !! sid = None.

(** No active session is stored under [sid]. *)
Definition inactive (sid : string) (p : MCPProtocol.Protocol) : Prop :=
  MCPProtocol.isActive <$> MCPProtocol.sessions p !! sid <> Some true.

(** The observation [f] of session [sid] is the same in [p'] as in [p]. *)
Definition keeps {X} (f : MCPProtocol.Session -> X) (sid : string)
  (p p' : MCPProtocol.Protocol) : Prop :=
  f <$> MCPProtocol.sessions p' !! sid = f <$> MCPProtocol.sessions p !! sid.

(** A method keeps the observation [f] of session [sid], and only ever
    draws further identifiers. *)
Definition preserves {A X} (f : MCPProtocol.Session -> X) (sid : string)
  (c : MCPProtocol.M A) : Prop :=
  forall p, keeps f sid p (snd (c p))
            /\ MCPProtocol.drawn p <= MCPProtocol.drawn (snd (c p)).

(** The templates of the agent instances of a session, in the order in
    which [executeStep] searches them. *)
Definition templates (s : MCPProtocol.Session) : list string :=
  map MCPProtocol.agentId
      (Map_values (MCPProtocol.agentContexts (MCPProtocol.context s))).

(** The error of a step whose agent has no instance in the session. *)
Definition notFound (st : MCPProtocol.Step) : string :=
  "Agent " ++ MCPProtocol.agent st ++ " not found in session".

(** The steps of a plan replaced. *)
Definition with_steps (sts : list MCPProtocol.Step) (plan : MCPProtocol.Plan)
  : MCPProtocol.Plan :=
  {| MCPProtocol.planId := MCPProtocol.planId plan;
     MCPProtocol.intent := MCPProtocol.intent plan;
     MCPProtocol.steps := sts;
     MCPProtocol.estimatedDuration := MCPProtocol.estimatedDuration plan;
     MCPProtocol.requiredAgents := MCPProtocol.requiredAgents plan;
     MCPProtocol.requiredTools := MCPProtocol.requiredTools plan |}.

End Spec.

(** ** JavaScript numbers

    A JavaScript number is an IEEE 754 binary64 value: Rocq's primitive
    [float], whose operations round to nearest, ties to even, as the
    engine's do. *)

Module Number.

(** The double nearest to an integer: the value of an integer-valued
    expression such as [s.length] or [set.size]. *)
Definition ofZ (z : Z) : float := SF2Prim (binary_normalize prec emax z 0 false).

(** What [if (x)], [!x] and [x || d] see of a number: [0], [-0] and [NaN] are
    falsy. *)
Definition truthy (x : float) : bool := negb (is_zero x || is_nan x).

(** [x || d] on numbers. *)
Definition orElse (x d : float) : float := if truthy x then x else d.

(** Finite values in the specification's inductive form. *)
Definition finiteSF (x : spec_float) : bool :=
  match x with
  | S754_zero _ | S754_finite _ _ _ => true
  | _ => false
  end.

(** An order embedding of the finite doubles into the integers: the
    exponent, then the mantissa, under the sign. *)
Definition rankSF (x : spec_float) : Z :=
  match x with
  | S754_finite s m e => cond_Zopp s ((e + 1075) * 2 ^ 53 + Zpos m)%Z
  | _ => 0%Z
  end.

Definition rank (x : float) : Z := rankSF (Prim2SF x).

(** [x] is the double [-0]. *)
Definition isNegZero (x : float) : Prop := Prim2SF x = S754_zero true.


End Number.

(** ** The model router over doubles

    The scoring, the selection and the outcome statistics of
    [MultiLLMRouter] once more, with every number the double the code
    computes.  [MultiLLMRouter] above reads the same functions in exact
    arithmetic, and is kept for the properties that do not depend on
    rounding (which fields are read, which entries change); a property that
    depends on the value of a score or of a statistic is stated here. *)

Module Binary64.
Import JS.
Local Open Scope float_scope.

Record Performance := {
  averageLatency : float;
  successRate : float;
  userSatisfaction : float;
  totalRequests : float;
  errorCount : float
}.

Record Capabilities := { maxContextLength : float }.

Record LLMModel := {
  name : string;
  type : string;
  specialization : string;
  performance : Performance;
  capabilities : Capabilities;
  isActive : bool
}.

(** The schema defaults of [performance]. *)
Definition defaultPerformance : Performance :=
  {| averageLatency := 0; successRate := 100; userSatisfaction := 5;
     totalRequests := 0; errorCount := 0 |}.

(** The router object.  A counter of [loadBalancer] is a number; it is [NaN]
    once [undefined + 1] was stored for a name that had no counter. *)
Record Router := {
  llmModels : list (string * LLMModel);
  loadBalancer : gmap string float
}.

Definition emptyRouter : Router := {| llmModels := []; loadBalancer := ∅ |}.

Definition initializeModels (collection : list LLMModel) (r : Router) : Router :=
  let models := filter (fun m => isActive m = true) collection in
  foldl (fun r model =>
           {| llmModels := Map_set (name model) model (llmModels r);
              loadBalancer := <[name model := 0]> (loadBalancer r) |})
        r models.

(** *** Scoring and selection *)

(** [this.loadBalancer.get(model.name) || 0]. *)
Definition currentLoad (r : Router) (model : LLMModel) : float :=
  match loadBalancer r !! name model with
  | Some n => Number.orElse n 0
  | None => 0
  end.

(** The criteria are those of [MultiLLMRouter.analyzeRequestCriteria]: they
    hold strings, booleans and the length of the content, an integer. *)
Definition calculateModelScore (r : Router) (model : LLMModel)
  (criteria : MultiLLMRouter.Criteria)
  (userProfile : option MultiLLMRouter.UserProfile) : float :=
  let score := 0 in
  (* Base specialization matching *)
  let ty := MultiLLMRouter.criteria_type criteria in
  let score :=
    if String.eqb ty "chat" || String.eqb ty "conversation" then
      if String.eqb (specialization model) "chat" then score + 50 else score
    else if String.eqb ty "reasoning" || String.eqb ty "analysis"
            || String.eqb ty "problem_solving" then
      if String.eqb (specialization model) "reasoning" then score + 50 else score
    else if String.eqb ty "technical" || String.eqb ty "code"
            || String.eqb ty "engineering" then
      if String.eqb (specialization model) "technical" then score + 50 else score
    else if String.eqb ty "creative" || String.eqb ty "content_generation" then
      if String.eqb (specialization model) "creative" then score + 50 else score
    else if String.eqb ty "academic" || String.eqb ty "educational" then
      if String.eqb (specialization model) "academic" then score + 50 else score
    else score in
  (* Performance factors *)
  let score := score + (100 - averageLatency (performance model) / 10) in
  let score := score + successRate (performance model) * 0.3 in
  let score := score + userSatisfaction (performance model) * 10 in
  (* User preference *)
  let score :=
    match userProfile with
    | Some profile =>
        if String.eqb (MultiLLMRouter.preferredLLM (MultiLLMRouter.preferences profile))
                      (type model)
        then score + 20 else score
    | None => score
    end in
  (* Load balancing *)
  let score := score - currentLoad r model * 2 in
  (* Context length requirements *)
  let score :=
    if maxContextLength (capabilities model)
       <? Number.ofZ (MultiLLMRouter.contentLength criteria)
    then score - 100 else score in
  score.

(** The comparator handed to [sort]: [(a, b) => b.score - a.score]. *)
Definition byScore {A} (a b : A * float) : float := snd b - snd a.

(** [Array.prototype.sort(comparefn)] with a comparator that returns a
    number: stable, [b] is placed before an earlier [a] only when
    [comparefn a b > 0] (a result of [0], [-0] or [NaN] keeps the order).
    When the comparator is consistent, which [byScore] is on finite scores,
    the result of a stable sort is unique; it is computed here by insertion
    from the right. *)
Section Sort.
Context {A : Type} (comparefn : A -> A -> float).

Fixpoint sort_insert (x : A) (l : list A) : list A :=
  match l with
  | [] => [x]
  | y :: l' =>
      if 0 <? comparefn x y then y :: sort_insert x l'
      else x :: y :: l'
  end.

Definition sort (l : list A) : list A := foldr sort_insert [] l.
End Sort.

(** [analyzeRequestCriteria] reads [context.urgency] last, after the other
    criteria, none of which has an effect: on [null] it throws. *)
Definition analyzeRequestCriteria (requestType content : string)
  (context : Nullable MultiLLMRouter.RequestContext)
  : Completion MultiLLMRouter.Criteria :=
  match context with
  | Null => Throw (typeError "urgency")
  | Obj c => Normal (MultiLLMRouter.analyzeRequestCriteria requestType content c)
  end.

Definition selectOptimalModel (r : Router) (requestType content : string)
  (userProfile : option MultiLLMRouter.UserProfile)
  (context : Nullable MultiLLMRouter.RequestContext) : Completion (option LLMModel) :=
  match analyzeRequestCriteria requestType content context with
  | Throw e => Throw e
  | Normal criteria =>
      let availableModels := Map_values (llmModels r) in
      let modelScores :=
        map (fun model => (model, calculateModelScore r model criteria userProfile))
            availableModels in
      let modelScores := sort byScore modelScores in
      match modelScores with
      | [] => Normal None
      | best :: _ => Normal (Some (fst best))
      end
  end.

(** *** Routing *)

Record Routing := {
  model : LLMModel;
  routingReason : string;
  estimatedLatency : float
}.

Definition getRoutingReason (requestType : string) (selectedModel : LLMModel) : string :=
  "Selected " ++ name selectedModel ++ " (" ++ type selectedModel ++ ") for "
  ++ requestType ++ " based on specialization: " ++ specialization selectedModel.

Section WithProfiles.

(** [UserProfile.findOne({ userId })], a query of the database library: it
    resolves to the profile stored for the id, or to [null], and it rejects
    when the id cannot be cast to the type of the schema's [userId], an
    ObjectId. *)
Variable UserProfile_findOne : string -> Completion (option MultiLLMRouter.UserProfile).

(** [routeRequest(requestType, content, userId, context = {})]: a caller
    that leaves [context] out passes [Obj] of the empty object. *)
Definition routeRequest (r : Router) (requestType content userId : string)
  (context : Nullable MultiLLMRouter.RequestContext) : Completion Routing * Router :=
  match UserProfile_findOne userId with
  | Throw e => (Throw e, r)
  | Normal userProfile =>
      match selectOptimalModel r requestType content userProfile context with
      | Throw e => (Throw e, r)
      | Normal None => (Throw "No suitable LLM model found for request", r)
      | Normal (Some selectedModel) =>
          let load :=
            match loadBalancer r !! name selectedModel with
            | Some n => n + 1
            | None => nan
            end in
          (Normal {| model := selectedModel;
                     routingReason := getRoutingReason requestType selectedModel;
                     estimatedLatency := averageLatency (performance selectedModel) |},
           {| llmModels := llmModels r;
              loadBalancer := <[name selectedModel := load]> (loadBalancer r) |})
      end
  end.

End WithProfiles.

(** *** Outcome feedback *)

(** The [metrics] of a call; [userRating] is [None] when the caller gives
    none. *)
Record Metrics := {
  latency : float;
  success : bool;
  userRating : option float
}.

(** The body of [updateModelPerformance] on the statistics of the document
    found. *)
Definition updatePerformance (p : Performance) (metrics : Metrics) : Performance :=
  let total := totalRequests p + 1 in
  let avg := (averageLatency p * (total - 1) + latency metrics) / total in
  let '(rate, errors) :=
    if success metrics
    then ((successRate p * (total - 1) + 100) / total, errorCount p)
    else ((successRate p * (total - 1)) / total, errorCount p + 1) in
  let satisfaction :=
    match userRating metrics with
    | Some rating =>
        if Number.truthy rating
        then (userSatisfaction p * (total - 1) + rating) / total
        else userSatisfaction p
    | None => userSatisfaction p
    end in
  {| averageLatency := avg; successRate := rate; userSatisfaction := satisfaction;
     totalRequests := total; errorCount := errors |}.

Definition setPerformance (m : LLMModel) (p : Performance) : LLMModel :=
  {| name := name m; type := type m; specialization := specialization m;
     performance := p; capabilities := capabilities m; isActive := isActive m |}.

(** [LLMModel.findOne({ name })] and [model.save()] on the collection. *)
Definition findOne (collection : list LLMModel) (modelName : string) : option LLMModel :=
  List.find (fun m => String.eqb (name m) modelName) collection.

Fixpoint save (doc : LLMModel) (collection : list LLMModel) : list LLMModel :=
  match collection with
  | [] => []
  | m :: rest =>
      if String.eqb (name m) (name doc) then doc :: rest else m :: save doc rest
  end.

Definition updateModelPerformance (collection : list LLMModel)
  (modelName : string) (metrics : Metrics) : list LLMModel :=
  match findOne collection modelName with
  | Some m => save (setPerformance m (updatePerformance (performance m) metrics)) collection
  | None => collection
  end.

(** [recordOutcome] called once per element of [outcomes], in order. *)
Definition recordOutcomes (collection : list LLMModel) (modelName : string)
  (outcomes : list Metrics) : list LLMModel :=
  foldl (fun c metrics => updateModelPerformance c modelName metrics) collection outcomes.

End Binary64.

(** ** Specification-side definitions over doubles *)

Module Spec64.
Import JS.
Local Open Scope float_scope.

(** The caller's stored preferred model type is the model's type. *)
Definition preferredBy (userProfile : option MultiLLMRouter.UserProfile)
  (m : Binary64.LLMModel) : bool :=
  match userProfile with
  | Some profile =>
      String.eqb (MultiLLMRouter.preferredLLM (MultiLLMRouter.preferences profile))
                 (Binary64.type m)
  | None => false
  end.

(** The content is longer than the model's maximal context. *)
Definition oversize (content : string) (m : Binary64.LLMModel) : bool :=
  Binary64.maxContextLength (Binary64.capabilities m)
  <? Number.ofZ (Z.of_nat (String.length content)).

(** The model's current load count: the counter stored for its name; a name
    without a counter, and a counter that is not a number, count as zero. *)
Definition load (r : Binary64.Router) (m : Binary64.LLMModel) : float :=
  match Binary64.loadBalancer r !! Binary64.name m with
  | Some n => if is_nan n || (n =? 0) then 0 else n
  | None => 0
  end.

(** The score as the sum of its seven terms, added from left to right. *)
Definition score (matches preferred oversize : bool)
  (averageLatency successRate userSatisfaction load : float) : float :=
  (if matches then 50 else 0)
  + (100 - averageLatency / 10)
  + successRate * 0.3
  + userSatisfaction * 10
  + (if preferred then 20 else 0)
  - 2 * load
  - (if oversize then 100 else 0).

(** [best] is the first element of [l] with the highest score: the elements
    before it score strictly less, the elements after it no more. *)
Definition firstMax {A} (best : A * float) (l : list (A * float)) : Prop :=
  exists pre post,
    l = (pre ++ best :: post)%list
    /\ Forall (fun x => (snd x <? snd best) = true) pre
    /\ Forall (fun x => (snd x <=? snd best) = true) post.

(** One step of a running mean over [n] samples. *)
Definition mean (oldMean n sample : float) : float := (oldMean * (n - 1) + sample) / n.

(** The sample a call contributes to the success rate. *)
Definition successSample (success : bool) : float := if success then 100 else 0.

End Spec64.

(** ** The HTTP handlers of the two services (routes/advancedFeatures.js)

    A handler reads fields of the request, calls the service and answers
    with a status code and a JSON body.  A field of the request body is
    [None] when the key is absent; [res.json] without [res.status] answers
    with 200. *)

Module Routes.
Import JS.

(** The bodies the handlers send. *)
Inductive Body :=
| Failure (error : string)
| Models (models : list MultiLLMRouter.ModelStatus)
| Routed (routing : Binary64.Routing)
| SessionCreated (sessionId : string)
| Processed (result : MCPProtocol.PlanResult)
| AgentSpawned (agentInstanceId : string)
| Info (info : MCPProtocol.SessionInfo)
| Closed (message : string)
| Stats (stats : MCPProtocol.SystemStats).

Record Response := { statusCode : nat; body : Body }.

Definition ok (b : Body) : Response := {| statusCode := 200; body := b |}.
Definition badRequest (e : string) : Response :=
  {| statusCode := 400; body := Failure e |}.
Definition notFound (e : string) : Response :=
  {| statusCode := 404; body := Failure e |}.
Definition serverError (e : string) : Response :=
  {| statusCode := 500; body := Failure e |}.

(** [!field] on an optional string. *)
Definition missing (field : option string) : bool :=
  match field with
  | Some v => String.eqb v ""
  | None => true
  end.

Definition orEmpty (field : option string) : string :=
  match field with Some v => v | None => "" end.

(** [GET /llm/models]. *)
Definition getLlmModels (r : MultiLLMRouter.Router) : Response :=
  ok (Models (MultiLLMRouter.getModelStatus r)).

(** An object-valued field of the request body: absent, in which case the
    default [{}] of the method's parameter applies, or present, as [null] or
    as an object. *)
Definition orEmptyObject {A} (empty : A) (field : option (Nullable A)) : Nullable A :=
  match field with
  | Some v => v
  | None => Obj empty
  end.

Section WithProfiles.
Variable UserProfile_findOne : string -> Completion (option MultiLLMRouter.UserProfile).

(** [POST /llm/route], over the router of [Binary64]. *)
Definition postLlmRoute (requestType content userId : option string)
  (context : option (Nullable MultiLLMRouter.RequestContext)) (r : Binary64.Router)
  : Response * Binary64.Router :=
  if missing requestType || missing content || missing userId then
    (badRequest "Missing required fields: requestType, content, userId", r)
  else
    match Binary64.routeRequest UserProfile_findOne r (orEmpty requestType)
            (orEmpty content) (orEmpty userId)
            (orEmptyObject {| MultiLLMRouter.urgency := None |} context) with
    | (Normal routing, r') => (ok (Routed routing), r')
    | (Throw e, r') => (serverError e, r')
    end.

End WithProfiles.

Section WithIdentifiers.
Variable uuidv4 : nat -> string.

Definition noSessionOptions : MCPProtocol.SessionOptions :=
  {| MCPProtocol.opt_maxAgents := None; MCPProtocol.opt_maxTools := None;
     MCPProtocol.opt_timeout := None |}.

Definition noMessageOptions : MCPProtocol.MessageOptions :=
  {| MCPProtocol.opt_sender := None; MCPProtocol.opt_type := None;
     MCPProtocol.opt_metadata := None |}.

(** [POST /mcp/session]. *)
Definition postSession (userId : option string)
  (sessionConfig : option (Nullable MCPProtocol.SessionOptions))
  (p : MCPProtocol.Protocol) : Response * MCPProtocol.Protocol :=
  if missing userId then (badRequest "Missing required field: userId", p)
  else
    match MCPProtocol.createSession uuidv4 (orEmpty userId)
            (orEmptyObject noSessionOptions sessionConfig) p with
    | (Normal sessionId, p') => (ok (SessionCreated sessionId), p')
    | (Throw e, p') => (serverError e, p')
    end.

(** [POST /mcp/session/:sessionId/message]. *)
Definition postMessage (sessionId : string) (message : option string)
  (options : option (Nullable MCPProtocol.MessageOptions)) (p : MCPProtocol.Protocol)
  : Response * MCPProtocol.Protocol :=
  if missing message then (badRequest "Missing required field: message", p)
  else
    match MCPProtocol.processMessage uuidv4 sessionId (orEmpty message)
            (orEmptyObject noMessageOptions options) p with
    | (Normal result, p') => (ok (Processed result), p')
    | (Throw e, p') => (serverError e, p')
    end.

(** [POST /mcp/session/:sessionId/agent]. *)
Definition postAgent (sessionId : string) (agentId : option string)
  (agentConfig : option MCPProtocol.Config) (p : MCPProtocol.Protocol)
  : Response * MCPProtocol.Protocol :=
  if missing agentId then (badRequest "Missing required field: agentId", p)
  else
    match MCPProtocol.spawnAgent uuidv4 sessionId (orEmpty agentId)
            (default [] agentConfig) p with
    | (Normal agentInstanceId, p') => (ok (AgentSpawned agentInstanceId), p')
    | (Throw e, p') => (serverError e, p')
    end.

(** [GET /mcp/session/:sessionId/info]. *)
Definition getInfo (sessionId : string) (p : MCPProtocol.Protocol) : Response :=
  match MCPProtocol.getSessionInfo sessionId p with
  | None => notFound "Session not found"
  | Some info => ok (Info info)
  end.

(** [DELETE /mcp/session/:sessionId]. *)
Definition deleteSession (sessionId : string) (p : MCPProtocol.Protocol)
  : Response * MCPProtocol.Protocol :=
  match MCPProtocol.closeSession sessionId p with
  | (Normal _, p') => (ok (Closed "Session closed successfully"), p')
  | (Throw e, p') => (serverError e, p')
  end.

(** [GET /mcp/stats]. *)
Definition getStats (p : MCPProtocol.Protocol) : Response :=
  ok (Stats (MCPProtocol.getSystemStats p)).

End WithIdentifiers.

End Routes.

(** ** Invariants and relations between states *)

Module Inv.
Import JS.

Module Router.
Import MultiLLMRouter.



(** Every entry of the registry is stored under its model's name and has a
    counter at zero. *)
Definition freshRegistry (collection : list LLMModel) (r : Router) : Prop :=
  Forall (fun kv => name (snd kv) = fst kv
                    /\ isActive (snd kv) = true
                    /\ In (snd kv) collection
                    /\ loadBalancer r !! fst kv = Some (Count 0))
         (llmModels r).

(** One turn of the loop of [initializeModels]. *)
Definition register (r : Router) (model : LLMModel) : Router :=
  {| llmModels := Map_set (name model) model (llmModels r);
     loadBalancer := <[name model := Count 0]> (loadBalancer r) |}.

(** The status entry of a model after one more request was routed to the
    model named [chosen]. *)
Definition served (chosen : string) (st : ModelStatus) : ModelStatus :=
  if String.eqb (status_name st) chosen then
    {| status_name := status_name st; status_type := status_type st;
       status_specialization := status_specialization st;
       status_isActive := status_isActive st;
       status_currentLoad := (status_currentLoad st + 1)%Z;
       status_performance := status_performance st |}
  else st.

(** The number of successful outcomes. *)
Definition successes (outcomes : list Metrics) : nat :=
  length (List.filter success outcomes).

End Router.

Module Protocol.
Import MCPProtocol.

(** A property of every session of the protocol. *)
Definition sessionsAll (P : Session -> Prop) (p : Protocol) : Prop :=
  forall sid s, sessions p !! sid = Some s -> P s.

(** A method keeps a property of every session. *)
Definition maintains {A} (P : Session -> Prop) (c : M A) : Prop :=
  forall p, sessionsAll P p -> sessionsAll P (snd (c p)).

(** The agent set and the agent map of a session hold the same ids in the
    same order, without repetition, and every instance is stored under its
    own id. *)
Definition agentsInSync (s : Session) : Prop :=
  map fst (agentContexts (context s)) = activeAgents s
  /\ NoDup (activeAgents s)
  /\ Forall (fun ka => instanceId (snd ka) = fst ka) (agentContexts (context s)).

(** Every instance is stored under an id made of its template id, an
    underscore and a suffix. *)
Definition wellKeyed (s : Session) : Prop :=
  Forall (fun ka => exists u, fst ka = (agentId (snd ka) ++ "_" ++ u)%string)
         (agentContexts (context s)).

(** No instance id of template [x] is an instance id of template [y]. *)
Definition apart (x y : string) : Prop :=
  forall u u', (x ++ "_" ++ u)%string <> (y ++ "_" ++ u')%string.

(** A session that can take a message: it is stored under [sid], active,
    and its agent set and agent map agree and are keyed by template. *)
Definition ready (sid : string) (q : Protocol) (s : Session) : Prop :=
  sessions q !! sid = Some s /\ isActive s = true /\ agentsInSync s /\ wellKeyed s.

(** A step of session [sid] finds an instance of template [x]. *)
Definition found (sid x : string) (q : Protocol) : Prop :=
  is_Some (findAgentInstance sid x q).


(** The context map has an entry exactly for the active sessions. *)
Definition contextsMatch (p : Protocol) : Prop :=
  forall sid,
    is_Some (contexts p !! sid) <-> isActive <$> sessions p !! sid = Some true.

(** A method only makes transitions of the relation [T]. *)
Definition respects {A} (T : Protocol -> Protocol -> Prop) (c : M A) : Prop :=
  forall p, T p (snd (c p)).

(** What no call undoes: the registries are as they were, identifiers are
    only drawn forward, and events are only appended. *)
Definition registriesKept (p p' : Protocol) : Prop :=
  agents p' = agents p
  /\ tools p' = tools p
  /\ drawn p <= drawn p'
  /\ events p `prefix_of` events p'.

(** A projection of the protocol state that a method leaves as it is. *)
Definition leaves {A Y} (g : Protocol -> Y) (c : M A) : Prop :=
  forall p, g (snd (c p)) = g p.

(** The session [sid], if there is one in [p], is still there in [p'] and
    related to what it was. *)
Definition advances (R : Session -> Session -> Prop) (sid : string)
  (p p' : Protocol) : Prop :=
  forall s, sessions p !! sid = Some s ->
            exists s', sessions p' !! sid = Some s' /\ R s s'.

Definition progresses {A} (R : Session -> Session -> Prop) (sid : string)
  (c : M A) : Prop :=
  forall p, advances R sid p (snd (c p)).

(** How a session may change over time: its identity and configuration are
    fixed, its agents and its messages are only ever added at the end, and
    once inactive it stays inactive. *)
Definition grows (s s' : Session) : Prop :=
  sessionId s' = sessionId s
  /\ userId s' = userId s
  /\ createdAt s' = createdAt s
  /\ config s' = config s
  /\ activeAgents s `prefix_of` activeAgents s'
  /\ messageHistory s `prefix_of` messageHistory s'
  /\ map fst (agentContexts (context s))
       `prefix_of` map fst (agentContexts (context s'))
  /\ (isActive s' = true -> isActive s = true).

(** The instance that a successful [spawnAgent] builds in state [p], its
    id, the session with the instance added, and the state the call leaves
    behind. *)
Definition newInstanceId (uuidv4 : nat -> string) (p : Protocol) (aid : string)
  : string :=
  aid ++ "_" ++ uuidv4 (drawn p).

Definition newInstance (uuidv4 : nat -> string) (p : Protocol) (sid aid : string)
  (agentConfig : Config) (d : AgentDefinition) : AgentInstance :=
  {| instanceId := newInstanceId uuidv4 p aid; agentId := aid;
     inst_sessionId := sid;
     inst_config := spread (defaultConfig d) agentConfig;
     state := "idle"; capabilities := def_capabilities d;
     inst_availableTools := foldl (fun s x => Set_add x s) [] (def_tools d);
     memory := ∅; executionHistory := []; inst_createdAt := now p |}.

Definition addAgent (id : string) (a : AgentInstance) (s : Session) : Session :=
  with_context (with_agentContexts (Map_set id a)) (with_activeAgents (Set_add id) s).

Definition afterSpawn (uuidv4 : nat -> string) (p : Protocol) (sid aid : string)
  (agentConfig : Config) (d : AgentDefinition) : Protocol :=
  emit (agentSpawned sid (newInstanceId uuidv4 p aid) aid)
    (with_sessions
       (alter (addAgent (newInstanceId uuidv4 p aid)
                 (newInstance uuidv4 p sid aid agentConfig d)) sid)
       (with_drawn (S (drawn p)) p)).

(** The message record that [processMessage] builds in state [p], and the
    state once the message is received: the activity time is set, one
    identifier is drawn and the message is in the history. *)
Definition newMessage (uuidv4 : nat -> string) (p : Protocol) (sid message : string)
  (options : MessageOptions) : MCPMessage :=
  {| messageId := uuidv4 (drawn p); msg_sessionId := sid; content := message;
     timestamp := now p;
     sender := orDefault (opt_sender options) "user";
     msg_type := orDefault (opt_type options) "query";
     msg_metadata := match opt_metadata options with Some m => m | None => [] end |}.

Definition received (p : Protocol) (sid : string) (m : MCPMessage) : Protocol :=
  with_sessions (alter (push_message m) sid)
    (with_drawn (S (drawn p))
       (with_sessions (alter (with_lastActivity (now p)) sid) p)).

(** What [processMessage] does once the message is received. *)
Definition afterReceipt (uuidv4 : nat -> string) (i : Intent) (sid : string)
  (m : MCPMessage) : M PlanResult :=
  bind (createRoutingPlan uuidv4 i sid) (fun routingPlan =>
  bind (executePlan uuidv4 routingPlan sid m) (fun r =>
  bind (modify (emit (messageProcessed sid (messageId m)))) (fun _ =>
  ret r))).

(** The three errors of [spawnAgent]. *)
Definition sessionError : string := "Invalid or inactive session".
Definition templateError (aid : string) : string := "Agent " ++ aid ++ " not found".
Definition capacityError : string :=
  "Maximum number of agents reached for this session".

(** Whether a template has an instance among the agents of a session. *)
Definition hasTemplate (aid : string) (s : Session) : Prop :=
  In aid (Spec.templates s).

End Protocol.

End Inv.

(** ** Concrete data used in examples *)

Module Examples.
Import JS.

Module R.
Import MultiLLMRouter.

Definition mkModel (n ty s : string) (maxLen : Z) : LLMModel :=
  {| name := n; type := ty; specialization := s;
     performance := defaultPerformance;
     capabilities := {| supportsMultimodal := false;
                        supportsFunctionCalling := false;
                        supportsStreaming := false;
                        maxContextLength := maxLen |};
     isActive := true |}.

Definition small : LLMModel := mkModel "small" "gemini" "chat" 10.

(** A registry of one model with a context of ten characters. *)
Definition router1 : Router := initializeModels [small] emptyRouter.

Definition noContext : RequestContext := {| urgency := None |}.

(** Eleven characters. *)
Definition longContent : string := "hello world".

(** Two contents of the same length with different derived criteria. *)
Definition plainContent : string := "xxxxxxxxxxxxxxxxxxxxxxxxx".
Definition richContent : string := "why analyze the algorithm".

Definition registry3 : Router :=
  initializeModels
    [mkModel "a" "llama" "chat" 4096; mkModel "b" "qwen" "reasoning" 4096;
     mkModel "c" "gemini" "reasoning" 4096]
    emptyRouter.

Definition outcomes3 : list Metrics :=
  [ {| latency := 120; success := true; userRating := Some 4%Q |};
    {| latency := 300; success := false; userRating := None |};
    {| latency := 90; success := true; userRating := Some 5%Q |} ].

End R.

(** The router over doubles. *)
Module D.
Import Binary64.
Local Open Scope float_scope.

Definition mkModel (n ty s : string) (latency rate satisfaction maxLen : float)
  : LLMModel :=
  {| name := n; type := ty; specialization := s;
     performance := {| averageLatency := latency; successRate := rate;
                       userSatisfaction := satisfaction;
                       totalRequests := 0; errorCount := 0 |};
     capabilities := {| maxContextLength := maxLen |};
     isActive := true |}.

Definition small : LLMModel := mkModel "small" "gemini" "chat" 0 100 5 10.

(** A registry of one model with a context of ten characters. *)
Definition router1 : Router := initializeModels [small] emptyRouter.

(** Two models whose scores are equal in exact arithmetic,
    [100 - 2 + 27.6 + 40] and [100 - 2.6 + 28.2 + 40], and differ as
    doubles. *)
Definition modelA : LLMModel := mkModel "a" "llama" "reasoning" 20 92 4 4096.
Definition modelB : LLMModel := mkModel "b" "qwen" "reasoning" 26 94 4 4096.

Definition registry2 : Router := initializeModels [modelA; modelB] emptyRouter.

Definition isHexDigit (c : ascii) : bool :=
  let n := nat_of_ascii c in
  (((48 <=? n) && (n <=? 57)) || ((65 <=? n) && (n <=? 70))
   || ((97 <=? n) && (n <=? 102)))%nat.

Definition isObjectId (s : string) : bool :=
  (String.length s =? 24)%nat && forallb isHexDigit (list_ascii_of_string s).

(** A database without profiles: the lookup of an id of 24 hexadecimal
    digits resolves to [null], the lookup of any other string rejects. *)
Definition noProfiles (userId : string)
  : Completion (option MultiLLMRouter.UserProfile) :=
  if isObjectId userId then Normal None
  else Throw ("Cast to ObjectId failed for value " ++ userId).

Definition someUser : string := "507f1f77bcf86cd799439011".

Definition outcomes3 : list Metrics :=
  [ {| latency := 120; success := true; userRating := Some 4 |};
    {| latency := 300; success := false; userRating := None |};
    {| latency := 90; success := true; userRating := Some 5 |} ].


End D.

Module P.
Import MCPProtocol.

(** An identifier generator for the examples: [u], [ux], [uxx], ... *)
Fixpoint tally (n : nat) : string :=
  match n with
  | O => ""
  | S k => String "x" (tally k)
  end.

Definition uuid (n : nat) : string := String "u" (tally n).

Definition defaults : SessionOptions :=
  {| opt_maxAgents := None; opt_maxTools := None; opt_timeout := None |}.

Definition noOptions : MessageOptions :=
  {| opt_sender := None; opt_type := None; opt_metadata := None |}.

Definition fresh : Protocol := newProtocol 0.

(** One session, created with the defaults; its id is ["u"]. *)
Definition oneSession : Protocol := snd (createSession uuid "alice" (Obj defaults) fresh).

(** The session after five agents were spawned into it. *)
Definition fiveAgents : Protocol :=
  run uuid (repeat (SpawnAgent "u" "research_agent" []) 5) oneSession.

Definition searchIntent : Intent :=
  {| intent_type := "information_retrieval"; confidence := 0.8%Q; entities := [];
     requiredCapabilities := ["web_search"; "data_analysis"];
     intent_complexity := "low" |}.

Definition firstStep : Step := mkStep "search_information" "research_agent" ["web_search"].
Definition secondStep : Step :=
  mkStep "synthesize_results" "analysis_agent" ["content_generation"].
Definition thirdStep : Step := mkStep "process_response" "research_agent" ["web_search"].

(** A plan of three steps whose second step names a template of which the
    session has no instance. *)
Definition plan3 : Plan :=
  {| planId := "plan"; intent := searchIntent;
     steps := [firstStep; secondStep; thirdStep];
     estimatedDuration := 15000; requiredAgents := ["research_agent"];
     requiredTools := ["web_search"] |}.

Definition question : MCPMessage :=
  {| messageId := "m"; msg_sessionId := "u"; content := "search for papers";
     timestamp := 0; sender := "user"; msg_type := "query"; msg_metadata := [] |}.

Definition threeMessages : list (string * MessageOptions) :=
  [("Create a presentation about gears", noOptions);
   ("search for thermodynamics papers", noOptions);
   ("hello", noOptions)].

(** Four calls, the second of which passes [null] for the options. *)
Definition fourCalls : list (string * Nullable MessageOptions) :=
  [("Create a presentation about gears", Obj noOptions);
   ("search for thermodynamics papers", Null);
   ("search for thermodynamics papers", Obj noOptions);
   ("hello", Obj noOptions)].

(** Calls made after the session was closed. *)
Definition laterCalls : list Op :=
  [CreateSession "bob" (Obj defaults); Tick 5; SpawnAgent "u" "research_agent" [];
   ProcessMessage "u" "hello" (Obj noOptions); CloseSession "u";
   ProcessMessage "ux" "solve this" (Obj noOptions)].

(** The session after the research agent was spawned into it. *)
Definition oneAgent : Protocol :=
  run uuid [SpawnAgent "u" "research_agent" []] oneSession.

(** A second session, for ["bob"], beside the first. *)
Definition twoSessions : Protocol := snd (createSession uuid "bob" (Obj defaults) oneAgent).

(** A session limited to no agent at all. *)
Definition noAgentsAllowed : SessionOptions :=
  {| opt_maxAgents := Some 0%Z; opt_maxTools := None; opt_timeout := None |}.

Definition emptyContext : Context :=
  {| ctx_sessionId := "u"; globalContext := ∅; agentContexts := [];
     sharedMemory := ∅; executionStack := []; currentTask := None;
     metadata := (0%Z, 0%Z) |}.

Definition learn : Intent :=
  {| intent_type := "educational"; confidence := 0.7%Q; entities := [];
     requiredCapabilities := ["knowledge_synthesis"; "explanation"];
     intent_complexity := "low" |}.

Definition mixedCalls : list Op :=
  [SpawnAgent "u" "creative_agent" []; CreateSession "bob" (Obj defaults);
   ProcessMessage "u" "Create a presentation about gears" (Obj noOptions); Tick 3;
   ProcessMessage "u" "search for papers" (Obj noOptions); CloseSession "uxx";
   SpawnAgent "u" "ghost" []; ProcessMessage "u" "solve x + 1 = 2" (Obj noOptions)].

End P.

End Examples.

(** * Facts about doubles

    The primitive operations are specified by [SpecFloat]'s functions on
    mantissas and exponents; the facts below are read off that
    specification. *)

Module Float64Facts.
Import Number.
Local Open Scope Z_scope.

(** ** Digits and alignment *)

Lemma digits2_pos_size (p : positive) : digits2_pos p = Pos.size p.
Proof. induction p as [p IH|p IH|]; simpl; rewrite ?IH; reflexivity. Qed.

Lemma digits_bounds (p : positive) :
  2 ^ (Zpos (digits2_pos p) - 1) <= Zpos p < 2 ^ Zpos (digits2_pos p).
Proof.
  rewrite digits2_pos_size. split.
  - pose proof (Pos.size_le p) as H.
    assert (H' : 2 ^ Zpos (Pos.size p) <= 2 * Zpos p).
    { change 2 with (Zpos 2) at 1. rewrite <- Pos2Z.inj_pow. 
      change (2 * Zpos p) with (Zpos (p~0)). apply Pos2Z.pos_le_pos. exact H. }
    replace (Zpos (Pos.size p)) with (Z.succ (Zpos (Pos.size p) - 1)) in H' by lia.
    rewrite Z.pow_succ_r in H' by lia. lia.
  - pose proof (Pos.size_gt p) as H.
    change 2 with (Zpos 2). rewrite <- Pos2Z.inj_pow. apply Pos2Z.pos_lt_pos. exact H.
Qed.

Lemma digits_unique (p : positive) (d : Z) :
  2 ^ (d - 1) <= Zpos p < 2 ^ d -> Zpos (digits2_pos p) = d.
Proof.
  intros [H1 H2]. pose proof (digits_bounds p) as [H3 H4].
  assert (0 < d).
  { destruct (Z.ltb_spec 0 d); [assumption|].
    assert (2 ^ d <= 2 ^ 0) by (destruct (Z.eqb_spec d 0); [subst; lia|rewrite Z.pow_neg_r by lia; simpl; lia]).
    simpl in *. lia. }
  destruct (Z.lt_trichotomy (Zpos (digits2_pos p)) d) as [Hlt|[Heq|Hgt]]; [|assumption|].
  - assert (2 ^ Zpos (digits2_pos p) <= 2 ^ (d - 1)) by (apply Z.pow_le_mono_r; lia). lia.
  - assert (2 ^ d <= 2 ^ (Zpos (digits2_pos p) - 1)) by (apply Z.pow_le_mono_r; lia). lia.
Qed.

Lemma iter_xO (p d : positive) : Zpos (Pos.iter xO p d) = Zpos p * 2 ^ Zpos d.
Proof.
  revert p. induction d as [|d IH] using Pos.peano_ind; intros p.
  - change (Pos.iter xO p 1) with (p~0)%positive. rewrite Z.pow_1_r. lia.
  - rewrite Pos.iter_succ. rewrite Pos2Z.inj_xO, IH.
    rewrite Pos2Z.inj_succ, Z.pow_succ_r by lia. ring.
Qed.

Lemma shl_align_fst (m : positive) (e ez : Z) :
  ez <= e -> Zpos (fst (shl_align m e ez)) = Zpos m * 2 ^ (e - ez).
Proof.
  intros H. unfold shl_align. destruct (ez - e) as [|d|d] eqn:E; cbn [fst].
  - replace (e - ez) with 0 by lia. rewrite Z.pow_0_r. lia.
  - lia.
  - rewrite iter_xO. f_equal. f_equal. lia.
Qed.

Lemma shl_align_snd (m : positive) (e ez : Z) :
  snd (shl_align m e ez) = Z.min e ez.
Proof.
  unfold shl_align. destruct (ez - e) as [|d|d] eqn:E; cbn [snd]; lia.
Qed.


Lemma fexp_eq (x : Z) : fexp prec emax x = Z.max (x - 53) (-1074).
Proof. reflexivity. Qed.

(** *** Shifting the mantissa right *)

Lemma iter_pos_eq {A} (f : A -> A) (n : positive) (x : A) :
  SpecFloat.iter_pos f n x = Pos.iter f x n.
Proof.
  revert x. induction n as [n IH|n IH|]; intros x; simpl.
  - rewrite !IH. rewrite <- !Pos.iter_swap. reflexivity.
  - rewrite !IH. reflexivity.
  - reflexivity.
Qed.

Lemma shr_1_m (r : shr_record) :
  0 <= shr_m r -> shr_m (shr_1 r) = shr_m r / 2.
Proof.
  destruct r as [m rb sb]. simpl. intros H.
  destruct m as [|[p|p|]|p]; simpl; try lia.
  - reflexivity.
  - apply (Z.div_unique_pos _ _ _ 1); lia.
  - apply (Z.div_unique_pos _ _ _ 0); lia.
  - reflexivity.
Qed.

Lemma shr_iter_m (r : shr_record) (n : positive) :
  0 <= shr_m r -> shr_m (SpecFloat.iter_pos shr_1 n r) = shr_m r / 2 ^ Zpos n.
Proof.
  intros H. rewrite iter_pos_eq.
  induction n as [|n IH] using Pos.peano_ind.
  - simpl Pos.iter. rewrite shr_1_m by exact H. rewrite Z.pow_1_r. reflexivity.
  - rewrite Pos.iter_succ, shr_1_m.
    + rewrite IH, Pos2Z.inj_succ, Z.pow_succ_r by lia.
      rewrite Z.div_div by lia. f_equal. ring.
    + rewrite IH. apply Z.div_pos; lia.
Qed.

Lemma shr_record_of_loc_m (m : Z) (l : location) : shr_m (shr_record_of_loc m l) = m.
Proof. destruct l as [|[| |]]; reflexivity. Qed.

(** A right shift chosen by [fexp] leaves a positive mantissa positive, and
    the exponent at or above [emin]. *)
Lemma shr_fexp_pos (p : positive) (e : Z) (l : location) :
  -1074 <= e ->
  0 < shr_m (fst (shr_fexp prec emax (Zpos p) e l))
  /\ -1074 <= snd (shr_fexp prec emax (Zpos p) e l).
Proof.
  intros He. unfold shr_fexp, shr. rewrite fexp_eq.
  cbn [Zdigits2]. pose proof (digits_bounds p) as [Hlo Hhi].
  set (d := Zpos (digits2_pos p)) in *.
  destruct (Z.max (d + e - 53) (-1074) - e) as [|n|n] eqn:En; cbn [fst snd].
  - rewrite shr_record_of_loc_m. lia.
  - rewrite shr_iter_m by (rewrite shr_record_of_loc_m; lia).
    rewrite shr_record_of_loc_m. split; [|lia].
    assert (Hn : Zpos n = d - 53) by lia.
    rewrite Hn. apply Z.div_str_pos. split; [apply Z.pow_pos_nonneg; lia|].
    apply Z.le_trans with (2 ^ (d - 1)); [apply Z.pow_le_mono_r; lia|exact Hlo].
  - rewrite shr_record_of_loc_m. lia.
Qed.

Lemma round_nearest_even_pos (m : Z) (l : location) :
  0 < m -> 0 < round_nearest_even m l.
Proof.
  intros H. destruct l as [|[| |]]; simpl; try lia. destruct (Z.even m); lia.
Qed.

(** Rounding a positive mantissa never gives a zero: the result carries the
    sign it was given. *)
Lemma binary_round_aux_sign (s : bool) (p : positive) (e : Z) (l : location) :
  -1074 <= e ->
  (exists m' e', binary_round_aux prec emax s (Zpos p) e l = S754_finite s m' e')
  \/ binary_round_aux prec emax s (Zpos p) e l = S754_infinity s.
Proof.
  intros He. unfold binary_round_aux.
  pose proof (shr_fexp_pos p e l He) as [H1 H2].
  destruct (shr_fexp prec emax (Zpos p) e l) as [mrs' e']. cbn [fst snd] in H1, H2.
  pose proof (round_nearest_even_pos (shr_m mrs') (loc_of_shr_record mrs') H1) as H3.
  destruct (round_nearest_even (shr_m mrs') (loc_of_shr_record mrs')) as [|q|q];
    try lia.
  pose proof (shr_fexp_pos q e' loc_Exact H2) as [H4 H5].
  destruct (shr_fexp prec emax (Zpos q) e' loc_Exact) as [mrs'' e''].
  cbn [fst snd] in H4, H5.
  destruct (shr_m mrs'') as [|m|m]; try lia.
  destruct (e'' <=? emax - prec); [left; eexists _, _; reflexivity|right; reflexivity].
Qed.

Lemma binary_round_sign (s : bool) (p : positive) (e : Z) :
  -1074 <= e ->
  (exists m' e', binary_round prec emax s p e = S754_finite s m' e')
  \/ binary_round prec emax s p e = S754_infinity s.
Proof.
  intros He. unfold binary_round.
  pose proof (shl_align_snd p e (fexp prec emax (Zpos (digits2_pos p) + e))) as Hs.
  destruct (shl_align p e (fexp prec emax (Zpos (digits2_pos p) + e))) as [mz ez].
  cbn [snd] in Hs. apply binary_round_aux_sign. rewrite fexp_eq in Hs. lia.
Qed.


(** *** Canonical mantissas and exponents *)

Lemma valid_finite (s : bool) (m : positive) (e : Z) :
  valid_binary (S754_finite s m e) = true ->
  -1074 <= e <= 971 /\ Zpos m < 2 ^ 53 /\ (e = -1074 \/ 2 ^ 52 <= Zpos m).
Proof.
  unfold SpecFloat.valid_binary, bounded, canonical_mantissa. rewrite fexp_eq.
  intros H. apply andb_prop in H. destruct H as [H1 H2].
  apply Z.eqb_eq in H1. apply Z.leb_le in H2. change (emax - prec) with 971 in H2.
  pose proof (digits_bounds m) as [Hlo Hhi].
  set (d := Zpos (digits2_pos m)) in *.
  assert (Hd : d <= 53) by lia.
  split; [lia|]. split.
  - apply Z.lt_le_trans with (2 ^ d); [exact Hhi|apply Z.pow_le_mono_r; lia].
  - destruct (Z.eq_dec e (-1074)) as [He|He]; [left; exact He|right].
    assert (d = 53) by lia. subst d. rewrite H in Hlo. exact Hlo.
Qed.

Lemma canonical_lt (s1 s2 : bool) (m1 m2 : positive) (e1 e2 : Z) :
  valid_binary (S754_finite s1 m1 e1) = true ->
  valid_binary (S754_finite s2 m2 e2) = true ->
  e1 < e2 -> Zpos m1 < Zpos m2 * 2 ^ (e2 - e1).
Proof.
  intros H1 H2 He.
  apply valid_finite in H1. apply valid_finite in H2.
  destruct H1 as (He1 & Hm1 & _). destruct H2 as (He2 & _ & [Heq|Hm2]); [lia|].
  assert (Hp : 2 ^ 1 <= 2 ^ (e2 - e1)) by (apply Z.pow_le_mono_r; lia).
  rewrite Z.pow_1_r in Hp.
  change (2 ^ 53) with 9007199254740992 in Hm1.
  change (2 ^ 52) with 4503599627370496 in Hm2. nia.
Qed.

Lemma rankSF_sign (s : bool) (m : positive) (e : Z) :
  -1074 <= e ->
  if s then rankSF (S754_finite s m e) < 0 else 0 < rankSF (S754_finite s m e).
Proof.
  intros He. unfold rankSF. change (2 ^ 53) with 9007199254740992.
  destruct s; simpl; lia.
Qed.

(** [SFcompare] on finite doubles is the comparison of their ranks. *)
Lemma SFcompare_rank (x y : spec_float) :
  valid_binary x = true -> valid_binary y = true ->
  finiteSF x = true -> finiteSF y = true ->
  SFcompare x y = Some (rankSF x ?= rankSF y).
Proof.
  intros Vx Vy Fx Fy.
  destruct x as [sx|sx| |sx mx ex]; try discriminate;
    destruct y as [sy|sy| |sy my ey]; try discriminate.
  - reflexivity.
  - pose proof (valid_finite _ _ _ Vy) as (He & _).
    pose proof (rankSF_sign sy my ey ltac:(lia)) as Hs.
    unfold SFcompare. change (rankSF (S754_zero sx)) with 0.
    destruct sy; f_equal; symmetry; [apply Z.compare_gt_iff|apply Z.compare_lt_iff]; lia.
  - pose proof (valid_finite _ _ _ Vx) as (He & _).
    pose proof (rankSF_sign sx mx ex ltac:(lia)) as Hs.
    unfold SFcompare. change (rankSF (S754_zero sy)) with 0.
    destruct sx; f_equal; symmetry; [apply Z.compare_lt_iff|apply Z.compare_gt_iff]; lia.
  - pose proof (valid_finite _ _ _ Vx) as (Hex & Hmx & _).
    pose proof (valid_finite _ _ _ Vy) as (Hey & Hmy & _).
    pose proof (rankSF_sign sx mx ex ltac:(lia)) as Hsx.
    pose proof (rankSF_sign sy my ey ltac:(lia)) as Hsy.
    unfold SFcompare. f_equal.
    change (Pos.compare_cont Eq mx my) with (Zpos mx ?= Zpos my).
    unfold rankSF in *. change (2 ^ 53) with 9007199254740992 in *.
    destruct sx, sy; cbn [cond_Zopp] in *.
    + destruct (Z.compare_spec ex ey) as [E|E|E];
        [subst; destruct (Z.compare_spec (Zpos mx) (Zpos my)); simpl|..];
        symmetry; first [apply Z.compare_eq_iff | apply Z.compare_lt_iff
                        | apply Z.compare_gt_iff]; lia.
    + symmetry. apply Z.compare_lt_iff. lia.
    + symmetry. apply Z.compare_gt_iff. lia.
    + destruct (Z.compare_spec ex ey) as [E|E|E];
        [subst; destruct (Z.compare_spec (Zpos mx) (Zpos my))|..];
        symmetry; first [apply Z.compare_eq_iff | apply Z.compare_lt_iff
                        | apply Z.compare_gt_iff]; lia.
Qed.


(** *** The sign of a difference *)

Lemma binary_normalize_sign (d ez : Z) :
  -1074 <= ez ->
  SFltb (S754_zero false) (binary_normalize prec emax d ez false) = (0 <? d).
Proof.
  intros He. destruct d as [|p|p]; cbn [binary_normalize].
  - reflexivity.
  - destruct (binary_round_sign false p ez He) as [(m' & e' & ->)| ->]; reflexivity.
  - destruct (binary_round_sign true p ez He) as [(m' & e' & ->)| ->]; reflexivity.
Qed.

Lemma aligned_compare (sx sy : bool) (mx my : positive) (ex ey : Z) :
  valid_binary (S754_finite sx mx ex) = true ->
  valid_binary (S754_finite sy my ey) = true ->
  let ez := Z.min ex ey in
  (0 <? cond_Zopp sx (Zpos (fst (shl_align mx ex ez)))
        - cond_Zopp sy (Zpos (fst (shl_align my ey ez))))
  = (rankSF (S754_finite sy my ey) <? rankSF (S754_finite sx mx ex)).
Proof.
  intros Vx Vy ez.
  rewrite !shl_align_fst by (subst ez; lia).
  pose proof (valid_finite _ _ _ Vx) as (Hex & Hmx & _).
  pose proof (valid_finite _ _ _ Vy) as (Hey & Hmy & _).
  unfold rankSF. change (2 ^ 53) with 9007199254740992 in *.
  assert (Hx : 0 < 2 ^ (ex - ez)) by (apply Z.pow_pos_nonneg; subst ez; lia).
  assert (Hy : 0 < 2 ^ (ey - ez)) by (apply Z.pow_pos_nonneg; subst ez; lia).
  assert (Hcmp : (ex < ey -> Zpos mx * 2 ^ (ex - ez) < Zpos my * 2 ^ (ey - ez))
                 /\ (ey < ex -> Zpos my * 2 ^ (ey - ez) < Zpos mx * 2 ^ (ex - ez))
                 /\ (ex = ey -> 2 ^ (ex - ez) = 1 /\ 2 ^ (ey - ez) = 1)).
  { split; [|split].
    - intros Hlt. pose proof (canonical_lt _ _ _ _ _ _ Vx Vy Hlt) as Hc.
      replace ez with ex by (subst ez; lia). rewrite Z.sub_diag, Z.pow_0_r. lia.
    - intros Hlt. pose proof (canonical_lt _ _ _ _ _ _ Vy Vx Hlt) as Hc.
      replace ez with ey by (subst ez; lia). rewrite Z.sub_diag, Z.pow_0_r. lia.
    - intros ->. replace ez with ey by (subst ez; lia).
      rewrite Z.sub_diag, Z.pow_0_r. split; reflexivity. }
  destruct Hcmp as (H1 & H2 & H3).
  set (X := Zpos mx * 2 ^ (ex - ez)) in *. set (Y := Zpos my * 2 ^ (ey - ez)) in *.
  assert (HX : 0 < X) by (subst X; nia). assert (HY : 0 < Y) by (subst Y; nia).
  destruct (Z.lt_trichotomy ex ey) as [Hlt|[Heq|Hgt]].
  - specialize (H1 Hlt). destruct sx, sy; cbn [cond_Zopp];
      destruct (Z.ltb_spec 0 (- X - - Y)), (Z.ltb_spec 0 (- X - Y)),
               (Z.ltb_spec 0 (X - - Y)), (Z.ltb_spec 0 (X - Y));
      symmetry; first [apply Z.ltb_lt | apply Z.ltb_ge]; lia.
  - destruct (H3 Heq) as [E1 E2]. subst X Y. rewrite E1, E2 in *.
    rewrite !Z.mul_1_r in *. subst ey.
    destruct sx, sy; cbn [cond_Zopp];
      match goal with |- (0 <? ?a) = _ => destruct (Z.ltb_spec 0 a) end;
      symmetry; first [apply Z.ltb_lt | apply Z.ltb_ge]; lia.
  - specialize (H2 Hgt). destruct sx, sy; cbn [cond_Zopp];
      match goal with |- (0 <? ?a) = _ => destruct (Z.ltb_spec 0 a) end;
      symmetry; first [apply Z.ltb_lt | apply Z.ltb_ge]; lia.
Qed.

(** For finite doubles, [x - y] is positive exactly when [y < x]: the
    difference of two distinct doubles never rounds to zero. *)
Lemma SFsub_positive (x y : spec_float) :
  valid_binary x = true -> valid_binary y = true ->
  finiteSF x = true -> finiteSF y = true ->
  SFltb (S754_zero false) (SF64sub x y) = (rankSF y <? rankSF x).
Proof.
  intros Vx Vy Fx Fy.
  destruct x as [sx|sx| |sx mx ex]; try discriminate;
    destruct y as [sy|sy| |sy my ey]; try discriminate.
  - destruct sx, sy; reflexivity.
  - pose proof (valid_finite _ _ _ Vy) as (He & _).
    pose proof (rankSF_sign sy my ey ltac:(lia)) as Hs.
    change (rankSF (S754_zero sx)) with 0.
    unfold SF64sub, SFsub, SFltb, SFcompare.
    destruct sy; cbn [negb]; symmetry; [apply Z.ltb_lt|apply Z.ltb_ge]; lia.
  - pose proof (valid_finite _ _ _ Vx) as (He & _).
    pose proof (rankSF_sign sx mx ex ltac:(lia)) as Hs.
    change (rankSF (S754_zero sy)) with 0.
    unfold SF64sub, SFsub, SFltb, SFcompare.
    destruct sx; symmetry; [apply Z.ltb_ge|apply Z.ltb_lt]; lia.
  - pose proof (valid_finite _ _ _ Vx) as (Hex & _).
    pose proof (valid_finite _ _ _ Vy) as (Hey & _).
    unfold SF64sub, SFsub. cbv zeta.
    rewrite binary_normalize_sign by lia.
    apply (aligned_compare sx sy mx my ex ey Vx Vy).
Qed.


(** *** The same facts on primitive doubles *)

Lemma is_finite_SF (x : float) : is_finite x = true -> finiteSF (Prim2SF x) = true.
Proof.
  unfold is_finite, is_nan, is_infinity. rewrite !FloatAxioms.eqb_spec, FloatAxioms.abs_spec.
  change (Prim2SF infinity) with (S754_infinity false).
  destruct (Prim2SF x) as [s|s| |s m e]; try reflexivity.
  - destruct s; discriminate.
  - discriminate.
Qed.

Lemma compare_rank (x y : float) :
  is_finite x = true -> is_finite y = true ->
  SFcompare (Prim2SF x) (Prim2SF y) = Some (rank x ?= rank y).
Proof.
  intros Fx Fy. apply SFcompare_rank;
    auto using Prim2SF_valid, is_finite_SF.
Qed.

Lemma ltb_rank (x y : float) :
  is_finite x = true -> is_finite y = true ->
  (x <? y)%float = (rank x <? rank y).
Proof.
  intros Fx Fy. rewrite FloatAxioms.ltb_spec. unfold SFltb. rewrite compare_rank by assumption.
  unfold Z.ltb. destruct (rank x ?= rank y); reflexivity.
Qed.

Lemma leb_rank (x y : float) :
  is_finite x = true -> is_finite y = true ->
  (x <=? y)%float = (rank x <=? rank y).
Proof.
  intros Fx Fy. rewrite FloatAxioms.leb_spec. unfold SFleb. rewrite compare_rank by assumption.
  unfold Z.leb. destruct (rank x ?= rank y); reflexivity.
Qed.

Lemma sub_positive (x y : float) :
  is_finite x = true -> is_finite y = true ->
  (0 <? x - y)%float = (y <? x)%float.
Proof.
  intros Fx Fy. rewrite (ltb_rank y x) by assumption.
  rewrite FloatAxioms.ltb_spec, FloatAxioms.sub_spec. change (Prim2SF 0) with (S754_zero false).
  apply SFsub_positive; auto using Prim2SF_valid, is_finite_SF.
Qed.

(** *** Zeros and commutativity *)

Lemma SFadd_not_negzero (x y : spec_float) :
  valid_binary x = true -> valid_binary y = true ->
  x <> S754_zero true -> SF64add x y <> S754_zero true.
Proof.
  intros Vx Vy Hx. unfold SF64add, SFadd.
  destruct x as [sx|sx| |sx mx ex]; destruct y as [sy|sy| |sy my ey];
    try discriminate; try (destruct sx, sy; discriminate).
  - destruct sx, sy; try discriminate. contradiction.
  - pose proof (valid_finite _ _ _ Vx) as (Hex & _).
    pose proof (valid_finite _ _ _ Vy) as (Hey & _).
    cbv zeta.
    destruct (cond_Zopp sx (Zpos (fst (shl_align mx ex (Z.min ex ey))))
              + cond_Zopp sy (Zpos (fst (shl_align my ey (Z.min ex ey)))))
      as [|p|p]; cbn [binary_normalize]; [discriminate| |].
    + destruct (binary_round_sign false p (Z.min ex ey) ltac:(lia))
        as [(m' & e' & ->)| ->]; discriminate.
    + destruct (binary_round_sign true p (Z.min ex ey) ltac:(lia))
        as [(m' & e' & ->)| ->]; discriminate.
Qed.

Lemma add_not_negzero (x y : float) : ~ isNegZero x -> ~ isNegZero (x + y)%float.
Proof.
  unfold isNegZero. intros Hx. rewrite FloatAxioms.add_spec.
  apply SFadd_not_negzero; auto using Prim2SF_valid.
Qed.

Lemma add_zero_r (x : float) : ~ isNegZero x -> (x + 0)%float = x.
Proof.
  unfold isNegZero. intros Hx. apply Prim2SF_inj. rewrite FloatAxioms.add_spec.
  change (Prim2SF 0) with (S754_zero false). unfold SF64add, SFadd.
  destruct (Prim2SF x) as [[|]|s| |s m e]; try reflexivity. contradiction.
Qed.

Lemma sub_zero_r (x : float) : (x - 0)%float = x.
Proof.
  apply Prim2SF_inj. rewrite FloatAxioms.sub_spec.
  change (Prim2SF 0) with (S754_zero false). unfold SF64sub, SFsub.
  destruct (Prim2SF x) as [[|]|s| |s m e]; reflexivity.
Qed.

Lemma mul_comm (x y : float) : (x * y)%float = (y * x)%float.
Proof.
  apply Prim2SF_inj. rewrite !FloatAxioms.mul_spec. unfold SF64mul, SFmul.
  destruct (Prim2SF x) as [sx|sx| |sx mx ex]; destruct (Prim2SF y) as [sy|sy| |sy my ey];
    try reflexivity; try (rewrite xorb_comm; reflexivity).
  rewrite xorb_comm, Pos.mul_comm, Z.add_comm. reflexivity.
Qed.

Lemma positive_not_negzero (x : float) : (0 <? x)%float = true -> ~ isNegZero x.
Proof.
  unfold isNegZero. rewrite FloatAxioms.ltb_spec. intros H E. rewrite E in H. discriminate.
Qed.

(** *** Integers below [2^53] are exact *)

Lemma digits_iter_xO (m n : positive) :
  digits2_pos (Pos.iter xO m n) = (digits2_pos m + n)%positive.
Proof.
  induction n as [|n IH] using Pos.peano_ind.
  - simpl. rewrite Pos.add_1_r. reflexivity.
  - rewrite Pos.iter_succ. simpl. rewrite IH, Pos.add_succ_r. reflexivity.
Qed.


Lemma binary_round_aux_canonical (s : bool) (m : positive) (e : Z) :
  digits2_pos m = 53%positive -> -1074 <= e <= 971 ->
  binary_round_aux prec emax s (Zpos m) e loc_Exact = S754_finite s m e.
Proof.
  intros Hd He. unfold binary_round_aux, shr_fexp. rewrite !fexp_eq.
  cbn [Zdigits2]. rewrite Hd.
  replace (Z.max (53 + e - 53) (-1074) - e) with 0 by lia.
  cbn [shr shr_record_of_loc loc_of_shr_record shr_m round_nearest_even Zdigits2].
  rewrite fexp_eq, Hd.
  replace (Z.max (53 + e - 53) (-1074) - e) with 0 by lia.
  cbn [shr shr_m]. change (emax - prec) with 971.
  destruct (Z.leb_spec e 971); [reflexivity|lia].
Qed.


(** A mantissa of fewer than 53 digits is shifted left. *)
Lemma binary_round_up (s : bool) (m n : positive) (e : Z) :
  (digits2_pos m + n)%positive = 53%positive -> -1074 <= e - Zpos n <= 971 ->
  binary_round prec emax s m e = S754_finite s (Pos.iter xO m n) (e - Zpos n).
Proof.
  intros Hd He. unfold binary_round. rewrite fexp_eq.
  assert (Hz : Zpos (digits2_pos m) + Zpos n = 53)
    by (rewrite <- Pos2Z.inj_add, Hd; reflexivity).
  unfold shl_align.
  replace (Z.max (Zpos (digits2_pos m) + e - 53) (-1074) - e) with (Zneg n) by lia.
  replace (Z.max (Zpos (digits2_pos m) + e - 53) (-1074)) with (e - Zpos n) by lia.
  apply binary_round_aux_canonical; [|exact He].
  rewrite digits_iter_xO. exact Hd.
Qed.

(** The canonical form of a positive integer below [2^53]. *)
Lemma normalize_small (k : positive) :
  Zpos k < 2 ^ 53 ->
  exists m e,
    binary_normalize prec emax (Zpos k) 0 false = S754_finite false m e
    /\ digits2_pos m = 53%positive
    /\ -52 <= e <= 0
    /\ Zpos m = Zpos k * 2 ^ (- e).
Proof.
  intros Hk. cbn [binary_normalize].
  pose proof (digits_bounds k) as [Hlo Hhi].
  assert (Hd : Zpos (digits2_pos k) <= 53).
  { destruct (Z.le_gt_cases (Zpos (digits2_pos k)) 53) as [H|H]; [exact H|].
    assert (2 ^ 53 <= 2 ^ (Zpos (digits2_pos k) - 1)) by (apply Z.pow_le_mono_r; lia).
    lia. }
  destruct (Z.eq_dec (Zpos (digits2_pos k)) 53) as [E|E].
  - exists k, 0. injection E as E.
    unfold binary_round. rewrite fexp_eq, E. unfold shl_align.
    replace (Z.max (53 + 0 - 53) (-1074) - 0) with 0 by lia.
    rewrite binary_round_aux_canonical by (try exact E; lia).
    split; [reflexivity|]. split; [reflexivity|]. split; [lia|].
    rewrite Z.pow_0_r. lia.
  - destruct (53 - Zpos (digits2_pos k)) as [|n|n] eqn:En; try lia.
    exists (Pos.iter xO k n), (0 - Zpos n).
    assert (Hn : (digits2_pos k + n)%positive = 53%positive)
      by (apply Pos2Z.inj; rewrite Pos2Z.inj_add; lia).
    split; [apply binary_round_up; [exact Hn|lia]|].
    split; [rewrite digits_iter_xO; exact Hn|]. split; [lia|].
    rewrite iter_xO. replace (- (0 - Zpos n)) with (Zpos n) by lia. reflexivity.
Qed.

Lemma normalize_small_valid (k : positive) :
  Zpos k < 2 ^ 53 -> valid_binary (binary_normalize prec emax (Zpos k) 0 false) = true.
Proof.
  intros Hk. destruct (normalize_small k Hk) as (m & e & -> & Hd & He & _).
  unfold SpecFloat.valid_binary, bounded, canonical_mantissa. rewrite fexp_eq, Hd.
  apply andb_true_intro. split; [apply Z.eqb_eq; lia|apply Z.leb_le].
  change (emax - prec) with 971. lia.
Qed.



Lemma ofZ_finite (k : Z) : 0 <= k < 2 ^ 53 -> is_finite (ofZ k) = true.
Proof.
  intros [H0 Hk]. destruct k as [|k|k]; [reflexivity| |lia].
  unfold is_finite, is_nan, is_infinity.
  rewrite !FloatAxioms.eqb_spec, FloatAxioms.abs_spec. unfold ofZ.
  rewrite !Prim2SF_SF2Prim by (apply normalize_small_valid; exact Hk).
  change (Prim2SF infinity) with (S754_infinity false).
  destruct (normalize_small k Hk) as (m & e & -> & _). cbn [SFabs].
  unfold SFeqb, SFcompare. rewrite Z.compare_refl, Pos.compare_cont_refl. reflexivity.
Qed.

(** ** The two zeros *)





End Float64Facts.

(** * Properties of the router *)

Module RouterFacts.
Import JS MultiLLMRouter.
Import Spec (preferredBy, oversize).

(** ** The embedding on concrete inputs *)

Example countMatches_whole_words :
  countMatches ["analyze"; "compare"] "Analyze, compare; analyzed compare_ COMPARE" = 3.
Proof. reflexivity. Qed.

Example criteria_of_rich_content :
  let c := analyzeRequestCriteria "analysis" Examples.R.richContent Examples.R.noContext in
  (complexity c, domain c, criteria_requiresReasoning c, criteria_isTechnical c,
   contentLength c, criteria_urgency c)
  = ("low", "programming", true, true, 25%Z, "normal").
Proof. vm_compute. reflexivity. Qed.

Example sort_is_stable :
  map fst (sort byScore [("a", 1%Q); ("b", 3%Q); ("c", 2%Q); ("d", 3%Q)])
  = ["b"; "d"; "c"; "a"].
Proof. vm_compute. reflexivity. Qed.

Example tie_goes_to_the_first_registered :
  name <$> selectOptimalModel Examples.R.registry3 "analysis" Examples.R.plainContent
             None Examples.R.noContext
  = Some "b".
Proof. vm_compute. reflexivity. Qed.

Example score_of_small_for_long_content :
  (calculateModelScore Examples.R.router1 Examples.R.small
     (analyzeRequestCriteria "chat" Examples.R.longContent Examples.R.noContext) None
   == 130)%Q.
Proof. vm_compute. reflexivity. Qed.

(** ** The stable sort and its first element *)

Section SortHead.
Context {A : Type}.

Lemma sort_cons (x : A * Q) (l : list (A * Q)) :
  sort byScore (x :: l) = sort_insert byScore x (sort byScore l).
Proof. reflexivity. Qed.

Lemma sort_head_firstMax (l : list (A * Q)) :
  match sort byScore l with
  | [] => l = []
  | best :: _ => Spec.firstMax best l
  end.
Proof.
  induction l as [|x l IH].
  - reflexivity.
  - rewrite sort_cons. destruct (sort byScore l) as [|y rest] eqn:Hs.
    + subst l. simpl. exists [], []. repeat split; constructor.
    + simpl. destruct IH as (pre & post & Hl & Hpre & Hpost).
      destruct (Qlt_le_dec 0 (byScore x y)) as [Hlt|Hle]; unfold byScore in *.
      * exists (x :: pre), post. subst l. repeat split; [|assumption].
        constructor; [lra|assumption].
      * exists [], l. repeat split; [constructor|].
        subst l. apply Forall_app. split.
        -- eapply Forall_impl; [exact Hpre|]. intros z Hz. simpl in Hz. lra.
        -- constructor; [lra|].
           eapply Forall_impl; [exact Hpost|]. intros z Hz. simpl in Hz. lra.
Qed.

End SortHead.

(** ** The score *)

Ltac split_type ty lit :=
  let E := fresh "E" in
  destruct (String.eqb ty lit) eqn:E;
  [apply String.eqb_eq in E; subst ty; cbn|].

Lemma score_formula (r : Router) (m : LLMModel) (requestType content : string)
  (context : RequestContext) (userProfile : option UserProfile) :
  (calculateModelScore r m (analyzeRequestCriteria requestType content context)
     userProfile
   == Spec.score (Spec.matchesSpecialization requestType (specialization m))
                 (preferredBy userProfile m) (oversize content m)
                 (averageLatency (performance m)) (successRate (performance m))
                 (userSatisfaction (performance m)) (currentLoad r m))%Q.
Proof.
  unfold calculateModelScore, Spec.score, Spec.matchesSpecialization,
    Spec.specializationFor, Spec.preferredBy, Spec.oversize.
  cbn [criteria_type contentLength analyzeRequestCriteria].
  set (big := (maxContextLength (capabilities m) <? Z.of_nat (String.length content))%Z).
  clearbody big.
  unfold Qdiv. change (/ 10)%Q with (1 # 10)%Q.
  split_type requestType "chat".
  { destruct userProfile as [profile|]; [destruct (String.eqb (preferredLLM _) _)|];
      destruct (String.eqb (specialization m) "chat"), big; lra. }
  split_type requestType "conversation".
  { destruct userProfile as [profile|]; [destruct (String.eqb (preferredLLM _) _)|];
      destruct (String.eqb (specialization m) "chat"), big; lra. }
  split_type requestType "reasoning".
  { destruct userProfile as [profile|]; [destruct (String.eqb (preferredLLM _) _)|];
      destruct (String.eqb (specialization m) "reasoning"), big; lra. }
  split_type requestType "analysis".
  { destruct userProfile as [profile|]; [destruct (String.eqb (preferredLLM _) _)|];
      destruct (String.eqb (specialization m) "reasoning"), big; lra. }
  split_type requestType "problem_solving".
  { destruct userProfile as [profile|]; [destruct (String.eqb (preferredLLM _) _)|];
      destruct (String.eqb (specialization m) "reasoning"), big; lra. }
  split_type requestType "technical".
  { destruct userProfile as [profile|]; [destruct (String.eqb (preferredLLM _) _)|];
      destruct (String.eqb (specialization m) "technical"), big; lra. }
  split_type requestType "code".
  { destruct userProfile as [profile|]; [destruct (String.eqb (preferredLLM _) _)|];
      destruct (String.eqb (specialization m) "technical"), big; lra. }
  split_type requestType "engineering".
  { destruct userProfile as [profile|]; [destruct (String.eqb (preferredLLM _) _)|];
      destruct (String.eqb (specialization m) "technical"), big; lra. }
  split_type requestType "creative".
  { destruct userProfile as [profile|]; [destruct (String.eqb (preferredLLM _) _)|];
      destruct (String.eqb (specialization m) "creative"), big; lra. }
  split_type requestType "content_generation".
  { destruct userProfile as [profile|]; [destruct (String.eqb (preferredLLM _) _)|];
      destruct (String.eqb (specialization m) "creative"), big; lra. }
  split_type requestType "academic".
  { destruct userProfile as [profile|]; [destruct (String.eqb (preferredLLM _) _)|];
      destruct (String.eqb (specialization m) "academic"), big; lra. }
  split_type requestType "educational".
  { destruct userProfile as [profile|]; [destruct (String.eqb (preferredLLM _) _)|];
      destruct (String.eqb (specialization m) "academic"), big; lra. }
  cbn. rewrite E, E0, E1, E2, E3, E4, E5, E6, E7, E8, E9, E10. cbn.
  destruct userProfile as [profile|]; [destruct (String.eqb (preferredLLM _) _)|];
    destruct big; lra.
Qed.

(** ** Selection *)

Lemma selection_head (r : Router) (requestType content : string)
  (userProfile : option UserProfile) (context : RequestContext) :
  let scoreOf := fun m =>
    calculateModelScore r m (analyzeRequestCriteria requestType content context)
      userProfile in
  match selectOptimalModel r requestType content userProfile context with
  | None => Map_values (llmModels r) = []
  | Some best =>
      Spec.firstMax (best, scoreOf best)
        (map (fun m => (m, scoreOf m)) (Map_values (llmModels r)))
  end.
Proof.
  intros scoreOf. unfold selectOptimalModel. fold scoreOf.
  pose proof (sort_head_firstMax
                (map (fun m => (m, scoreOf m)) (Map_values (llmModels r)))) as H.
  destruct (sort byScore _) as [|best rest].
  - destruct (Map_values (llmModels r)); [reflexivity|discriminate].
  - assert (Hin : In best (map (fun m => (m, scoreOf m)) (Map_values (llmModels r)))).
    { destruct H as (pre & post & Hl & _). rewrite Hl.
      apply in_or_app. right. left. reflexivity. }
    apply in_map_iff in Hin. destruct Hin as (m & <- & _). exact H.
Qed.

Lemma selection_none_iff (r : Router) (requestType content : string)
  (userProfile : option UserProfile) (context : RequestContext) :
  selectOptimalModel r requestType content userProfile context = None
  <-> llmModels r = [].
Proof.
  pose proof (selection_head r requestType content userProfile context) as H.
  cbv zeta in H. split.
  - intros Hn. rewrite Hn in H. unfold Map_values in H.
    destruct (llmModels r); [reflexivity|discriminate].
  - intros He. destruct (selectOptimalModel _ _ _ _ _); [|reflexivity].
    destruct H as (pre & post & Hl & _). rewrite He in Hl.
    destruct pre; discriminate.
Qed.

(** ** Non-interference of the content *)

Lemma score_reads_type_and_length (r : Router) (m : LLMModel) (c1 c2 : Criteria)
  (userProfile : option UserProfile) :
  criteria_type c1 = criteria_type c2 ->
  contentLength c1 = contentLength c2 ->
  calculateModelScore r m c1 userProfile = calculateModelScore r m c2 userProfile.
Proof.
  intros Ht Hl. unfold calculateModelScore. rewrite Ht, Hl. reflexivity.
Qed.

(** C10. Two contents of equal length give every model the same score and
    select the same model, for a fixed request type, profile, context,
    registry and load counters. *)
Theorem selection_depends_on_length_only (r : Router) (requestType : string)
  (userProfile : option UserProfile) (context : RequestContext)
  (content1 content2 : string) :
  String.length content1 = String.length content2 ->
  (forall m,
     calculateModelScore r m (analyzeRequestCriteria requestType content1 context)
       userProfile
     = calculateModelScore r m (analyzeRequestCriteria requestType content2 context)
         userProfile)
  /\ selectOptimalModel r requestType content1 userProfile context
     = selectOptimalModel r requestType content2 userProfile context.
Proof.
  intros Hlen.
  assert (Hs : forall m,
    calculateModelScore r m (analyzeRequestCriteria requestType content1 context)
      userProfile
    = calculateModelScore r m (analyzeRequestCriteria requestType content2 context)
        userProfile).
  { intros m. apply score_reads_type_and_length; cbn; [reflexivity|].
    rewrite Hlen. reflexivity. }
  split; [exact Hs|].
  unfold selectOptimalModel.
  rewrite (map_ext _ _ (fun m => f_equal (pair m) (Hs m))). reflexivity.
Qed.

Lemma selection_depends_on_length_only_witness :
  analyzeRequestCriteria "analysis" Examples.R.plainContent Examples.R.noContext
  <> analyzeRequestCriteria "analysis" Examples.R.richContent Examples.R.noContext
  /\ selectOptimalModel Examples.R.registry3 "analysis" Examples.R.plainContent None
       Examples.R.noContext
     = selectOptimalModel Examples.R.registry3 "analysis" Examples.R.richContent None
         Examples.R.noContext.
Proof.
  split.
  - vm_compute. discriminate.
  - apply (selection_depends_on_length_only Examples.R.registry3 "analysis" None
             Examples.R.noContext Examples.R.plainContent Examples.R.richContent).
    reflexivity.
Defined.

(** ** Running means *)


Lemma findOne_name (c : list LLMModel) (n : string) (m : LLMModel) :
  findOne c n = Some m -> name m = n.
Proof.
  unfold findOne. intros H. apply find_some in H. destruct H as [_ H].
  apply String.eqb_eq. exact H.
Qed.

Lemma findOne_save (c : list LLMModel) (n : string) (m : LLMModel) (p : Performance) :
  findOne c n = Some m ->
  findOne (save (setPerformance m p) c) n = Some (setPerformance m p).
Proof.
  unfold findOne. induction c as [|x c IH]; simpl; [discriminate|].
  destruct (String.eqb (name x) n) eqn:E.
  - intros [= ->]. rewrite String.eqb_refl. simpl. rewrite E. reflexivity.
  - intros H. assert (Hn : name m = n) by (apply (findOne_name c); exact H).
    rewrite Hn, E. simpl. rewrite E. apply IH. exact H.
Qed.



Lemma totalRequests_after (outcomes : list Metrics) (p : Performance) :
  totalRequests (foldl updatePerformance p outcomes)
  = (totalRequests p + Z.of_nat (length outcomes))%Z.
Proof.
  revert p. induction outcomes as [|x outcomes IH]; intros p; simpl length.
  - simpl. lia.
  - simpl foldl. rewrite IH. unfold updatePerformance.
    destruct (success x); simpl; lia.
Qed.

Lemma averageLatency_step (p : Performance) (x : Metrics) :
  (0 <= totalRequests p)%Z ->
  (averageLatency (updatePerformance p x) * inject_Z (totalRequests p + 1)
   == averageLatency p * inject_Z (totalRequests p) + latency x)%Q.
Proof.
  intros Hpos. unfold updatePerformance. destruct (success x); simpl.
  all: rewrite inject_Z_plus; change (inject_Z 1) with 1%Q.
  all: assert (Hn : ~ (inject_Z (totalRequests p) + 1 == 0)%Q)
         by (assert (0 <= inject_Z (totalRequests p))%Q
               by (change 0%Q with (inject_Z 0); rewrite <- Zle_Qle; exact Hpos);
             lra).
  all: field; exact Hn.
Qed.

(** The invariant of the running mean: mean times count is the sum. *)
Lemma averageLatency_after (outcomes : list Metrics) (p : Performance) :
  (0 <= totalRequests p)%Z ->
  (averageLatency (foldl updatePerformance p outcomes)
   * inject_Z (totalRequests p + Z.of_nat (length outcomes))
   == averageLatency p * inject_Z (totalRequests p)
      + Spec.total (map latency outcomes))%Q.
Proof.
  revert p. induction outcomes as [|x outcomes IH]; intros p Hpos.
  - simpl. rewrite Z.add_0_r. lra.
  - simpl foldl. simpl map. simpl Spec.total.
    assert (Hpos' : (0 <= totalRequests (updatePerformance p x))%Z).
    { unfold updatePerformance. destruct (success x); simpl; lia. }
    pose proof (IH _ Hpos') as H.
    assert (Ht : totalRequests (updatePerformance p x) = (totalRequests p + 1)%Z).
    { unfold updatePerformance. destruct (success x); reflexivity. }
    rewrite Ht in H.
    replace (totalRequests p + Z.of_nat (length (x :: outcomes)))%Z
      with (totalRequests p + 1 + Z.of_nat (length outcomes))%Z
      by (simpl length; lia).
    rewrite H. rewrite averageLatency_step by exact Hpos. lra.
Qed.

Lemma errorCount_after (outcomes : list Metrics) (p : Performance) :
  errorCount (foldl updatePerformance p outcomes)
  = (errorCount p
     + Z.of_nat (length (List.filter (fun x => negb (success x)) outcomes)))%Z.
Proof.
  revert p. induction outcomes as [|x outcomes IH]; intros p.
  - simpl. lia.
  - simpl foldl. rewrite IH. unfold updatePerformance. simpl List.filter.
    destruct (success x); simpl; lia.
Qed.

End RouterFacts.

(** * The router over doubles *)

Module Router64Facts.
Import JS Number Binary64 Float64Facts.
Local Open Scope float_scope.

(** ** The embedding on concrete inputs *)

Example scores_of_the_two_models :
  let c := MultiLLMRouter.analyzeRequestCriteria "chat" "hello" Examples.R.noContext in
  calculateModelScore Examples.D.registry2 Examples.D.modelA c None = 165.6
  /\ calculateModelScore Examples.D.registry2 Examples.D.modelB c None
     = 165.60000000000002.
Proof. split; reflexivity. Qed.

(** The second model scores higher by one unit in the last place, and is
    selected. *)
Example rounding_decides :
  selectOptimalModel Examples.D.registry2 "chat" "hello" None
    (Obj Examples.R.noContext)
  = Normal (Some Examples.D.modelB).
Proof. vm_compute. reflexivity. Qed.

Example sort_of_doubles_is_stable :
  map fst (sort byScore [("a", 1); ("b", 3); ("c", 2); ("d", 3)])
  = ["b"; "d"; "c"; "a"].
Proof. vm_compute. reflexivity. Qed.

(** ** The stable sort and its first element *)

Section SortHead64.
Context {A : Type}.

Lemma sort64_cons (x : A * float) (l : list (A * float)) :
  sort byScore (x :: l) = sort_insert byScore x (sort byScore l).
Proof. reflexivity. Qed.

Lemma sort64_head_firstMax (l : list (A * float)) :
  Forall (fun x => is_finite (snd x) = true) l ->
  match sort byScore l with
  | [] => l = []
  | best :: _ => Spec64.firstMax best l
  end.
Proof.
  induction l as [|x l IH]; intros Hfin.
  - reflexivity.
  - apply Forall_cons in Hfin. destruct Hfin as [Hx Hl]. specialize (IH Hl).
    rewrite sort64_cons. destruct (sort byScore l) as [|y rest] eqn:Hs.
    + subst l. simpl. exists [], []. repeat split; constructor.
    + destruct IH as (pre & post & Heq & Hpre & Hpost).
      assert (Hy : is_finite (snd y) = true).
      { rewrite Forall_forall in Hl. apply Hl. rewrite Heq.
        apply elem_of_app. right. left. }
      cbn [sort_insert]. unfold byScore at 1.
      rewrite (sub_positive (snd y) (snd x) Hy Hx).
      destruct (snd x <? snd y) eqn:Hlt.
      * exists (x :: pre), post. subst l. repeat split; [|assumption].
        constructor; assumption.
      * exists [], l. repeat split; [constructor|].
        rewrite (ltb_rank _ _ Hx Hy) in Hlt. apply Z.ltb_ge in Hlt.
        rewrite Forall_forall in Hl.
        apply Forall_forall. intros z Hz. pose proof (Hl z Hz) as Hzf.
        rewrite (leb_rank _ _ Hzf Hx). apply Z.leb_le.
        rewrite Heq in Hz. apply elem_of_app in Hz. destruct Hz as [Hz|Hz].
        -- rewrite Forall_forall in Hpre. specialize (Hpre z Hz).
           rewrite (ltb_rank _ _ Hzf Hy) in Hpre. apply Z.ltb_lt in Hpre. lia.
        -- apply elem_of_cons in Hz. destruct Hz as [->|Hz]; [exact Hlt|].
           rewrite Forall_forall in Hpost. specialize (Hpost z Hz).
           rewrite (leb_rank _ _ Hzf Hy) in Hpost. apply Z.leb_le in Hpost. lia.
Qed.

Lemma sort64_nil_iff (l : list (A * float)) : sort byScore l = [] <-> l = [].
Proof.
  split; [|intros ->; reflexivity].
  destruct l as [|x l]; [reflexivity|]. rewrite sort64_cons.
  destruct (sort byScore l) as [|y rest]; cbn [sort_insert]; [discriminate|].
  destruct (0 <? byScore x y); discriminate.
Qed.

End SortHead64.

(** ** The score *)

Lemma currentLoad_load (r : Router) (m : LLMModel) : currentLoad r m = Spec64.load r m.
Proof.
  unfold currentLoad, Spec64.load, orElse, truthy, is_zero.
  destruct (loadBalancer r !! name m) as [n|]; [|reflexivity].
  change zero with 0. destruct (n =? 0), (is_nan n); reflexivity.
Qed.

Lemma zero_not_negzero : ~ isNegZero 0.
Proof. unfold isNegZero. change (Prim2SF 0) with (S754_zero false). discriminate. Qed.

Lemma fifty_not_negzero : ~ isNegZero (0 + 50).
Proof. unfold isNegZero. vm_compute. discriminate. Qed.

(** The sum of the seven terms, as the code accumulates it from a base of
    [0] or [0 + 50]. *)
Lemma accumulate (base : float) (preferred oversize : bool) (t1 t2 t3 load : float) :
  ~ isNegZero base ->
  (let score := base + t1 in
   let score := score + t2 in
   let score := score + t3 in
   let score := if preferred then score + 20 else score in
   let score := score - load * 2 in
   if oversize then score - 100 else score)
  = base + t1 + t2 + t3 + (if preferred then 20 else 0) - 2 * load
    - (if oversize then 100 else 0).
Proof.
  intros Hb. cbv zeta. rewrite (mul_comm load 2).
  assert (Hs : ~ isNegZero (base + t1 + t2 + t3))
    by (do 3 apply add_not_negzero; exact Hb).
  destruct preferred, oversize; rewrite ?sub_zero_r, ?(add_zero_r _ Hs); reflexivity.
Qed.

Ltac split_type64 ty lit :=
  let E := fresh "E" in
  destruct (String.eqb ty lit) eqn:E;
  [apply String.eqb_eq in E; subst ty; cbn [orb]|].

Lemma score64_formula (r : Router) (m : LLMModel) (requestType content : string)
  (context : MultiLLMRouter.RequestContext)
  (userProfile : option MultiLLMRouter.UserProfile) :
  calculateModelScore r m
    (MultiLLMRouter.analyzeRequestCriteria requestType content context) userProfile
  = Spec64.score (Spec.matchesSpecialization requestType (specialization m))
                 (Spec64.preferredBy userProfile m) (Spec64.oversize content m)
                 (averageLatency (performance m)) (successRate (performance m))
                 (userSatisfaction (performance m)) (Spec64.load r m).
Proof.
  unfold calculateModelScore, Spec64.score, Spec64.oversize.
  cbn [MultiLLMRouter.criteria_type MultiLLMRouter.contentLength
       MultiLLMRouter.analyzeRequestCriteria].
  rewrite currentLoad_load.
  set (big := maxContextLength (capabilities m)
              <? ofZ (Z.of_nat (String.length content))).
  assert (Hpref :
    forall s : float,
      match userProfile with
      | Some profile =>
          if String.eqb (MultiLLMRouter.preferredLLM (MultiLLMRouter.preferences profile))
                        (type m)
          then s + 20 else s
      | None => s
      end = if Spec64.preferredBy userProfile m then s + 20 else s).
  { intros s. unfold Spec64.preferredBy. destruct userProfile; reflexivity. }
  rewrite Hpref.
  assert (Hbase :
    forall (b : bool) (base : float),
      base = (if b then 0 + 50 else 0) ->
      (let score := base + (100 - averageLatency (performance m) / 10) in
       let score := score + successRate (performance m) * 0.3 in
       let score := score + userSatisfaction (performance m) * 10 in
       let score := if Spec64.preferredBy userProfile m then score + 20 else score in
       let score := score - Spec64.load r m * 2 in
       if big then score - 100 else score)
      = (if b then 50 else 0) + (100 - averageLatency (performance m) / 10)
        + successRate (performance m) * 0.3 + userSatisfaction (performance m) * 10
        + (if Spec64.preferredBy userProfile m then 20 else 0)
        - 2 * Spec64.load r m - (if big then 100 else 0)).
  { intros b base ->. rewrite accumulate.
    - destruct b; reflexivity.
    - destruct b; [exact fifty_not_negzero|exact zero_not_negzero]. }
  cbv zeta in Hbase |- *.
  unfold Spec.matchesSpecialization, Spec.specializationFor.
  split_type64 requestType "chat".
  { apply (Hbase (String.eqb (specialization m) "chat")).
    destruct (String.eqb (specialization m) "chat"); reflexivity. }
  split_type64 requestType "conversation".
  { apply (Hbase (String.eqb (specialization m) "chat")).
    destruct (String.eqb (specialization m) "chat"); reflexivity. }
  split_type64 requestType "reasoning".
  { apply (Hbase (String.eqb (specialization m) "reasoning")).
    destruct (String.eqb (specialization m) "reasoning"); reflexivity. }
  split_type64 requestType "analysis".
  { apply (Hbase (String.eqb (specialization m) "reasoning")).
    destruct (String.eqb (specialization m) "reasoning"); reflexivity. }
  split_type64 requestType "problem_solving".
  { apply (Hbase (String.eqb (specialization m) "reasoning")).
    destruct (String.eqb (specialization m) "reasoning"); reflexivity. }
  split_type64 requestType "technical".
  { apply (Hbase (String.eqb (specialization m) "technical")).
    destruct (String.eqb (specialization m) "technical"); reflexivity. }
  split_type64 requestType "code".
  { apply (Hbase (String.eqb (specialization m) "technical")).
    destruct (String.eqb (specialization m) "technical"); reflexivity. }
  split_type64 requestType "engineering".
  { apply (Hbase (String.eqb (specialization m) "technical")).
    destruct (String.eqb (specialization m) "technical"); reflexivity. }
  split_type64 requestType "creative".
  { apply (Hbase (String.eqb (specialization m) "creative")).
    destruct (String.eqb (specialization m) "creative"); reflexivity. }
  split_type64 requestType "content_generation".
  { apply (Hbase (String.eqb (specialization m) "creative")).
    destruct (String.eqb (specialization m) "creative"); reflexivity. }
  split_type64 requestType "academic".
  { apply (Hbase (String.eqb (specialization m) "academic")).
    destruct (String.eqb (specialization m) "academic"); reflexivity. }
  split_type64 requestType "educational".
  { apply (Hbase (String.eqb (specialization m) "academic")).
    destruct (String.eqb (specialization m) "academic"); reflexivity. }
  cbn [orb]. cbn. rewrite E, E0, E1, E2, E3, E4, E5, E6, E7, E8, E9, E10. cbn.
  apply (Hbase false). reflexivity.
Qed.

(** ** Selection *)

Lemma selection64_head (r : Router) (requestType content : string)
  (userProfile : option MultiLLMRouter.UserProfile)
  (context : MultiLLMRouter.RequestContext) :
  let scoreOf := fun m =>
    calculateModelScore r m
      (MultiLLMRouter.analyzeRequestCriteria requestType content context) userProfile in
  Forall (fun m => is_finite (scoreOf m) = true) (Map_values (llmModels r)) ->
  match selectOptimalModel r requestType content userProfile (Obj context) with
  | Normal None => llmModels r = []
  | Normal (Some best) =>
      Spec64.firstMax (best, scoreOf best)
        (map (fun m => (m, scoreOf m)) (Map_values (llmModels r)))
  | Throw _ => False
  end.
Proof.
  intros scoreOf Hfin. unfold selectOptimalModel. cbn [analyzeRequestCriteria].
  fold scoreOf.
  pose proof (sort64_head_firstMax
                (map (fun m => (m, scoreOf m)) (Map_values (llmModels r)))) as H.
  destruct (sort byScore _) as [|best rest].
  - unfold Map_values in H. destruct (llmModels r); [reflexivity|].
    discriminate H. apply Forall_fmap. exact Hfin.
  - assert (Hs : Spec64.firstMax best
                   (map (fun m => (m, scoreOf m)) (Map_values (llmModels r)))).
    { apply H. apply Forall_fmap. exact Hfin. }
    assert (Hin : In best (map (fun m => (m, scoreOf m)) (Map_values (llmModels r)))).
    { destruct Hs as (pre & post & Hl & _). rewrite Hl.
      apply in_or_app. right. left. reflexivity. }
    apply in_map_iff in Hin. destruct Hin as (m & <- & _). exact Hs.
Qed.

Lemma selection64_none_iff (r : Router) (requestType content : string)
  (userProfile : option MultiLLMRouter.UserProfile)
  (context : MultiLLMRouter.RequestContext) :
  selectOptimalModel r requestType content userProfile (Obj context) = Normal None
  <-> llmModels r = [].
Proof.
  unfold selectOptimalModel. cbn [analyzeRequestCriteria].
  set (l := map _ (Map_values (llmModels r))).
  pose proof (sort64_nil_iff l) as H. split.
  - destruct (sort byScore l); [|discriminate]. intros _.
    assert (Hl : l = []) by (apply H; reflexivity).
    subst l. unfold Map_values in Hl. destruct (llmModels r); [reflexivity|discriminate].
  - intros He. subst l. rewrite He. reflexivity.
Qed.

Lemma selection64_returns (r : Router) (requestType content : string)
  (userProfile : option MultiLLMRouter.UserProfile)
  (context : MultiLLMRouter.RequestContext) :
  exists result,
    selectOptimalModel r requestType content userProfile (Obj context) = Normal result.
Proof.
  unfold selectOptimalModel. cbn [analyzeRequestCriteria].
  destruct (sort byScore _); eexists; reflexivity.
Qed.

Lemma sort_insert64_In {A} (x y : A * float) (l : list (A * float)) :
  In y (sort_insert byScore x l) -> y = x \/ In y l.
Proof.
  induction l as [|z l IH]; cbn [sort_insert].
  - intros [<-|[]]. left. reflexivity.
  - destruct (0 <? byScore x z).
    + intros [<-|H]; [right; left; reflexivity|].
      destruct (IH H) as [->|Hin]; [left; reflexivity|right; right; exact Hin].
    + intros [<-|H]; [left; reflexivity|right; exact H].
Qed.

Lemma sort64_In {A} (y : A * float) (l : list (A * float)) :
  In y (sort byScore l) -> In y l.
Proof.
  induction l as [|x l IH]; [intros []|]. rewrite sort64_cons. intros H.
  destruct (sort_insert64_In x y _ H) as [->|Hin]; [left; reflexivity|].
  right. apply IH, Hin.
Qed.

Lemma selected64_is_registered (r : Router) (requestType content : string)
  (userProfile : option MultiLLMRouter.UserProfile)
  (context : Nullable MultiLLMRouter.RequestContext) (best : LLMModel) :
  selectOptimalModel r requestType content userProfile context = Normal (Some best) ->
  In best (Map_values (llmModels r)).
Proof.
  unfold selectOptimalModel. destruct (analyzeRequestCriteria _ _ _) as [criteria|e];
    [|discriminate].
  destruct (sort byScore _) as [|x rest] eqn:Hs; [discriminate|].
  intros [= <-].
  assert (Hin : In x (sort byScore
                        (map (fun m => (m, calculateModelScore r m criteria userProfile))
                           (Map_values (llmModels r)))))
    by (rewrite Hs; left; reflexivity).
  apply sort64_In, in_map_iff in Hin. destruct Hin as (m & <- & Hm). exact Hm.
Qed.

(** C1. The score the code computes for a model is, as a double, the sum
    from left to right of the seven terms of the specification: 50 when the
    specialization is the one the table gives the request type, 100 minus a
    tenth of the average latency, 0.3 times the success rate, 10 times the
    user satisfaction, 20 when the caller's preferred type is the model's
    type, minus twice the load counter stored for the model, minus 100 when
    the content is longer than the model's context.  When the scores are
    finite numbers, the model selected is the first of the registry, in
    iteration order, with the highest score, and no model is selected only
    when the registry is empty. *)
Theorem score_and_selection (r : Router) (requestType content : string)
  (userProfile : option MultiLLMRouter.UserProfile)
  (context : MultiLLMRouter.RequestContext) :
  let scoreOf := fun m =>
    calculateModelScore r m
      (MultiLLMRouter.analyzeRequestCriteria requestType content context) userProfile in
  (forall m,
     scoreOf m
     = Spec64.score (Spec.matchesSpecialization requestType (specialization m))
                    (Spec64.preferredBy userProfile m) (Spec64.oversize content m)
                    (averageLatency (performance m)) (successRate (performance m))
                    (userSatisfaction (performance m)) (Spec64.load r m))
  /\ (Forall (fun m => is_finite (scoreOf m) = true) (Map_values (llmModels r)) ->
      match selectOptimalModel r requestType content userProfile (Obj context) with
      | Normal None => llmModels r = []
      | Normal (Some best) =>
          Spec64.firstMax (best, scoreOf best)
            (map (fun m => (m, scoreOf m)) (Map_values (llmModels r)))
      | Throw _ => False
      end).
Proof.
  intros scoreOf. split.
  - intros m. apply score64_formula.
  - apply selection64_head.
Qed.

Lemma score_and_selection_witness :
  let scoreOf := fun m =>
    calculateModelScore Examples.D.registry2 m
      (MultiLLMRouter.analyzeRequestCriteria "chat" "hello" Examples.R.noContext) None in
  Forall (fun m => is_finite (scoreOf m) = true)
         (Map_values (llmModels Examples.D.registry2))
  /\ Spec64.firstMax (Examples.D.modelB, scoreOf Examples.D.modelB)
       (map (fun m => (m, scoreOf m)) (Map_values (llmModels Examples.D.registry2))).
Proof.
  intros scoreOf.
  assert (H : Forall (fun m => is_finite (scoreOf m) = true)
                     (Map_values (llmModels Examples.D.registry2)))
    by (repeat constructor).
  split; [exact H|].
  exact (proj2 (score_and_selection Examples.D.registry2 "chat" "hello" None
                  Examples.R.noContext) H).
Defined.




(** ** Outcome statistics *)

Example three_outcomes :
  performance
    <$> findOne (recordOutcomes [Examples.D.small] "small" Examples.D.outcomes3) "small"
  = Some {| averageLatency := 170; successRate := 66.66666666666667;
            userSatisfaction := 4.333333333333333; totalRequests := 3;
            errorCount := 1 |}.
Proof. vm_compute. reflexivity. Qed.

(** A mean of doubles is not the exact mean: three latencies of a tenth of a
    millisecond do not average to a tenth. *)
Example mean_is_rounded :
  let tenth := {| latency := 0.1; success := true; userRating := None |} in
  averageLatency (foldl updatePerformance defaultPerformance [tenth; tenth; tenth])
  = 0.10000000000000002.
Proof. vm_compute. reflexivity. Qed.














End Router64Facts.

(** * Properties of the agent protocol *)

Module ProtocolFacts.
Import JS MCPProtocol.
Import Spec (keeps, preserves, closed, inactive, templates, with_steps, notFound).

(** ** The embedding on concrete inputs *)

Example default_session_config :
  config <$> sessions Examples.P.oneSession !! "u"
  = Some {| maxAgents := 5; maxTools := 10; timeout := 300000 |}.
Proof. vm_compute. reflexivity. Qed.

(** The scenario of the presentation request: the plan requires the
    creative agent and the response ends with the closing remark. *)
Example presentation_request :
  match fst (processMessage Examples.P.uuid "u" "Create a presentation about gears"
               (Obj Examples.P.noOptions) Examples.P.oneSession) with
  | Normal r =>
      agentsUsed (plan_metadata r) = ["creative_agent"]
      /\ status (execution r) = completed
      /\ length (ex_steps (execution r)) = 2
      /\ str_includes closingRemark (response r) = true
  | Throw _ => False
  end.
Proof. vm_compute. repeat split. Qed.

(** The plan of an information request names the analysis agent in its
    second step and requires the research agent only. *)
Example search_request :
  fst (processMessage Examples.P.uuid "u" "search for thermodynamics papers"
         (Obj Examples.P.noOptions) Examples.P.oneSession)
  = Throw "Agent analysis_agent not found in session".
Proof. vm_compute. reflexivity. Qed.

Example instance_ids_of_five_agents :
  info_activeAgents <$> getSessionInfo "u" Examples.P.fiveAgents
  = Some ["research_agent_ux"; "research_agent_uxx"; "research_agent_uxxx";
          "research_agent_uxxxx"; "research_agent_uxxxxx"].
Proof. vm_compute. reflexivity. Qed.

(** ** The intent classifier *)

Lemma analyzeIntent_table (message : string) (ctx : Context) :
  (intent_type (analyzeIntent message ctx), confidence (analyzeIntent message ctx))
  = Spec.classify message.
Proof.
  unfold analyzeIntent, Spec.classify. cbn [List.find Spec.intentTable fst snd existsb].
  generalize (toLowerCase message). intros k.
  destruct (str_includes "search" k); [reflexivity|].
  destruct (str_includes "find" k); [reflexivity|].
  destruct (str_includes "look up" k); [reflexivity|].
  destruct (str_includes "analyze" k); [reflexivity|].
  destruct (str_includes "examine" k); [reflexivity|].
  destruct (str_includes "study" k); [reflexivity|].
  destruct (str_includes "create" k); [reflexivity|].
  destruct (str_includes "generate" k); [reflexivity|].
  destruct (str_includes "make" k); [reflexivity|].
  destruct (str_includes "solve" k); [reflexivity|].
  destruct (str_includes "calculate" k); [reflexivity|].
  destruct (str_includes "compute" k); [reflexivity|].
  destruct (str_includes "explain" k); [reflexivity|].
  destruct (str_includes "teach" k); [reflexivity|].
  destruct (str_includes "how" k); reflexivity.
Qed.

(** C7. The classifier reads the message text only; its type and confidence
    are those of the first row of the ordered keyword table with a keyword in
    the lower-cased message, [unknown] at 0.5 when no row has one; and the
    message "search for thermodynamics papers" is classified
    [information_retrieval] at 0.8. *)
Theorem analyzeIntent_first_match (message : string) (ctx ctx' : Context) :
  analyzeIntent message ctx = analyzeIntent message ctx'
  /\ (intent_type (analyzeIntent message ctx), confidence (analyzeIntent message ctx))
     = Spec.classify message
  /\ map (fun row => (snd (fst row), snd row)) Spec.intentTable
     = [("information_retrieval", 0.8%Q); ("analysis", 0.8%Q);
        ("content_creation", 0.8%Q); ("problem_solving", 0.8%Q);
        ("educational", 0.7%Q)]
  /\ (intent_type (analyzeIntent "search for thermodynamics papers" ctx),
      confidence (analyzeIntent "search for thermodynamics papers" ctx))
     = ("information_retrieval", 0.8%Q).
Proof.
  split; [reflexivity|]. split; [apply analyzeIntent_table|].
  split; reflexivity.
Qed.

(** ** Spawning at the agent limit *)

Lemma activeSession_ok (p : Protocol) (sid : string) (session : Session) :
  sessions p !! sid = Some session ->
  isActive session = true ->
  activeSession sid p = (Normal session, p).
Proof.
  intros Hs Ha. unfold activeSession, bind, gets. rewrite Hs, Ha. reflexivity.
Qed.

Lemma activeSession_rejects (p : Protocol) (sid : string) :
  (forall s, sessions p !! sid = Some s -> isActive s = false) ->
  activeSession sid p = (Throw "Invalid or inactive session", p).
Proof.
  intros H. unfold activeSession, bind, gets.
  destruct (sessions p !! sid) as [s|] eqn:Hs; [|reflexivity].
  rewrite (H s eq_refl). reflexivity.
Qed.

(** C6. In an active session that holds at least as many agents as its
    [maxAgents] allows (for instance five agents under the default limit of
    five), spawning an agent from a registered template throws the
    capacity error and leaves the whole protocol state, hence the session's
    agent set, as it was. *)
Theorem spawnAgent_at_capacity (uuidv4 : nat -> string) (p : Protocol)
  (sid aid : string) (agentConfig : Config) (session : Session)
  (agentDefinition : AgentDefinition) :
  sessions p !! sid = Some session ->
  isActive session = true ->
  agents p !! aid = Some agentDefinition ->
  (maxAgents (config session) <= Z.of_nat (length (activeAgents session)))%Z ->
  spawnAgent uuidv4 sid aid agentConfig p
  = (Throw "Maximum number of agents reached for this session", p)
  /\ activeAgents <$> sessions (snd (spawnAgent uuidv4 sid aid agentConfig p)) !! sid
     = Some (activeAgents session).
Proof.
  intros Hs Ha Hd Hcap.
  assert (E : spawnAgent uuidv4 sid aid agentConfig p
              = (Throw "Maximum number of agents reached for this session", p)).
  { unfold spawnAgent, bind. rewrite (activeSession_ok p sid session Hs Ha).
    unfold gets. rewrite Hd.
    apply Z.leb_le in Hcap. rewrite Hcap. reflexivity. }
  split; [exact E|]. rewrite E. simpl. rewrite Hs. reflexivity.
Qed.

Lemma spawnAgent_at_capacity_witness :
  spawnAgent Examples.P.uuid "u" "creative_agent" [] Examples.P.fiveAgents
  = (Throw "Maximum number of agents reached for this session", Examples.P.fiveAgents)
  /\ length <$> (activeAgents <$> sessions Examples.P.fiveAgents !! "u") = Some 5.
Proof.
  assert (Hs : exists s d,
             sessions Examples.P.fiveAgents !! "u" = Some s
             /\ agents Examples.P.fiveAgents !! "creative_agent" = Some d
             /\ isActive s = true
             /\ maxAgents (config s) = 5%Z
             /\ length (activeAgents s) = 5).
  { eexists _, _. split; [vm_compute; reflexivity|].
    split; [vm_compute; reflexivity|]. repeat split. }
  destruct Hs as (s & d & Hs & Hd & Ha & Hmax & Hlen).
  destruct (spawnAgent_at_capacity Examples.P.uuid Examples.P.fiveAgents "u"
              "creative_agent" [] s d Hs Ha Hd) as [Hthrow Hset].
  - rewrite Hmax, Hlen. reflexivity.
  - split; [exact Hthrow|]. rewrite Hs. simpl. rewrite Hlen. reflexivity.
Defined.

(** ** Closing a session *)

Lemma closeSession_existing (p : Protocol) (sid : string) (session : Session) :
  sessions p !! sid = Some session ->
  closeSession sid p
  = (Normal tt,
     emit (sessionClosed sid)
       (with_contexts (delete sid)
          (with_sessions (alter (deactivate (now p)) sid) p))).
Proof.
  intros Hs. unfold closeSession, bind, gets. rewrite Hs. reflexivity.
Qed.

Lemma closeSession_missing (p : Protocol) (sid : string) :
  sessions p !! sid = None -> closeSession sid p = (Normal tt, p).
Proof.
  intros Hs. unfold closeSession, bind, gets. rewrite Hs. reflexivity.
Qed.

Lemma closeSession_returns (p : Protocol) (sid : string) :
  fst (closeSession sid p) = Normal tt.
Proof.
  destruct (sessions p !! sid) as [s|] eqn:Hs.
  - rewrite (closeSession_existing p sid s Hs). reflexivity.
  - rewrite (closeSession_missing p sid Hs). reflexivity.
Qed.

Lemma closeSession_closed (p : Protocol) (sid : string) :
  is_Some (sessions p !! sid) -> closed sid (snd (closeSession sid p)).
Proof.
  intros [s Hs]. rewrite (closeSession_existing p sid s Hs).
  unfold closed. simpl. split.
  - rewrite lookup_alter_eq, Hs. reflexivity.
  - apply lookup_delete_eq.
Qed.

Lemma closeSession_keeps_session (p : Protocol) (sid : string) :
  is_Some (sessions p !! sid) -> is_Some (sessions (snd (closeSession sid p)) !! sid).
Proof.
  intros [s Hs]. rewrite (closeSession_existing p sid s Hs). simpl.
  rewrite lookup_alter_eq, Hs. eexists. reflexivity.
Qed.

(** C9. For an existing session, a first and a second [closeSession], with
    any time passing in between, both return without error, and after each
    of them the session is inactive and has no entry in the context map. *)
Theorem closeSession_twice (p : Protocol) (sid : string) (dt : Z) :
  is_Some (sessions p !! sid) ->
  let first := closeSession sid p in
  let second := closeSession sid (tick dt (snd first)) in
  fst first = Normal tt
  /\ closed sid (snd first)
  /\ fst second = Normal tt
  /\ closed sid (snd second).
Proof.
  intros Hs first second.
  split; [apply closeSession_returns|].
  split; [apply closeSession_closed; exact Hs|].
  split; [apply closeSession_returns|].
  apply closeSession_closed.
  apply (closeSession_keeps_session p sid) in Hs. exact Hs.
Qed.

Lemma closeSession_twice_witness :
  let first := closeSession "u" Examples.P.oneSession in
  let second := closeSession "u" (tick 7 (snd first)) in
  fst first = Normal tt
  /\ closed "u" (snd first)
  /\ fst second = Normal tt
  /\ closed "u" (snd second).
Proof.
  apply (closeSession_twice Examples.P.oneSession "u" 7).
  vm_compute. eexists. reflexivity.
Defined.

(** ** What the methods leave untouched *)

Lemma bind_normal {A B} (c : M A) (k : A -> M B) (p p' : Protocol) (a : A) :
  c p = (Normal a, p') -> bind c k p = k a p'.
Proof. intros H. unfold bind. rewrite H. reflexivity. Qed.

Lemma bind_throw {A B} (c : M A) (k : A -> M B) (p p' : Protocol) (e : string) :
  c p = (Throw e, p') -> bind c k p = (Throw e, p').
Proof. intros H. unfold bind. rewrite H. reflexivity. Qed.

Lemma keeps_refl {X} (f : Session -> X) (sid : string) (p : Protocol) :
  keeps f sid p p.
Proof. reflexivity. Qed.

Lemma keeps_trans {X} (f : Session -> X) (sid : string) (p1 p2 p3 : Protocol) :
  keeps f sid p1 p2 -> keeps f sid p2 p3 -> keeps f sid p1 p3.
Proof. unfold keeps. intros H1 H2. rewrite H2. exact H1. Qed.

Section Frame.
Context {X : Type} (f : Session -> X) (sid : string).

Lemma preserves_ret {A} (a : A) : preserves f sid (ret a).
Proof. intros p. split; [apply keeps_refl|simpl; lia]. Qed.

Lemma preserves_throw {A} (e : string) : preserves f sid (@throw A e).
Proof. intros p. split; [apply keeps_refl|simpl; lia]. Qed.

Lemma preserves_property {A} (property_name : string) (o : Nullable A) :
  preserves f sid (property property_name o).
Proof. destruct o; [apply preserves_throw|apply preserves_ret]. Qed.

Lemma preserves_gets {A} (g : Protocol -> A) : preserves f sid (gets g).
Proof. intros p. split; [apply keeps_refl|simpl; lia]. Qed.

Lemma preserves_bind {A B} (c : M A) (k : A -> M B) :
  preserves f sid c -> (forall a, preserves f sid (k a)) -> preserves f sid (bind c k).
Proof.
  intros Hc Hk p. unfold bind. specialize (Hc p).
  destruct (c p) as [[a|e] p1]; simpl in Hc.
  - specialize (Hk a p1). destruct Hc as [Hc1 Hc2], Hk as [Hk1 Hk2].
    split; [eapply keeps_trans; eassumption|lia].
  - exact Hc.
Qed.

Lemma preserves_modify (g : Protocol -> Protocol) :
  (forall p, sessions (g p) = sessions p) ->
  (forall p, drawn p <= drawn (g p)) ->
  preserves f sid (modify g).
Proof.
  intros Hs Hd p. split; [|apply Hd].
  unfold keeps. simpl. rewrite Hs. reflexivity.
Qed.

Lemma preserves_emit (e : Event) : preserves f sid (modify (emit e)).
Proof. apply preserves_modify; intros p; simpl; [reflexivity|lia]. Qed.

Lemma preserves_draw (uuidv4 : nat -> string) : preserves f sid (draw uuidv4).
Proof. intros p. split; [reflexivity|simpl; lia]. Qed.

Lemma preserves_updateSession (sid' : string) (g : Session -> Session) :
  (forall s, f (g s) = f s) -> preserves f sid (updateSession sid' g).
Proof.
  intros Hg p. split; [|simpl; lia].
  unfold keeps. simpl. destruct (decide (sid' = sid)) as [->|Hne].
  - rewrite lookup_alter_eq. destruct (sessions p !! sid); simpl; [|reflexivity].
    rewrite Hg. reflexivity.
  - rewrite lookup_alter_ne by exact Hne. reflexivity.
Qed.

Lemma preserves_activeSession (sid' : string) : preserves f sid (activeSession sid').
Proof.
  unfold activeSession. apply preserves_bind; [apply preserves_gets|].
  intros [s|]; [destruct (isActive s)|];
    first [apply preserves_ret | apply preserves_throw].
Qed.

Hypothesis f_agents : forall g s, f (with_activeAgents g s) = f s.
Hypothesis f_spawn : forall k a s,
  f (with_context (with_agentContexts (Map_set k a)) s) = f s.
Hypothesis f_history : forall aid r s,
  f (with_context (with_agentContexts (alterFound aid (push_history r))) s) = f s.

Lemma preserves_spawnAgent (uuidv4 : nat -> string) (sid' aid : string)
  (agentConfig : Config) :
  preserves f sid (spawnAgent uuidv4 sid' aid agentConfig).
Proof.
  unfold spawnAgent. apply preserves_bind; [apply preserves_activeSession|].
  intros session. apply preserves_bind; [apply preserves_gets|].
  intros [d|]; [|apply preserves_throw].
  destruct (_ <=? _)%Z; [apply preserves_throw|].
  apply preserves_bind; [apply preserves_draw|]. intros u.
  apply preserves_bind; [apply preserves_gets|]. intros t.
  apply preserves_bind; [apply preserves_updateSession; apply f_agents|]. intros _.
  apply preserves_bind; [apply preserves_updateSession; apply f_spawn|]. intros _.
  apply preserves_bind; [apply preserves_emit|]. intros _.
  apply preserves_ret.
Qed.

Lemma preserves_executeAgentAction (a : AgentInstance) (act : string)
  (tls : list string) (sid' : string) :
  preserves f sid (executeAgentAction a act tls sid').
Proof.
  unfold executeAgentAction. apply preserves_bind; [apply preserves_gets|].
  intros t. apply preserves_bind; [apply preserves_updateSession; apply f_history|].
  intros _. apply preserves_ret.
Qed.

Lemma preserves_executeStep (uuidv4 : nat -> string) (st : Step) (sid' : string) :
  preserves f sid (executeStep uuidv4 st sid').
Proof.
  unfold executeStep. apply preserves_bind; [apply preserves_draw|]. intros u.
  apply preserves_bind; [apply preserves_gets|]. intros t.
  apply preserves_bind; [apply preserves_gets|].
  intros [a|]; [|apply preserves_throw].
  apply preserves_bind; [apply preserves_executeAgentAction|]. intros r.
  apply preserves_bind; [apply preserves_gets|]. intros t'.
  apply preserves_ret.
Qed.

Lemma preserves_ensureAgents (uuidv4 : nat -> string) (required : list string)
  (sid' : string) :
  preserves f sid (ensureAgents uuidv4 required sid').
Proof.
  induction required as [|aid rest IH]; simpl; [apply preserves_ret|].
  apply preserves_bind; [apply preserves_gets|]. intros present.
  apply preserves_bind; [|intros _; exact IH].
  destruct present; [apply preserves_ret|].
  apply preserves_bind; [apply preserves_spawnAgent|]. intros _. apply preserves_ret.
Qed.

Lemma executeSteps_keeps (uuidv4 : nat -> string) (sts : list Step) (sid' : string)
  (e : Execution) (p : Protocol) :
  keeps f sid p (snd (executeSteps uuidv4 sts sid' e p))
  /\ drawn p <= drawn (snd (executeSteps uuidv4 sts sid' e p)).
Proof.
  revert e p. induction sts as [|st rest IH]; intros e p; simpl.
  - split; [apply keeps_refl|lia].
  - pose proof (preserves_executeStep uuidv4 st sid' p) as H.
    destruct (executeStep uuidv4 st sid' p) as [[se|msg] p1]; simpl in H.
    + destruct H as [H1 H2].
      destruct (IH (record_step se (result se) e) p1) as [H3 H4].
      split; [eapply keeps_trans; eassumption|lia].
    + exact H.
Qed.

Lemma preserves_executePlan (uuidv4 : nat -> string) (plan : Plan) (sid' : string)
  (originalMessage : MCPMessage) :
  preserves f sid (executePlan uuidv4 plan sid' originalMessage).
Proof.
  intros p. unfold executePlan, executePlan_trace.
  pose proof (preserves_ensureAgents uuidv4 (requiredAgents plan) sid' p) as H.
  destruct (ensureAgents uuidv4 (requiredAgents plan) sid' p) as [[[]|msg] p1];
    simpl in H; [|exact H].
  match goal with
  | |- context [executeSteps uuidv4 ?sts sid' ?e0 p1] =>
      pose proof (executeSteps_keeps uuidv4 sts sid' e0 p1) as H';
      destruct (executeSteps uuidv4 sts sid' e0 p1) as [[[[]|msg] e1] p2]
  end; simpl in H' |- *; destruct H as [H1 H2], H' as [H3 H4];
    (split; [eapply keeps_trans; eassumption|lia]).
Qed.

Lemma preserves_createRoutingPlan (uuidv4 : nat -> string) (i : Intent) (sid' : string) :
  preserves f sid (createRoutingPlan uuidv4 i sid').
Proof.
  unfold createRoutingPlan. apply preserves_bind; [apply preserves_draw|].
  intros u. destruct (routingTable (intent_type i)) as [[ags tls] sts].
  apply preserves_ret.
Qed.

Lemma preserves_messageTail (uuidv4 : nat -> string) (i : Intent) (sid' mid : string)
  (m : MCPMessage) :
  preserves f sid
    (routingPlan <- createRoutingPlan uuidv4 i sid';;
     r <- executePlan uuidv4 routingPlan sid' m;;
     modify (emit (messageProcessed sid' mid));;;
     ret r).
Proof.
  apply preserves_bind; [apply preserves_createRoutingPlan|]. intros plan.
  apply preserves_bind; [apply preserves_executePlan|]. intros r.
  apply preserves_bind; [apply preserves_emit|]. intros _. apply preserves_ret.
Qed.

Hypothesis f_activity : forall t s, f (with_lastActivity t s) = f s.
Hypothesis f_message : forall m s, f (push_message m s) = f s.

Lemma preserves_processMessage (uuidv4 : nat -> string) (sid' message : string)
  (options : Nullable MessageOptions) :
  preserves f sid (processMessage uuidv4 sid' message options).
Proof.
  unfold processMessage. apply preserves_bind; [apply preserves_activeSession|].
  intros session. apply preserves_bind; [apply preserves_gets|]. intros t.
  apply preserves_bind; [apply preserves_updateSession; apply f_activity|]. intros _.
  apply preserves_bind; [apply preserves_draw|]. intros u.
  apply preserves_bind; [apply preserves_property|]. intros o.
  apply preserves_bind; [apply preserves_updateSession; apply f_message|]. intros _.
  apply preserves_messageTail.
Qed.

End Frame.

(** ** The message history *)

Lemma processMessage_history (uuidv4 : nat -> string) (p : Protocol)
  (sid message : string) (options : MessageOptions) (s : Session) :
  sessions p !! sid = Some s ->
  isActive s = true ->
  exists s' m,
    sessions (snd (processMessage uuidv4 sid message (Obj options) p)) !! sid = Some s'
    /\ isActive s' = true
    /\ content m = message
    /\ messageHistory s' = (messageHistory s ++ [m])%list.
Proof.
  intros Hs Ha. unfold processMessage.
  rewrite (bind_normal _ _ p p s (activeSession_ok p sid s Hs Ha)).
  erewrite bind_normal by reflexivity.
  erewrite bind_normal by reflexivity.
  erewrite bind_normal by reflexivity.
  erewrite bind_normal by reflexivity.
  erewrite bind_normal by reflexivity.
  match goal with
  | |- context [bind (createRoutingPlan uuidv4 ?i sid) ?k ?p3] =>
      pose proof (preserves_messageTail (fun x => (isActive x, messageHistory x)) sid
                    ltac:(reflexivity) ltac:(reflexivity) ltac:(reflexivity)
                    uuidv4 i sid (uuidv4 (drawn p))
                    {| messageId := uuidv4 (drawn p); msg_sessionId := sid;
                       content := message; timestamp := now p;
                       sender := orDefault (opt_sender options) "user";
                       msg_type := orDefault (opt_type options) "query";
                       msg_metadata := match opt_metadata options with
                                       | Some m => m | None => [] end |} p3) as [H _]
  end.
  unfold keeps in H. cbn [snd] in H.
  match type of H with
  | _ <$> sessions ?q !! sid = _ => destruct (sessions q !! sid) as [s'|] eqn:Hs'
  end.
  - simpl in H. rewrite !lookup_alter_eq, Hs in H. simpl in H.
    injection H as H1 H2.
    eexists s', _. split; [exact Hs'|]. split; [congruence|].
    split; [|exact H2]. reflexivity.
  - simpl in H. rewrite !lookup_alter_eq, Hs in H. discriminate.
Qed.

(** With [null] for the options the call throws once the activity time is
    set and the message identifier drawn, before the message is made. *)
Lemma processMessage_null (uuidv4 : nat -> string) (p : Protocol)
  (sid message : string) (s : Session) :
  sessions p !! sid = Some s ->
  isActive s = true ->
  processMessage uuidv4 sid message Null p
  = (Throw (typeError "sender"),
     with_drawn (S (drawn p))
       (with_sessions (alter (with_lastActivity (now p)) sid) p)).
Proof.
  intros Hs Ha. unfold processMessage.
  rewrite (bind_normal _ _ p p s (activeSession_ok p sid s Hs Ha)).
  erewrite bind_normal by reflexivity.
  erewrite bind_normal by reflexivity.
  erewrite bind_normal by reflexivity.
  reflexivity.
Qed.

Lemma processMessages_history (uuidv4 : nat -> string)
  (msgs : list (string * Nullable MessageOptions)) (p : Protocol) (sid : string)
  (s : Session) :
  sessions p !! sid = Some s ->
  isActive s = true ->
  exists s',
    sessions (run uuidv4 (map (fun mo => ProcessMessage sid (fst mo) (snd mo)) msgs) p)
      !! sid = Some s'
    /\ isActive s' = true
    /\ exists added,
         messageHistory s' = (messageHistory s ++ added)%list
         /\ map content added
            = map fst (List.filter (fun mo => negb (isNull (snd mo))) msgs).
Proof.
  revert p s. induction msgs as [|[m [|o]] msgs IH]; intros p s Hs Ha.
  - exists s. split; [exact Hs|]. split; [exact Ha|]. exists [].
    split; [rewrite app_nil_r; reflexivity|reflexivity].
  - cbn [map run foldl step fst snd List.filter isNull negb].
    rewrite (processMessage_null uuidv4 p sid m s Hs Ha). cbn [snd].
    apply (IH _ (with_lastActivity (now p) s)); [|exact Ha].
    simpl. rewrite lookup_alter_eq, Hs. reflexivity.
  - destruct (processMessage_history uuidv4 p sid m o s Hs Ha)
      as (s1 & m1 & Hs1 & Ha1 & Hc & Hh).
    destruct (IH _ s1 Hs1 Ha1) as (s' & Hs' & Ha' & added & Hadd & Hmap).
    exists s'. split; [exact Hs'|]. split; [exact Ha'|].
    exists (m1 :: added). split.
    + rewrite Hadd, Hh, <- app_assoc. reflexivity.
    + simpl. rewrite Hc, Hmap. reflexivity.
Qed.

(** C5, as stated, fails: no number bounds the message history of the
    session of the example over all sequences of [processMessage] calls. *)
Lemma messageHistory_exceeds_every_cap :
  ~ exists cap : nat,
      forall msgs : list (string * MessageOptions),
        match getSessionInfo "u"
                (run Examples.P.uuid
                   (map (fun mo => ProcessMessage "u" (fst mo) (Obj (snd mo))) msgs)
                   Examples.P.oneSession) with
        | Some info => messageCount info <= cap
        | None => True
        end.
Proof.
  intros [cap Hcap].
  specialize (Hcap (repeat ("hello", Examples.P.noOptions) (S cap))).
  assert (Hs : exists s, sessions Examples.P.oneSession !! "u" = Some s
                         /\ isActive s = true /\ messageHistory s = []).
  { eexists. split; [vm_compute; reflexivity|]. split; reflexivity. }
  destruct Hs as (s & Hs & Ha & Hh).
  destruct (processMessages_history Examples.P.uuid
              (map (fun mo => (fst mo, Obj (snd mo)))
                 (repeat ("hello", Examples.P.noOptions) (S cap)))
              Examples.P.oneSession "u" s Hs Ha)
    as (s' & Hs' & _ & added & Hadd & Hmap).
  rewrite map_map in Hs'. cbn [fst snd] in Hs'.
  unfold getSessionInfo in Hcap. rewrite Hs' in Hcap. cbn [messageCount] in Hcap.
  rewrite Hadd, Hh in Hcap. cbn [app] in Hcap.
  apply (f_equal (@length string)) in Hmap.
  rewrite !length_map in Hmap.
  rewrite forallb_filter_id in Hmap.
  - rewrite length_map, repeat_length in Hmap. lia.
  - apply forallb_forall. intros x Hx. apply in_map_iff in Hx.
    destruct Hx as (y & <- & _). reflexivity.
Qed.

(** C5, amended.  The message history of an active session has no cap and
    nothing is evicted: a sequence of [processMessage] calls leaves the
    session active and its history is the old history followed by one entry
    per call whose options are not [null], in order, whether the call
    returned or threw; a call whose options are [null] throws before its
    entry is made and adds nothing. *)
Theorem messageHistory_appends (uuidv4 : nat -> string)
  (msgs : list (string * Nullable MessageOptions)) (p : Protocol) (sid : string)
  (s : Session) :
  sessions p !! sid = Some s ->
  isActive s = true ->
  let received := List.filter (fun mo => negb (isNull (snd mo))) msgs in
  exists s',
    sessions (run uuidv4 (map (fun mo => ProcessMessage sid (fst mo) (snd mo)) msgs) p)
      !! sid = Some s'
    /\ isActive s' = true
    /\ (exists added,
          messageHistory s' = (messageHistory s ++ added)%list
          /\ map content added = map fst received)
    /\ length (messageHistory s') = length (messageHistory s) + length received.
Proof.
  intros Hs Ha received.
  destruct (processMessages_history uuidv4 msgs p sid s Hs Ha)
    as (s' & Hs' & Ha' & added & Hadd & Hmap).
  exists s'. split; [exact Hs'|]. split; [exact Ha'|].
  split; [exists added; split; assumption|].
  rewrite Hadd, length_app. f_equal.
  apply (f_equal (@length string)) in Hmap. rewrite !length_map in Hmap. exact Hmap.
Qed.

Lemma messageHistory_appends_witness :
  messageCount <$> getSessionInfo "u"
      (run Examples.P.uuid
         (map (fun mo => ProcessMessage "u" (fst mo) (snd mo)) Examples.P.fourCalls)
         Examples.P.oneSession)
  = Some 3.
Proof.
  assert (Hs : exists s, sessions Examples.P.oneSession !! "u" = Some s
                         /\ isActive s = true /\ messageHistory s = []).
  { eexists. split; [vm_compute; reflexivity|]. split; reflexivity. }
  destruct Hs as (s & Hs & Ha & Hh).
  destruct (messageHistory_appends Examples.P.uuid Examples.P.fourCalls
              Examples.P.oneSession "u" s Hs Ha) as (s' & Hs' & _ & _ & Hlen).
  unfold getSessionInfo. rewrite Hs'. cbn [fmap option_fmap option_map messageCount].
  rewrite Hlen, Hh. reflexivity.
Defined.

(** ** Operations on a closed session *)

Lemma keeps_inactive (sid : string) (p p' : Protocol) :
  keeps isActive sid p p' -> inactive sid p -> inactive sid p'.
Proof. unfold keeps, inactive. intros H. rewrite H. tauto. Qed.

Lemma closed_inactive (sid : string) (p : Protocol) : closed sid p -> inactive sid p.
Proof. unfold closed, inactive. intros [H _]. rewrite H. discriminate. Qed.

Lemma closeSession_inactive (sid : string) (p : Protocol) :
  inactive sid (snd (closeSession sid p)).
Proof.
  destruct (sessions p !! sid) as [s|] eqn:Hs.
  - apply closed_inactive, closeSession_closed. rewrite Hs. eexists. reflexivity.
  - rewrite (closeSession_missing p sid Hs). unfold inactive. simpl.
    rewrite Hs. discriminate.
Qed.

Lemma closeSession_other (sid sid' : string) (p : Protocol) :
  inactive sid p -> inactive sid (snd (closeSession sid' p)).
Proof.
  intros Hin. destruct (decide (sid' = sid)) as [->|Hne];
    [apply closeSession_inactive|].
  destruct (sessions p !! sid') as [s|] eqn:Hs.
  - rewrite (closeSession_existing p sid' s Hs). unfold inactive in *. simpl.
    rewrite lookup_alter_ne by exact Hne. exact Hin.
  - rewrite (closeSession_missing p sid' Hs). exact Hin.
Qed.

Lemma closeSession_drawn (sid : string) (p : Protocol) :
  drawn (snd (closeSession sid p)) = drawn p.
Proof.
  destruct (sessions p !! sid) as [s|] eqn:Hs.
  - rewrite (closeSession_existing p sid s Hs). reflexivity.
  - rewrite (closeSession_missing p sid Hs). reflexivity.
Qed.

Lemma createSession_effect (uuidv4 : nat -> string) (uid : string)
  (sessionConfig : Nullable SessionOptions) (p : Protocol) :
  drawn (snd (createSession uuidv4 uid sessionConfig p)) = S (drawn p)
  /\ forall sid, sid <> uuidv4 (drawn p) ->
       sessions (snd (createSession uuidv4 uid sessionConfig p)) !! sid
       = sessions p !! sid.
Proof.
  destruct sessionConfig as [|cfg].
  - split; [reflexivity|]. intros sid _. reflexivity.
  - split; [reflexivity|].
    intros sid Hne. simpl. apply lookup_insert_ne. congruence.
Qed.

Lemma inactive_rejects_spawnAgent (uuidv4 : nat -> string) (p : Protocol)
  (sid aid : string) (agentConfig : Config) :
  inactive sid p ->
  spawnAgent uuidv4 sid aid agentConfig p = (Throw "Invalid or inactive session", p).
Proof.
  intros Hin. unfold spawnAgent. apply bind_throw, activeSession_rejects.
  intros s Hs. unfold inactive in Hin. rewrite Hs in Hin. simpl in Hin.
  destruct (isActive s); [contradiction Hin; reflexivity|reflexivity].
Qed.

Lemma inactive_rejects_processMessage (uuidv4 : nat -> string) (p : Protocol)
  (sid message : string) (options : Nullable MessageOptions) :
  inactive sid p ->
  processMessage uuidv4 sid message options p
  = (Throw "Invalid or inactive session", p).
Proof.
  intros Hin. unfold processMessage. apply bind_throw, activeSession_rejects.
  intros s Hs. unfold inactive in Hin. rewrite Hs in Hin. simpl in Hin.
  destruct (isActive s); [contradiction Hin; reflexivity|reflexivity].
Qed.

(** One later call keeps the session inactive, as long as the identifier
    generator does not hand out the session's id again. *)
Lemma step_inactive (uuidv4 : nat -> string) (sid : string) (n0 : nat) (o : Op)
  (p : Protocol) :
  (forall n, n0 <= n -> uuidv4 n <> sid) ->
  inactive sid p -> n0 <= drawn p ->
  inactive sid (step uuidv4 o p) /\ n0 <= drawn (step uuidv4 o p).
Proof.
  intros Hfresh Hin Hn. destruct o as [uid cfg|sid' aid cfg|sid' msg opts|sid'|dt];
    cbn [step].
  - destruct (createSession_effect uuidv4 uid cfg p) as (Hd & Hs).
    split; [|lia]. unfold inactive. rewrite Hs; [exact Hin|].
    intros E. apply (Hfresh (drawn p) Hn). symmetry. exact E.
  - destruct (preserves_spawnAgent isActive sid ltac:(reflexivity) ltac:(reflexivity)
                uuidv4 sid' aid cfg p) as [Hk Hd].
    split; [eapply keeps_inactive; eassumption|lia].
  - destruct (preserves_processMessage isActive sid ltac:(reflexivity)
                ltac:(reflexivity) ltac:(reflexivity) ltac:(reflexivity)
                ltac:(reflexivity) uuidv4 sid' msg opts p) as [Hk Hd].
    split; [eapply keeps_inactive; eassumption|lia].
  - split; [apply closeSession_other; exact Hin|].
    rewrite closeSession_drawn. exact Hn.
  - split; [exact Hin|exact Hn].
Qed.

Lemma run_inactive (uuidv4 : nat -> string) (sid : string) (n0 : nat) (ops : list Op)
  (p : Protocol) :
  (forall n, n0 <= n -> uuidv4 n <> sid) ->
  inactive sid p -> n0 <= drawn p ->
  inactive sid (run uuidv4 ops p).
Proof.
  intros Hfresh. revert p. induction ops as [|o ops IH]; intros p Hin Hn.
  - exact Hin.
  - destruct (step_inactive uuidv4 sid n0 o p Hfresh Hin Hn) as [Hin' Hn'].
    apply (IH _ Hin' Hn').
Qed.

(** C8. Once [closeSession sid] has returned, and whatever calls are made
    afterwards (sessions created, agents spawned, messages processed,
    sessions closed, time passing), a [spawnAgent] or a [processMessage] on
    [sid] throws the invalid-or-inactive-session error and changes nothing,
    provided the identifier generator never hands out [sid] again. *)
Theorem closed_session_rejects_operations (uuidv4 : nat -> string) (p : Protocol)
  (sid : string) (later : list Op) (aid : string) (agentConfig : Config)
  (message : string) (options : Nullable MessageOptions) :
  (forall n, drawn p <= n -> uuidv4 n <> sid) ->
  let p' := run uuidv4 later (snd (closeSession sid p)) in
  spawnAgent uuidv4 sid aid agentConfig p' = (Throw "Invalid or inactive session", p')
  /\ processMessage uuidv4 sid message options p'
     = (Throw "Invalid or inactive session", p').
Proof.
  intros Hfresh p'.
  assert (Hin : inactive sid p').
  { apply (run_inactive uuidv4 sid (drawn p) later); [exact Hfresh| |].
    - apply closeSession_inactive.
    - rewrite closeSession_drawn. lia. }
  split.
  - apply inactive_rejects_spawnAgent. exact Hin.
  - apply inactive_rejects_processMessage. exact Hin.
Qed.

Lemma closed_session_rejects_operations_witness :
  let p' := run Examples.P.uuid Examples.P.laterCalls
              (snd (closeSession "u" Examples.P.oneSession)) in
  spawnAgent Examples.P.uuid "u" "research_agent" [] p'
  = (Throw "Invalid or inactive session", p')
  /\ processMessage Examples.P.uuid "u" "search for papers" (Obj Examples.P.noOptions) p'
     = (Throw "Invalid or inactive session", p').
Proof.
  apply (closed_session_rejects_operations Examples.P.uuid Examples.P.oneSession "u"
           Examples.P.laterCalls "research_agent" [] "search for papers"
           (Obj Examples.P.noOptions)).
  intros n Hn. change (drawn Examples.P.oneSession) with 1 in Hn.
  destruct n as [|n]; [lia|]. discriminate.
Defined.

(** ** Plan execution and the first failing step *)

Lemma alterFound_templates (aid : string) (r : ActionResult)
  (m : list (string * AgentInstance)) :
  map agentId (Map_values (alterFound aid (push_history r) m))
  = map agentId (Map_values m).
Proof.
  unfold Map_values. induction m as [|[k a] m IH]; [reflexivity|]. simpl.
  destruct (String.eqb (agentId a) aid); simpl; [reflexivity|].
  f_equal. exact IH.
Qed.

Lemma templates_history (aid : string) (r : ActionResult) (s : Session) :
  templates (with_context (with_agentContexts (alterFound aid (push_history r))) s)
  = templates s.
Proof. unfold templates. simpl. apply alterFound_templates. Qed.

Lemma find_template_none (aid : string) (l : list AgentInstance) :
  List.find (fun a => String.eqb (agentId a) aid) l = None
  <-> ~ In aid (map agentId l).
Proof.
  induction l as [|a l IH]; simpl; [tauto|].
  destruct (String.eqb_spec (agentId a) aid) as [E|E].
  - split; [discriminate|]. intros H. contradiction H. left. exact E.
  - rewrite IH. tauto.
Qed.

Lemma findAgentInstance_none (sid aid : string) (p : Protocol) :
  findAgentInstance sid aid p = None
  <-> match templates <$> sessions p !! sid with
      | Some l => ~ In aid l
      | None => True
      end.
Proof.
  unfold findAgentInstance, templates.
  destruct (sessions p !! sid) as [s|]; simpl; [apply find_template_none|tauto].
Qed.

Lemma findAgentInstance_keeps (sid aid : string) (p p' : Protocol) :
  keeps templates sid p p' ->
  (findAgentInstance sid aid p' = None <-> findAgentInstance sid aid p = None).
Proof.
  intros H. rewrite !findAgentInstance_none. unfold keeps in H. rewrite H. tauto.
Qed.

Lemma executeStep_missing (uuidv4 : nat -> string) (st : Step) (sid : string)
  (p : Protocol) :
  findAgentInstance sid (agent st) p = None ->
  executeStep uuidv4 st sid p = (Throw (notFound st), with_drawn (S (drawn p)) p).
Proof.
  intros H. unfold executeStep.
  erewrite bind_normal by reflexivity.
  erewrite bind_normal by reflexivity.
  erewrite bind_normal by reflexivity.
  change (findAgentInstance sid (agent st) (with_drawn (S (drawn p)) p))
    with (findAgentInstance sid (agent st) p).
  rewrite H. reflexivity.
Qed.

Lemma executeStep_found (uuidv4 : nat -> string) (st : Step) (sid : string)
  (p : Protocol) :
  is_Some (findAgentInstance sid (agent st) p) ->
  exists se p',
    executeStep uuidv4 st sid p = (Normal se, p')
    /\ se_status se = completed
    /\ se_action se = action st.
Proof.
  intros [a H]. unfold executeStep.
  erewrite bind_normal by reflexivity.
  erewrite bind_normal by reflexivity.
  erewrite bind_normal by reflexivity.
  change (findAgentInstance sid (agent st) (with_drawn (S (drawn p)) p))
    with (findAgentInstance sid (agent st) p).
  rewrite H. cbv [bind executeAgentAction gets updateSession modify ret].
  eexists _, _. split; [reflexivity|]. split; reflexivity.
Qed.

Lemma executeStep_throws_iff (uuidv4 : nat -> string) (st : Step) (sid : string)
  (p : Protocol) :
  (exists msg, fst (executeStep uuidv4 st sid p) = Throw msg)
  <-> findAgentInstance sid (agent st) p = None.
Proof.
  split.
  - intros [msg H]. destruct (findAgentInstance sid (agent st) p) as [a|] eqn:E;
      [|reflexivity].
    destruct (executeStep_found uuidv4 st sid p) as (se & p' & Hse & _);
      [rewrite E; eexists; reflexivity|].
    rewrite Hse in H. discriminate.
  - intros H. rewrite (executeStep_missing uuidv4 st sid p H). eexists. reflexivity.
Qed.

Lemma executeSteps_abort (uuidv4 : nat -> string) (sid : string) (s : Step)
  (pre : list Step) (e : Execution) (p : Protocol) :
  Forall (fun st => is_Some (findAgentInstance sid (agent st) p)) pre ->
  findAgentInstance sid (agent s) p = None ->
  exists e' p',
    (forall post,
       executeSteps uuidv4 (pre ++ s :: post) sid e p = (Throw (notFound s), e', p'))
    /\ status e' = status e
    /\ exists done,
         ex_steps e' = (ex_steps e ++ done)%list
         /\ map se_action done = map action pre
         /\ Forall (fun se => se_status se = completed) done.
Proof.
  revert e p. induction pre as [|st pre IH]; intros e p Hpre Hs.
  - exists e, (with_drawn (S (drawn p)) p). split.
    + intros post. simpl. rewrite (executeStep_missing uuidv4 s sid p Hs). reflexivity.
    + split; [reflexivity|]. exists []. rewrite app_nil_r.
      split; [reflexivity|]. split; [reflexivity|constructor].
  - inversion Hpre as [|? ? Hst Hrest]; subst.
    destruct (executeStep_found uuidv4 st sid p Hst) as (se & p1 & Hse & Hc & Ha).
    assert (Hk : keeps templates sid p p1).
    { pose proof (preserves_executeStep templates sid templates_history
                    uuidv4 st sid p) as [Hk _].
      rewrite Hse in Hk. exact Hk. }
    assert (Hpre1 : Forall (fun st => is_Some (findAgentInstance sid (agent st) p1)) pre).
    { eapply Forall_impl; [exact Hrest|]. intros x Hx. simpl in Hx.
      destruct (findAgentInstance sid (agent x) p1) eqn:E; [eexists; reflexivity|].
      apply (findAgentInstance_keeps sid (agent x) p p1 Hk) in E.
      rewrite E in Hx. destruct Hx as [? Hx]. discriminate. }
    assert (Hs1 : findAgentInstance sid (agent s) p1 = None).
    { apply (findAgentInstance_keeps sid (agent s) p p1 Hk). exact Hs. }
    destruct (IH (record_step se (result se) e) p1 Hpre1 Hs1)
      as (e' & p' & Hrun & Hstat & done & Hdone & Hact & Hcomp).
    exists e', p'. split.
    + intros post. simpl. rewrite Hse. apply Hrun.
    + split; [exact Hstat|]. exists (se :: done). split.
      * rewrite Hdone. simpl. rewrite <- app_assoc. reflexivity.
      * split; [simpl; rewrite Ha, Hact; reflexivity|].
        constructor; assumption.
Qed.

(** C4, as stated, fails: for the three-step plan of the example, run in a
    session where the second step has no agent instance, the call throws the
    second step's error, the execution record is marked [failed], and it
    holds one step record, not two. *)
Lemma three_step_plan_records_one_step :
  let '(e, c, _) :=
    executePlan_trace Examples.P.uuid Examples.P.plan3 "u" Examples.P.question
      Examples.P.oneSession in
  length (steps Examples.P.plan3) = 3
  /\ c = Throw "Agent analysis_agent not found in session"
  /\ status e = failed
  /\ map se_action (ex_steps e) = ["search_information"]
  /\ length (ex_steps e) <> 2.
Proof. vm_compute. repeat split. discriminate. Qed.

(** C4, amended.  When every step before a step [s] of the plan finds its
    agent instance and [s] does not (the one way a step fails), the call
    throws the error of [s]; the execution record is then marked [failed]
    with that error and holds one completed record for each step before [s]
    and none for [s] (so one record when the second step of three fails);
    the outcome is the same whatever steps follow [s], none of which is
    attempted. *)
Theorem executePlan_aborts_at_first_failure (uuidv4 : nat -> string) (plan : Plan)
  (sid : string) (originalMessage : MCPMessage) (p p1 : Protocol)
  (pre : list Step) (s : Step) :
  ensureAgents uuidv4 (requiredAgents plan) sid p = (Normal tt, p1) ->
  Forall (fun st => is_Some (findAgentInstance sid (agent st) p1)) pre ->
  findAgentInstance sid (agent s) p1 = None ->
  exists e p',
    (forall post,
       executePlan_trace uuidv4 (with_steps (pre ++ s :: post) plan) sid
         originalMessage p
       = (e, Throw ("Agent " ++ agent s ++ " not found in session"), p')
       /\ executePlan uuidv4 (with_steps (pre ++ s :: post) plan) sid
            originalMessage p
          = (Throw ("Agent " ++ agent s ++ " not found in session"), p'))
    /\ status e = failed
    /\ error e = Some ("Agent " ++ agent s ++ " not found in session")
    /\ length (ex_steps e) = length pre
    /\ map se_action (ex_steps e) = map action pre
    /\ Forall (fun se => se_status se = completed) (ex_steps e).
Proof.
  intros Hens Hpre Hs.
  destruct (executeSteps_abort uuidv4 sid s pre
              {| ex_planId := planId plan; ex_sessionId := sid; startTime := now p;
                 ex_steps := []; results := []; status := executing; error := None;
                 ex_endTime := None; duration := None |} p1 Hpre Hs)
    as (e' & p' & Hrun & Hstat & done & Hdone & Hact & Hcomp).
  simpl in Hdone.
  exists (finish failed (Some (notFound s)) (now p') None e'), p'. split.
  - intros post.
    assert (E : executePlan_trace uuidv4 (with_steps (pre ++ s :: post) plan) sid
                  originalMessage p
                = (finish failed (Some (notFound s)) (now p') None e',
                   Throw (notFound s), p')).
    { unfold executePlan_trace. cbn [Spec.with_steps requiredAgents steps planId].
      rewrite Hens, (Hrun post). reflexivity. }
    split; [exact E|]. unfold executePlan. rewrite E. reflexivity.
  - simpl. rewrite Hdone. split; [reflexivity|]. split; [reflexivity|].
    split; [|split; [exact Hact|exact Hcomp]].
    rewrite <- (length_map se_action), Hact, length_map. reflexivity.
Qed.

Lemma executePlan_aborts_at_first_failure_witness :
  exists e p',
    (forall post,
       executePlan_trace Examples.P.uuid
         (with_steps ([Examples.P.firstStep] ++ Examples.P.secondStep :: post)
            Examples.P.plan3)
         "u" Examples.P.question Examples.P.oneSession
       = (e, Throw "Agent analysis_agent not found in session", p'))
    /\ status e = failed
    /\ length (ex_steps e) = 1.
Proof.
  destruct (executePlan_aborts_at_first_failure Examples.P.uuid Examples.P.plan3 "u"
              Examples.P.question Examples.P.oneSession
              (snd (ensureAgents Examples.P.uuid ["research_agent"] "u"
                      Examples.P.oneSession))
              [Examples.P.firstStep] Examples.P.secondStep)
    as (e & p' & Hrun & Hstat & _ & Hlen & _).
  - vm_compute. reflexivity.
  - constructor; [|constructor]. vm_compute. eexists. reflexivity.
  - vm_compute. reflexivity.
  - exists e, p'. split; [|split; [exact Hstat|exact Hlen]].
    intros post. apply (Hrun post).
Defined.

End ProtocolFacts.

(** * Further properties of the JavaScript helpers *)

Module JSFacts.
Import JS.

Lemma Set_add_spec (x : string) (s : list string) :
  Set_add x s = if bool_decide (x ∈ s) then s else (s ++ [x])%list.
Proof.
  unfold Set_add. destruct (existsb (String.eqb x) s) eqn:E.
  - apply existsb_exists in E. destruct E as (y & Hy & E).
    apply String.eqb_eq in E. subst y. apply list_elem_of_In in Hy.
    rewrite bool_decide_eq_true_2; done.
  - rewrite bool_decide_eq_false_2; [done|]. intros Hin.
    assert (existsb (String.eqb x) s = true); [|congruence].
    apply existsb_exists. exists x.
    split; [apply list_elem_of_In, Hin|apply String.eqb_refl].
Qed.

Lemma Set_add_In (x y : string) (s : list string) :
  y ∈ Set_add x s <-> y = x \/ y ∈ s.
Proof.
  rewrite Set_add_spec. case_bool_decide as H.
  - split; [tauto|]. intros [->|Hy]; assumption.
  - rewrite elem_of_app, list_elem_of_singleton. tauto.
Qed.

Lemma Set_add_NoDup (x : string) (s : list string) :
  NoDup s -> NoDup (Set_add x s).
Proof.
  intros Hs. rewrite Set_add_spec. case_bool_decide as H; [exact Hs|].
  apply NoDup_app. split; [exact Hs|]. split.
  - intros y Hy Hx. apply list_elem_of_singleton in Hx. subst y. contradiction.
  - apply NoDup_singleton.
Qed.

Lemma Set_add_prefix (x : string) (s : list string) : s `prefix_of` Set_add x s.
Proof.
  rewrite Set_add_spec. case_bool_decide; [reflexivity|]. apply prefix_app_r.
  reflexivity.
Qed.

Lemma Set_add_length (x : string) (s : list string) :
  length (Set_add x s) <= S (length s).
Proof.
  rewrite Set_add_spec. case_bool_decide; [lia|]. rewrite length_app. simpl. lia.
Qed.

(** The keys of a map after [set] are the keys before with the key added as
    to a set. *)
Lemma Map_set_keys {V} (k : string) (v : V) (m : list (string * V)) :
  map fst (Map_set k v m) = Set_add k (map fst m).
Proof.
  induction m as [|[k' v'] m IH]; [reflexivity|]. simpl.
  unfold Set_add in *. simpl. rewrite (String.eqb_sym k k').
  destruct (String.eqb k' k) eqn:E.
  - apply String.eqb_eq in E. subst k'. reflexivity.
  - simpl. rewrite IH. destruct (existsb (String.eqb k) (map fst m)); reflexivity.
Qed.

Lemma Map_get_set_eq {V} (k : string) (v : V) (m : list (string * V)) :
  Map_get k (Map_set k v m) = Some v.
Proof.
  induction m as [|[k' v'] m IH]; simpl; [rewrite String.eqb_refl; reflexivity|].
  destruct (String.eqb k' k) eqn:E; simpl.
  - rewrite String.eqb_refl. reflexivity.
  - rewrite E. exact IH.
Qed.

Lemma Map_get_set_ne {V} (k k' : string) (v : V) (m : list (string * V)) :
  k' <> k -> Map_get k' (Map_set k v m) = Map_get k' m.
Proof.
  intros Hne. induction m as [|[k0 v0] m IH]; simpl.
  - destruct (String.eqb_spec k k'); [congruence|reflexivity].
  - destruct (String.eqb_spec k0 k) as [->|E]; simpl.
    + destruct (String.eqb_spec k k'); [congruence|reflexivity].
    + destruct (String.eqb_spec k0 k'); [reflexivity|exact IH].
Qed.

Lemma Map_set_In {V} (k : string) (v : V) (m : list (string * V)) (e : string * V) :
  In e (Map_set k v m) -> e = (k, v) \/ In e m.
Proof.
  induction m as [|[k' v'] m IH]; simpl.
  - intros [<-|[]]. left. reflexivity.
  - destruct (String.eqb k' k); simpl.
    + intros [<-|H]; [left; reflexivity|right; right; exact H].
    + intros [<-|H]; [right; left; reflexivity|].
      destruct (IH H) as [->|H']; [left; reflexivity|right; right; exact H'].
Qed.

Lemma Map_set_Forall {V} (P : string * V -> Prop) (k : string) (v : V)
  (m : list (string * V)) :
  Forall P m -> P (k, v) -> Forall P (Map_set k v m).
Proof.
  intros Hm Hkv. apply Forall_forall. intros e He.
  apply list_elem_of_In, Map_set_In in He. destruct He as [->|He]; [exact Hkv|].
  rewrite Forall_forall in Hm. apply Hm, list_elem_of_In, He.
Qed.

Lemma Map_set_has {V} (k : string) (v : V) (m : list (string * V)) :
  In (k, v) (Map_set k v m).
Proof.
  induction m as [|[k' v'] m IH]; simpl; [tauto|].
  destruct (String.eqb k' k); simpl; tauto.
Qed.

(** A new key goes last. *)
Lemma Map_set_new {V} (k : string) (v : V) (m : list (string * V)) :
  ~ In k (map fst m) -> Map_set k v m = (m ++ [(k, v)])%list.
Proof.
  induction m as [|[k' v'] m IH]; simpl; [reflexivity|]. intros Hn.
  destruct (String.eqb_spec k' k) as [->|E]; [tauto|].
  rewrite IH; [reflexivity|tauto].
Qed.

Lemma append_inj_r (a b c : string) : (a ++ b = a ++ c)%string -> b = c.
Proof. induction a as [|x a IH]; simpl; [tauto|]. intros [= H]. auto. Qed.

Lemma str_includes_refl (s : string) : str_includes s s = true.
Proof.
  assert (H : forall t, startsWith t t = true).
  { induction t as [|c t IH]; simpl; [reflexivity|]. rewrite Ascii.eqb_refl. exact IH. }
  destruct s; simpl; [reflexivity|]. rewrite Ascii.eqb_refl, H. reflexivity.
Qed.

Lemma str_includes_append (needle a b : string) :
  str_includes needle b = true -> str_includes needle (a ++ b)%string = true.
Proof.
  intros H. induction a as [|c a IH]; simpl; [exact H|].
  rewrite IH. apply orb_true_r.
Qed.

Lemma startsWith_append (needle b : string) :
  startsWith needle (needle ++ b)%string = true.
Proof.
  induction needle as [|c n IH]; simpl; [reflexivity|].
  rewrite Ascii.eqb_refl. exact IH.
Qed.

Lemma toLowerChar_idempotent (c : ascii) : toLowerChar (toLowerChar c) = toLowerChar c.
Proof. destruct c as [[] [] [] [] [] [] [] []]; reflexivity. Qed.

Lemma toLowerCase_idempotent (s : string) : toLowerCase (toLowerCase s) = toLowerCase s.
Proof.
  induction s as [|c s IH]; simpl; [reflexivity|].
  rewrite toLowerChar_idempotent, IH. reflexivity.
Qed.

Lemma toLowerCase_length (s : string) : String.length (toLowerCase s) = String.length s.
Proof. induction s as [|c s IH]; simpl; [reflexivity|]. rewrite IH. reflexivity. Qed.

End JSFacts.

(** * Further properties of the router *)

Module RouterMore.
Import JS MultiLLMRouter JSFacts.
Import Inv.Router.

(** ** The registry after [initializeModels] *)

Lemma initializeModels_fold (collection : list LLMModel) (r : Router) :
  initializeModels collection r
  = foldl register r (filter (fun m => isActive m = true) collection).
Proof. reflexivity. Qed.

Lemma register_fresh (collection : list LLMModel) (r : Router) (m : LLMModel) :
  freshRegistry collection r -> isActive m = true -> In m collection ->
  freshRegistry collection (register r m).
Proof.
  unfold freshRegistry. intros Hr Ha Hin. simpl. apply Map_set_Forall.
  - eapply Forall_impl; [exact Hr|]. intros [k v] (Hk & Hv & Hc & Hl). simpl in *.
    repeat split; try assumption.
    destruct (decide (name m = k)) as [<-|Hne].
    + apply lookup_insert_eq.
    + rewrite lookup_insert_ne by exact Hne. exact Hl.
  - simpl. repeat split; try assumption. apply lookup_insert_eq.
Qed.

Lemma register_keys_NoDup (r : Router) (m : LLMModel) :
  NoDup (map fst (llmModels r)) -> NoDup (map fst (llmModels (register r m))).
Proof. intros H. simpl. rewrite Map_set_keys. apply Set_add_NoDup, H. Qed.

Lemma registered_fold (collection models : list LLMModel) (r : Router) :
  freshRegistry collection r -> NoDup (map fst (llmModels r)) ->
  Forall (fun m => isActive m = true /\ In m collection) models ->
  freshRegistry collection (foldl register r models)
  /\ NoDup (map fst (llmModels (foldl register r models)))
  /\ (forall k, k ∈ map fst (llmModels r) \/ k ∈ map name models ->
                k ∈ map fst (llmModels (foldl register r models))).
Proof.
  revert r. induction models as [|m models IH]; intros r Hr Hn Hm.
  - simpl. split; [exact Hr|]. split; [exact Hn|].
    intros k [Hk|Hk]; [exact Hk|]. inversion Hk.
  - inversion Hm as [|? ? [Ha Hin] Hrest]; subst. simpl foldl.
    destruct (IH (register r m)) as (H1 & H2 & H3);
      [apply register_fresh; assumption|apply register_keys_NoDup; exact Hn
      |exact Hrest|].
    split; [exact H1|]. split; [exact H2|].
    intros k Hk. apply H3. simpl llmModels. rewrite Map_set_keys, Set_add_In.
    simpl in Hk. rewrite elem_of_cons in Hk. tauto.
Qed.

Lemma registered_values (models : list LLMModel) (r : Router) :
  NoDup (map fst (llmModels r) ++ map name models) ->
  Map_values (llmModels (foldl register r models))
  = (Map_values (llmModels r) ++ models)%list.
Proof.
  revert r. induction models as [|m models IH]; intros r Hn.
  - simpl. rewrite app_nil_r. reflexivity.
  - simpl foldl. simpl map in Hn.
    assert (Hnew : ~ In (name m) (map fst (llmModels r))).
    { apply NoDup_app in Hn. destruct Hn as (_ & Hd & _). intros Hin.
      apply (Hd (name m)); [apply list_elem_of_In, Hin|]. apply elem_of_cons. tauto. }
    rewrite IH.
    + simpl llmModels. rewrite (Map_set_new _ _ _ Hnew).
      unfold Map_values. rewrite map_app. simpl. rewrite <- app_assoc. reflexivity.
    + simpl llmModels. rewrite (Map_set_new _ _ _ Hnew), map_app. simpl.
      rewrite <- app_assoc. exact Hn.
Qed.

Lemma names_of_filter (P : LLMModel -> Prop) `{!forall m, Decision (P m)}
  (l : list LLMModel) :
  NoDup (map name l) -> NoDup (map name (filter P l)).
Proof.
  induction l as [|m l IH]; [intros; constructor|]. simpl. intros Hn.
  apply NoDup_cons in Hn. destruct Hn as [Hm Hl]. rewrite filter_cons.
  destruct (decide (P m)); [|apply IH, Hl].
  simpl. apply NoDup_cons. split; [|apply IH, Hl].
  intros Hin. apply Hm. apply list_elem_of_In, in_map_iff in Hin.
  destruct Hin as (x & Hx & Hin). apply list_elem_of_In, in_map_iff.
  exists x. split; [exact Hx|].
  apply list_elem_of_In, list_elem_of_filter in Hin. apply list_elem_of_In. tauto.
Qed.

(** X1. After [initializeModels] on an empty router, every registry entry
    is an active document of the collection stored under its own name with
    a load counter at zero; the registered names are distinct; the name of
    every active document is registered; and when the names of the
    collection are distinct, the registry holds exactly the active
    documents, in the order of the collection. *)
Theorem initializeModels_registry (collection : list LLMModel) :
  let r := initializeModels collection emptyRouter in
  freshRegistry collection r
  /\ NoDup (map fst (llmModels r))
  /\ (forall m, In m collection -> isActive m = true ->
                In (name m) (map fst (llmModels r)))
  /\ (NoDup (map name collection) ->
      Map_values (llmModels r) = List.filter isActive collection).
Proof.
  intros r. subst r. rewrite initializeModels_fold.
  destruct (registered_fold collection
              (filter (fun m => isActive m = true) collection) emptyRouter)
    as (H1 & H2 & H3).
  { constructor. }
  { constructor. }
  { apply Forall_forall. intros m Hm. apply list_elem_of_filter in Hm.
    split; [tauto|]. apply list_elem_of_In. tauto. }
  split; [exact H1|]. split; [exact H2|]. split.
  - intros m Hin Ha. apply list_elem_of_In, H3. right.
    apply list_elem_of_In, in_map, list_elem_of_In, list_elem_of_filter.
    split; [exact Ha|]. apply list_elem_of_In, Hin.
  - intros Hn. rewrite registered_values.
    + simpl. clear. induction collection as [|m l IH]; [reflexivity|].
      rewrite filter_cons. simpl. destruct (isActive m) eqn:E.
      * rewrite decide_True by reflexivity. rewrite IH. reflexivity.
      * rewrite decide_False by discriminate. exact IH.
    + simpl. apply names_of_filter. exact Hn.
Qed.

Lemma initializeModels_registry_witness :
  Map_values (llmModels Examples.R.registry3)
  = [Examples.R.mkModel "a" "llama" "chat" 4096;
     Examples.R.mkModel "b" "qwen" "reasoning" 4096;
     Examples.R.mkModel "c" "gemini" "reasoning" 4096].
Proof.
  apply (initializeModels_registry
           [Examples.R.mkModel "a" "llama" "chat" 4096;
            Examples.R.mkModel "b" "qwen" "reasoning" 4096;
            Examples.R.mkModel "c" "gemini" "reasoning" 4096]).
  simpl. repeat (apply NoDup_cons_2; [vm_compute; intros H; repeat (apply elem_of_cons in H; destruct H as [H|H]; [discriminate|]); inversion H|]).
  apply NoDup_nil_2.
Defined.

(** ** Routing and the load counters *)

Lemma selected_is_registered (r : Router) (requestType content : string)
  (userProfile : option UserProfile) (context : RequestContext) (m : LLMModel) :
  selectOptimalModel r requestType content userProfile context = Some m ->
  In m (Map_values (llmModels r)).
Proof.
  intros H.
  pose proof (RouterFacts.selection_head r requestType content userProfile context)
    as Hh.
  cbv zeta in Hh. rewrite H in Hh. destruct Hh as (pre & post & Hl & _).
  assert (Hin : In (m, calculateModelScore r m
                        (analyzeRequestCriteria requestType content context)
                        userProfile)
                   (map (fun x => (x, calculateModelScore r x
                                        (analyzeRequestCriteria requestType content
                                           context) userProfile))
                        (Map_values (llmModels r)))).
  { rewrite Hl. apply in_or_app. right. left. reflexivity. }
  apply in_map_iff in Hin. destruct Hin as (x & [= -> _] & Hx). exact Hx.
Qed.

Lemma routeRequest_normal (profiles : list UserProfile) (r r' : Router)
  (requestType content uid : string) (context : RequestContext) (routing : Routing) :
  routeRequest profiles r requestType content uid context = (Normal routing, r') ->
  selectOptimalModel r requestType content (findProfile profiles uid) context
  = Some (model routing)
  /\ llmModels r' = llmModels r
  /\ loadBalancer r'
     = <[name (model routing) :=
           match loadBalancer r !! name (model routing) with
           | Some (Count n) => Count (n + 1)
           | _ => NaN
           end]> (loadBalancer r)
  /\ estimatedLatency routing = averageLatency (performance (model routing))
  /\ routingReason routing = getRoutingReason requestType (model routing).
Proof.
  unfold routeRequest.
  destruct (selectOptimalModel r requestType content (findProfile profiles uid) context)
    as [m|]; [|discriminate].
  intros [= <- <-]. simpl.
  destruct (loadBalancer r !! name m) as [[n|]|]; repeat split; reflexivity.
Qed.

(** X2. A request that is routed returns a model of the registry; the
    registry is left as it is; the counter of the chosen model goes up by
    one and every other counter stays; the estimated latency reported is the
    model's average latency. *)
Theorem routeRequest_counts_the_request (profiles : list UserProfile) (r r' : Router)
  (requestType content uid : string) (context : RequestContext) (routing : Routing) :
  routeRequest profiles r requestType content uid context = (Normal routing, r') ->
  In (model routing) (Map_values (llmModels r))
  /\ llmModels r' = llmModels r
  /\ (forall n, loadBalancer r !! name (model routing) = Some (Count n) ->
                loadBalancer r' !! name (model routing) = Some (Count (n + 1)))
  /\ (forall k, k <> name (model routing) ->
                loadBalancer r' !! k = loadBalancer r !! k)
  /\ estimatedLatency routing = averageLatency (performance (model routing)).
Proof.
  intros H. apply routeRequest_normal in H.
  destruct H as (Hsel & Hm & Hl & He & _).
  split; [eapply selected_is_registered; exact Hsel|].
  split; [exact Hm|]. split; [|split; [|exact He]].
  - intros n Hn. rewrite Hl, Hn. apply lookup_insert_eq.
  - intros k Hk. rewrite Hl. apply lookup_insert_ne. congruence.
Qed.

Lemma routeRequest_counts_the_request_witness :
  exists routing r',
    routeRequest [] Examples.R.registry3 "analysis" Examples.R.plainContent "u1"
      Examples.R.noContext = (Normal routing, r')
    /\ name (model routing) = "b"
    /\ loadBalancer r' !! "b" = Some (Count 1)
    /\ loadBalancer r' !! "a" = Some (Count 0).
Proof.
  eexists _, _. split; [vm_compute; reflexivity|].
  match goal with
  | |- _ /\ loadBalancer ?r' !! _ = _ /\ _ =>
      destruct (routeRequest_counts_the_request [] Examples.R.registry3 r'
                  "analysis" Examples.R.plainContent "u1" Examples.R.noContext
                  _ eq_refl) as (_ & _ & Hup & Hother & _)
  end.
  split; [reflexivity|]. split.
  - apply (Hup 0%Z). vm_compute. reflexivity.
  - rewrite Hother; [vm_compute; reflexivity|discriminate].
Defined.

(** ** Outcome feedback: what is touched *)

Lemma save_names (doc : LLMModel) (c : list LLMModel) :
  map name (save doc c) = map name c.
Proof.
  induction c as [|m c IH]; [reflexivity|]. simpl.
  destruct (String.eqb_spec (name m) (name doc)) as [E|E]; simpl.
  - rewrite E. reflexivity.
  - rewrite IH. reflexivity.
Qed.

Lemma save_other (doc : LLMModel) (c : list LLMModel) (k : string) :
  k <> name doc -> findOne (save doc c) k = findOne c k.
Proof.
  intros Hk. unfold findOne. induction c as [|m c IH]; [reflexivity|]. simpl.
  destruct (String.eqb_spec (name m) (name doc)) as [E|E]; simpl.
  - destruct (String.eqb_spec (name doc) k); [congruence|].
    destruct (String.eqb_spec (name m) k); [congruence|]. reflexivity.
  - destruct (String.eqb (name m) k); [reflexivity|exact IH].
Qed.

(** X4. Recording an outcome for a name that no document has leaves the
    collection as it is.  For a name that has one, the collection keeps its
    length, its names and their order, every lookup of another name gives
    what it gave before, and the document found is the old one with new
    statistics only. *)
Theorem updateModelPerformance_touches_one (collection : list LLMModel)
  (modelName : string) (metrics : Metrics) :
  (findOne collection modelName = None ->
   updateModelPerformance collection modelName metrics = collection)
  /\ map name (updateModelPerformance collection modelName metrics)
     = map name collection
  /\ (forall k, k <> modelName ->
        findOne (updateModelPerformance collection modelName metrics) k
        = findOne collection k)
  /\ (forall m, findOne collection modelName = Some m ->
        exists m',
          findOne (updateModelPerformance collection modelName metrics) modelName
          = Some m'
          /\ name m' = name m /\ type m' = type m
          /\ specialization m' = specialization m
          /\ capabilities m' = capabilities m /\ isActive m' = isActive m).
Proof.
  unfold updateModelPerformance. split; [intros ->; reflexivity|].
  destruct (findOne collection modelName) as [m|] eqn:Hf.
  - pose proof (RouterFacts.findOne_name _ _ _ Hf) as Hn.
    split; [apply save_names|]. split.
    + intros k Hk. apply save_other. simpl. congruence.
    + intros m0 [= <-]. eexists. split; [apply RouterFacts.findOne_save; exact Hf|].
      repeat split; reflexivity.
  - split; [reflexivity|]. split; [reflexivity|]. intros m [=].
Qed.

Lemma updateModelPerformance_touches_one_witness :
  updateModelPerformance [Examples.R.small] "large"
    {| latency := 10; success := true; userRating := None |}
  = [Examples.R.small].
Proof.
  apply (updateModelPerformance_touches_one [Examples.R.small] "large").
  reflexivity.
Defined.

(** ** Outcome feedback: the ranges of the statistics *)








End RouterMore.

(** * Further properties of the agent protocol *)

Module ProtocolMore.
Import JS MCPProtocol JSFacts ProtocolFacts.
Import Spec (keeps, preserves, closed, inactive, templates).
Import Inv.Protocol.

(** ** The four outcomes of [spawnAgent] *)

Lemma spawnAgent_no_session (uuidv4 : nat -> string) (p : Protocol)
  (sid aid : string) (agentConfig : Config) :
  inactive sid p ->
  spawnAgent uuidv4 sid aid agentConfig p = (Throw sessionError, p).
Proof. apply inactive_rejects_spawnAgent. Qed.

Lemma spawnAgent_no_template (uuidv4 : nat -> string) (p : Protocol)
  (sid aid : string) (agentConfig : Config) (s : Session) :
  sessions p !! sid = Some s -> isActive s = true -> agents p !! aid = None ->
  spawnAgent uuidv4 sid aid agentConfig p = (Throw (templateError aid), p).
Proof.
  intros Hs Ha Hd. unfold spawnAgent, bind.
  rewrite (activeSession_ok p sid s Hs Ha). unfold gets. rewrite Hd. reflexivity.
Qed.

Lemma spawnAgent_full (uuidv4 : nat -> string) (p : Protocol)
  (sid aid : string) (agentConfig : Config) (s : Session) (d : AgentDefinition) :
  sessions p !! sid = Some s -> isActive s = true -> agents p !! aid = Some d ->
  (maxAgents (config s) <= Z.of_nat (length (activeAgents s)))%Z ->
  spawnAgent uuidv4 sid aid agentConfig p = (Throw capacityError, p).
Proof.
  intros Hs Ha Hd Hcap. unfold spawnAgent, bind.
  rewrite (activeSession_ok p sid s Hs Ha). unfold gets. rewrite Hd.
  apply Z.leb_le in Hcap. rewrite Hcap. reflexivity.
Qed.

Lemma spawnAgent_room (uuidv4 : nat -> string) (p : Protocol)
  (sid aid : string) (agentConfig : Config) (s : Session) (d : AgentDefinition) :
  sessions p !! sid = Some s -> isActive s = true -> agents p !! aid = Some d ->
  (Z.of_nat (length (activeAgents s)) < maxAgents (config s))%Z ->
  spawnAgent uuidv4 sid aid agentConfig p
  = (Normal (newInstanceId uuidv4 p aid), afterSpawn uuidv4 p sid aid agentConfig d).
Proof.
  intros Hs Ha Hd Hcap. unfold spawnAgent, bind.
  rewrite (activeSession_ok p sid s Hs Ha). unfold gets. rewrite Hd.
  apply Z.leb_gt in Hcap. rewrite Hcap.
  unfold afterSpawn, addAgent, updateSession, modify, draw, ret, emit, with_sessions.
  simpl. rewrite alter_alter_eq. reflexivity.
Qed.

Lemma inactive_dec (sid : string) (p : Protocol) :
  inactive sid p
  \/ exists s, sessions p !! sid = Some s /\ isActive s = true.
Proof.
  unfold inactive. destruct (sessions p !! sid) as [s|] eqn:Hs; simpl.
  - destruct (isActive s) eqn:Ha; [right; exists s; split; [reflexivity|exact Ha]|left; discriminate].
  - left. discriminate.
Qed.

Lemma active_not_inactive (sid : string) (p : Protocol) (s : Session) :
  sessions p !! sid = Some s -> isActive s = true -> ~ inactive sid p.
Proof. unfold inactive. intros Hs Ha H. apply H. rewrite Hs. simpl. congruence. Qed.

(** X7. A [spawnAgent] that throws leaves the protocol state as it was, and
    its error is decided in this order: the session error when the id has no
    active session; else the template error when the template is not
    registered; else the capacity error, the session then holding at least
    [maxAgents] agents. *)
Theorem spawnAgent_failure_changes_nothing (uuidv4 : nat -> string) (p p' : Protocol)
  (sid aid : string) (agentConfig : Config) (e : string) :
  spawnAgent uuidv4 sid aid agentConfig p = (Throw e, p') ->
  p' = p
  /\ ((inactive sid p /\ e = sessionError)
      \/ (~ inactive sid p /\ agents p !! aid = None /\ e = templateError aid)
      \/ (~ inactive sid p /\ is_Some (agents p !! aid) /\ e = capacityError
          /\ exists s, sessions p !! sid = Some s
                       /\ (maxAgents (config s)
                           <= Z.of_nat (length (activeAgents s)))%Z)).
Proof.
  intros H. destruct (inactive_dec sid p) as [Hin|(s & Hs & Ha)].
  - rewrite (spawnAgent_no_session uuidv4 p sid aid agentConfig Hin) in H.
    injection H as <- <-. split; [reflexivity|]. left. split; [exact Hin|reflexivity].
  - pose proof (active_not_inactive sid p s Hs Ha) as Hact.
    destruct (agents p !! aid) as [d|] eqn:Hd.
    + destruct (Z_lt_le_dec (Z.of_nat (length (activeAgents s))) (maxAgents (config s)))
        as [Hroom|Hfull].
      * rewrite (spawnAgent_room uuidv4 p sid aid agentConfig s d Hs Ha Hd Hroom) in H.
        discriminate.
      * rewrite (spawnAgent_full uuidv4 p sid aid agentConfig s d Hs Ha Hd Hfull) in H.
        injection H as <- <-. split; [reflexivity|]. right. right.
        split; [exact Hact|]. split; [eexists; reflexivity|].
        split; [reflexivity|]. exists s. split; assumption.
    + rewrite (spawnAgent_no_template uuidv4 p sid aid agentConfig s Hs Ha Hd) in H.
      injection H as <- <-. split; [reflexivity|]. right. left.
      split; [exact Hact|]. split; reflexivity.
Qed.

(** In a full session, an unknown template is reported before the limit. *)
Lemma spawnAgent_failure_changes_nothing_witness :
  spawnAgent Examples.P.uuid "u" "ghost" [] Examples.P.fiveAgents
  = (Throw "Agent ghost not found", Examples.P.fiveAgents).
Proof.
  destruct (spawnAgent Examples.P.uuid "u" "ghost" [] Examples.P.fiveAgents)
    as [[id|e] p'] eqn:E; [vm_compute in E; discriminate|].
  destruct (spawnAgent_failure_changes_nothing Examples.P.uuid
              Examples.P.fiveAgents p' "u" "ghost" [] e E) as [-> _].
  apply (f_equal fst) in E. vm_compute in E. injection E as <-. reflexivity.
Defined.

Lemma spawnAgent_failure_state (uuidv4 : nat -> string) (p p' : Protocol)
  (sid aid : string) (agentConfig : Config) (e : string) :
  spawnAgent uuidv4 sid aid agentConfig p = (Throw e, p') -> p' = p.
Proof.
  intros H. destruct (inactive_dec sid p) as [Hin|(s & Hs & Ha)].
  - rewrite (spawnAgent_no_session uuidv4 p sid aid agentConfig Hin) in H.
    congruence.
  - destruct (agents p !! aid) as [d|] eqn:Hd.
    + destruct (Z_lt_le_dec (Z.of_nat (length (activeAgents s))) (maxAgents (config s)))
        as [Hroom|Hfull].
      * rewrite (spawnAgent_room uuidv4 p sid aid agentConfig s d Hs Ha Hd Hroom) in H.
        discriminate.
      * rewrite (spawnAgent_full uuidv4 p sid aid agentConfig s d Hs Ha Hd Hfull) in H.
        congruence.
    + rewrite (spawnAgent_no_template uuidv4 p sid aid agentConfig s Hs Ha Hd) in H.
      congruence.
Qed.

Lemma find_exists {A} (f : A -> bool) (l : list A) (x : A) :
  In x l -> f x = true -> exists y, List.find f l = Some y /\ f y = true.
Proof.
  intros Hin Hx. destruct (List.find f l) as [y|] eqn:E.
  - exists y. split; [reflexivity|]. apply find_some in E. tauto.
  - pose proof (find_none f l E x Hin). congruence.
Qed.

Lemma afterSpawn_session (uuidv4 : nat -> string) (p : Protocol) (sid aid : string)
  (agentConfig : Config) (d : AgentDefinition) (s : Session) :
  sessions p !! sid = Some s ->
  sessions (afterSpawn uuidv4 p sid aid agentConfig d) !! sid
  = Some (addAgent (newInstanceId uuidv4 p aid)
            (newInstance uuidv4 p sid aid agentConfig d) s).
Proof. intros Hs. simpl. rewrite lookup_alter_eq, Hs. reflexivity. Qed.

(** X8. In an active session below its limit, [spawnAgent] with a
    registered template returns the template id joined to a fresh
    identifier; afterwards the session lists the new id (added as to a set,
    at the end), the plan executor's check and the step's lookup both find
    an instance of the template, the session's messages, limits and activity
    flag are as before, every other session, the registries and the context
    map are untouched, and one [agentSpawned] event has been emitted. *)
Theorem spawnAgent_adds_instance (uuidv4 : nat -> string) (p : Protocol)
  (sid aid : string) (agentConfig : Config) (s : Session) (d : AgentDefinition) :
  sessions p !! sid = Some s -> isActive s = true -> agents p !! aid = Some d ->
  (Z.of_nat (length (activeAgents s)) < maxAgents (config s))%Z ->
  let id := (aid ++ "_" ++ uuidv4 (drawn p))%string in
  let r := spawnAgent uuidv4 sid aid agentConfig p in
  fst r = Normal id
  /\ (exists s',
        sessions (snd r) !! sid = Some s'
        /\ activeAgents s' = Set_add id (activeAgents s)
        /\ Map_get id (agentContexts (context s'))
           = Some (newInstance uuidv4 p sid aid agentConfig d)
        /\ messageHistory s' = messageHistory s
        /\ config s' = config s
        /\ isActive s' = true)
  /\ hasAgentInstance sid aid (snd r) = true
  /\ (exists a, findAgentInstance sid aid (snd r) = Some a /\ agentId a = aid)
  /\ (forall k, k <> sid -> sessions (snd r) !! k = sessions p !! k)
  /\ agents (snd r) = agents p
  /\ contexts (snd r) = contexts p
  /\ events (snd r) = (events p ++ [agentSpawned sid id aid])%list
  /\ drawn (snd r) = S (drawn p).
Proof.
  intros Hs Ha Hd Hroom id r. subst r.
  rewrite (spawnAgent_room uuidv4 p sid aid agentConfig s d Hs Ha Hd Hroom).
  pose proof (afterSpawn_session uuidv4 p sid aid agentConfig d s Hs) as Hs'.
  cbn [fst snd]. split; [reflexivity|]. split; [|split; [|split]].
  - eexists. split; [exact Hs'|]. simpl. split; [reflexivity|].
    split; [apply Map_get_set_eq|]. repeat split; try reflexivity. exact Ha.
  - unfold hasAgentInstance. rewrite Hs'. apply existsb_exists.
    exists id. split.
    + simpl. apply list_elem_of_In, Set_add_In. left. reflexivity.
    + simpl. unfold id, newInstanceId. rewrite Map_get_set_eq. simpl.
      apply String.eqb_refl.
  - unfold findAgentInstance. rewrite Hs'.
    destruct (find_exists (fun a => String.eqb (agentId a) aid)
                (Map_values (agentContexts (context
                   (addAgent (newInstanceId uuidv4 p aid)
                      (newInstance uuidv4 p sid aid agentConfig d) s))))
                (newInstance uuidv4 p sid aid agentConfig d))
      as (y & Hy & Hid).
    + unfold Map_values. simpl.
      apply (in_map snd _ (newInstanceId uuidv4 p aid,
                           newInstance uuidv4 p sid aid agentConfig d)).
      apply Map_set_has.
    + simpl. apply String.eqb_refl.
    + exists y. split; [exact Hy|]. apply String.eqb_eq. exact Hid.
  - split; [|repeat split; reflexivity].
    intros k Hk. simpl. apply lookup_alter_ne. congruence.
Qed.

Lemma spawnAgent_adds_instance_witness :
  fst (spawnAgent Examples.P.uuid "u" "creative_agent" [] Examples.P.oneAgent)
  = Normal "creative_agent_uxx"
  /\ hasAgentInstance "u" "creative_agent"
       (snd (spawnAgent Examples.P.uuid "u" "creative_agent" [] Examples.P.oneAgent))
     = true.
Proof.
  assert (Hs : exists s d,
             sessions Examples.P.oneAgent !! "u" = Some s
             /\ agents Examples.P.oneAgent !! "creative_agent" = Some d
             /\ isActive s = true
             /\ maxAgents (config s) = 5%Z
             /\ length (activeAgents s) = 1).
  { eexists _, _. split; [vm_compute; reflexivity|].
    split; [vm_compute; reflexivity|]. repeat split. }
  destruct Hs as (s & d & Hs & Hd & Ha & Hmax & Hlen).
  destruct (spawnAgent_adds_instance Examples.P.uuid Examples.P.oneAgent "u"
              "creative_agent" [] s d Hs Ha Hd) as (Hid & _ & Hhas & _).
  - rewrite Hmax, Hlen. reflexivity.
  - split; [exact Hid|exact Hhas].
Defined.

(** ** Transition relations kept by every call

    A reflexive and transitive relation between protocol states that holds
    across each elementary change of state holds across every method, and
    so across every sequence of calls. *)

Section Transitions.
Context (uuidv4 : nat -> string) (T : Protocol -> Protocol -> Prop).
Hypothesis T_refl : forall p, T p p.
Hypothesis T_trans : forall p1 p2 p3, T p1 p2 -> T p2 p3 -> T p1 p3.

Lemma respects_ret {A} (a : A) : respects T (ret a).
Proof. intros p. apply T_refl. Qed.

Lemma respects_throw {A} (e : string) : respects T (@throw A e).
Proof. intros p. apply T_refl. Qed.

Lemma respects_gets {A} (g : Protocol -> A) : respects T (gets g).
Proof. intros p. apply T_refl. Qed.

Lemma respects_bind {A B} (c : M A) (k : A -> M B) :
  respects T c -> (forall a, respects T (k a)) -> respects T (bind c k).
Proof.
  intros Hc Hk p. unfold bind. specialize (Hc p).
  destruct (c p) as [[a|e] p1]; simpl in Hc; [|exact Hc].
  eapply T_trans; [exact Hc|apply Hk].
Qed.

Lemma respects_modify (g : Protocol -> Protocol) :
  (forall p, T p (g p)) -> respects T (modify g).
Proof. intros Hg p. apply Hg. Qed.

Lemma respects_activeSession (sid : string) : respects T (activeSession sid).
Proof.
  unfold activeSession. apply respects_bind; [apply respects_gets|].
  intros [s|]; [destruct (isActive s)|];
    first [apply respects_ret | apply respects_throw].
Qed.

Hypothesis T_draw : forall p, T p (with_drawn (S (drawn p)) p).
Hypothesis T_emit : forall e p, T p (emit e p).
Hypothesis T_spawn : forall p sid aid agentConfig s d,
  sessions p !! sid = Some s -> isActive s = true -> agents p !! aid = Some d ->
  (Z.of_nat (length (activeAgents s)) < maxAgents (config s))%Z ->
  T p (afterSpawn uuidv4 p sid aid agentConfig d).
Hypothesis T_history : forall sid aid r p,
  T p (with_sessions
         (alter (with_context (with_agentContexts (alterFound aid (push_history r))))
            sid) p).
Hypothesis T_activity : forall sid t p,
  T p (with_sessions (alter (with_lastActivity t) sid) p).
Hypothesis T_message : forall sid m p,
  T p (with_sessions (alter (push_message m) sid) p).

Lemma respects_property {A} (property_name : string) (o : Nullable A) :
  respects T (property property_name o).
Proof. destruct o; [apply respects_throw|apply respects_ret]. Qed.

Lemma respects_draw : respects T (draw uuidv4).
Proof. intros p. apply T_draw. Qed.

Lemma respects_spawnAgent (sid aid : string) (agentConfig : Config) :
  respects T (spawnAgent uuidv4 sid aid agentConfig).
Proof.
  intros p. destruct (inactive_dec sid p) as [Hin|(s & Hs & Ha)].
  - rewrite (spawnAgent_no_session uuidv4 p sid aid agentConfig Hin). apply T_refl.
  - destruct (agents p !! aid) as [d|] eqn:Hd.
    + destruct (Z_lt_le_dec (Z.of_nat (length (activeAgents s))) (maxAgents (config s)))
        as [Hroom|Hfull].
      * rewrite (spawnAgent_room uuidv4 p sid aid agentConfig s d Hs Ha Hd Hroom).
        apply (T_spawn p sid aid agentConfig s d Hs Ha Hd Hroom).
      * rewrite (spawnAgent_full uuidv4 p sid aid agentConfig s d Hs Ha Hd Hfull).
        apply T_refl.
    + rewrite (spawnAgent_no_template uuidv4 p sid aid agentConfig s Hs Ha Hd).
      apply T_refl.
Qed.

Lemma respects_executeAgentAction (a : AgentInstance) (act : string)
  (tls : list string) (sid : string) :
  respects T (executeAgentAction a act tls sid).
Proof.
  unfold executeAgentAction. apply respects_bind; [apply respects_gets|].
  intros t. apply respects_bind; [|intros _; apply respects_ret].
  apply respects_modify. intros p. apply T_history.
Qed.

Lemma respects_executeStep (st : Step) (sid : string) :
  respects T (executeStep uuidv4 st sid).
Proof.
  unfold executeStep. apply respects_bind; [apply respects_draw|]. intros u.
  apply respects_bind; [apply respects_gets|]. intros t.
  apply respects_bind; [apply respects_gets|].
  intros [a|]; [|apply respects_throw].
  apply respects_bind; [apply respects_executeAgentAction|]. intros r.
  apply respects_bind; [apply respects_gets|]. intros t'. apply respects_ret.
Qed.

Lemma respects_ensureAgents (required : list string) (sid : string) :
  respects T (ensureAgents uuidv4 required sid).
Proof.
  induction required as [|aid rest IH]; simpl; [apply respects_ret|].
  apply respects_bind; [apply respects_gets|]. intros present.
  apply respects_bind; [|intros _; exact IH].
  destruct present; [apply respects_ret|].
  apply respects_bind; [apply respects_spawnAgent|]. intros _. apply respects_ret.
Qed.

Lemma executeSteps_respects (sts : list Step) (sid : string) (e : Execution)
  (p : Protocol) :
  T p (snd (executeSteps uuidv4 sts sid e p)).
Proof.
  revert e p. induction sts as [|st rest IH]; intros e p; simpl; [apply T_refl|].
  pose proof (respects_executeStep st sid p) as H.
  destruct (executeStep uuidv4 st sid p) as [[se|msg] p1]; simpl in H; [|exact H].
  eapply T_trans; [exact H|apply IH].
Qed.

Lemma executePlan_trace_respects (plan : Plan) (sid : string)
  (originalMessage : MCPMessage) (p : Protocol) :
  T p (snd (executePlan_trace uuidv4 plan sid originalMessage p)).
Proof.
  unfold executePlan_trace.
  pose proof (respects_ensureAgents (requiredAgents plan) sid p) as H.
  destruct (ensureAgents uuidv4 (requiredAgents plan) sid p) as [[[]|msg] p1];
    simpl in H; [|exact H].
  match goal with
  | |- context [executeSteps uuidv4 ?sts sid ?e0 p1] =>
      pose proof (executeSteps_respects sts sid e0 p1) as H';
      destruct (executeSteps uuidv4 sts sid e0 p1) as [[[[]|msg] e1] p2]
  end; simpl in H' |- *; eapply T_trans; eassumption.
Qed.

Lemma respects_executePlan (plan : Plan) (sid : string) (originalMessage : MCPMessage) :
  respects T (executePlan uuidv4 plan sid originalMessage).
Proof.
  intros p. unfold executePlan.
  pose proof (executePlan_trace_respects plan sid originalMessage p) as H.
  destruct (executePlan_trace uuidv4 plan sid originalMessage p) as [[e c] p'].
  exact H.
Qed.

Lemma respects_processMessage (sid message : string)
  (options : Nullable MessageOptions) :
  respects T (processMessage uuidv4 sid message options).
Proof.
  unfold processMessage. apply respects_bind; [apply respects_activeSession|].
  intros session. apply respects_bind; [apply respects_gets|]. intros t.
  apply respects_bind; [apply respects_modify; intros p; apply T_activity|]. intros _.
  apply respects_bind; [apply respects_draw|]. intros u.
  apply respects_bind; [apply respects_property|]. intros o.
  apply respects_bind; [apply respects_modify; intros p; apply T_message|]. intros _.
  apply respects_bind.
  { unfold createRoutingPlan. apply respects_bind; [apply respects_draw|].
    intros id. destruct (routingTable _) as [[ags tls] sts]. apply respects_ret. }
  intros plan. apply respects_bind; [apply respects_executePlan|]. intros r.
  apply respects_bind; [apply respects_modify; intros p; apply T_emit|].
  intros _. apply respects_ret.
Qed.

Hypothesis T_create : forall uid sessionConfig p,
  T p (snd (createSession uuidv4 uid (Obj sessionConfig) p)).
Hypothesis T_close : forall sid p, T p (snd (closeSession sid p)).
Hypothesis T_tick : forall dt p, T p (tick dt p).

Lemma step_respects (o : Op) (p : Protocol) : T p (step uuidv4 o p).
Proof.
  destruct o as [uid [|sessionConfig]| | | |]; cbn [step].
  - apply T_draw.
  - apply T_create.
  - apply respects_spawnAgent.
  - apply respects_processMessage.
  - apply T_close.
  - apply T_tick.
Qed.

Lemma run_respects (ops : list Op) (p : Protocol) : T p (run uuidv4 ops p).
Proof.
  revert p. induction ops as [|o ops IH]; intros p; [apply T_refl|].
  simpl. eapply T_trans; [apply step_respects|apply IH].
Qed.

End Transitions.

(** ** The registries, the identifiers and the event log *)

Lemma closeSession_cases (sid : string) (p : Protocol) :
  snd (closeSession sid p) = p
  \/ exists s,
       sessions p !! sid = Some s
       /\ snd (closeSession sid p)
          = emit (sessionClosed sid)
              (with_contexts (delete sid)
                 (with_sessions (alter (deactivate (now p)) sid) p)).
Proof.
  destruct (sessions p !! sid) as [s|] eqn:Hs.
  - right. exists s. split; [reflexivity|].
    rewrite (closeSession_existing p sid s Hs). reflexivity.
  - left. rewrite (closeSession_missing p sid Hs). reflexivity.
Qed.

Lemma registriesKept_refl (p : Protocol) : registriesKept p p.
Proof. unfold registriesKept. split_and!; first [reflexivity | lia]. Qed.

Lemma registriesKept_trans (p1 p2 p3 : Protocol) :
  registriesKept p1 p2 -> registriesKept p2 p3 -> registriesKept p1 p3.
Proof.
  intros (A1 & B1 & C1 & D1) (A2 & B2 & C2 & D2).
  unfold registriesKept. split_and!; [congruence|congruence|lia|etrans; eassumption].
Qed.

Lemma run_registriesKept (uuidv4 : nat -> string) (ops : list Op) (p : Protocol) :
  registriesKept p (run uuidv4 ops p).
Proof.
  apply (run_respects uuidv4 registriesKept registriesKept_refl registriesKept_trans).
  - intros q. unfold registriesKept; split_and!; simpl; first [reflexivity | lia].
  - intros e q. unfold registriesKept; split_and!; simpl; try reflexivity; try lia.
    apply prefix_app_r. reflexivity.
  - intros q sid aid cfg s d _ _ _ _. unfold registriesKept; split_and!; simpl; try reflexivity; try lia.
    apply prefix_app_r. reflexivity.
  - intros sid aid r q. unfold registriesKept; split_and!; simpl; first [reflexivity | lia].
  - intros sid t q. unfold registriesKept; split_and!; simpl; first [reflexivity | lia].
  - intros sid m q. unfold registriesKept; split_and!; simpl; first [reflexivity | lia].
  - intros uid cfg q. unfold registriesKept; split_and!; simpl; try reflexivity; try lia.
    apply prefix_app_r. reflexivity.
  - intros sid q. destruct (closeSession_cases sid q) as [->|(s & _ & ->)];
      [apply registriesKept_refl|].
    unfold registriesKept; split_and!; simpl; try reflexivity. apply prefix_app_r. reflexivity.
  - intros dt q. unfold registriesKept; split_and!; simpl; first [reflexivity | lia].
Qed.

(** X9. No sequence of calls on sessions (creating, spawning, processing,
    closing, time passing) changes the agent or the tool registry; over such
    a sequence identifiers are only drawn forward and the event log is only
    appended to. *)
Theorem calls_keep_registries (uuidv4 : nat -> string) (ops : list Op) (p : Protocol) :
  agents (run uuidv4 ops p) = agents p
  /\ tools (run uuidv4 ops p) = tools p
  /\ drawn p <= drawn (run uuidv4 ops p)
  /\ events p `prefix_of` events (run uuidv4 ops p).
Proof. apply run_registriesKept. Qed.

(** ** Properties of every session kept by every call *)

Lemma sessionsAll_same (P : Session -> Prop) (p p' : Protocol) :
  sessions p' = sessions p -> sessionsAll P p -> sessionsAll P p'.
Proof. unfold sessionsAll. intros ->. tauto. Qed.

Lemma sessionsAll_alter (P : Session -> Prop) (g : Session -> Session) (sid : string)
  (p p' : Protocol) :
  sessions p' = alter g sid (sessions p) ->
  (forall s, sessions p !! sid = Some s -> P s -> P (g s)) ->
  sessionsAll P p -> sessionsAll P p'.
Proof.
  intros Hs Hg Hp k s' Hk. rewrite Hs in Hk.
  destruct (decide (sid = k)) as [->|Hne].
  - rewrite lookup_alter_eq in Hk. apply fmap_Some in Hk.
    destruct Hk as (s & Hk & ->). apply (Hg s Hk), (Hp k s Hk).
  - rewrite lookup_alter_ne in Hk by exact Hne. apply (Hp k s' Hk).
Qed.

Lemma sessionsAll_insert (P : Session -> Prop) (s : Session) (sid : string)
  (p p' : Protocol) :
  sessions p' = <[sid := s]> (sessions p) -> P s ->
  sessionsAll P p -> sessionsAll P p'.
Proof.
  intros Hs Hnew Hp k s' Hk. rewrite Hs in Hk.
  destruct (decide (sid = k)) as [->|Hne].
  - rewrite lookup_insert_eq in Hk. injection Hk as <-. exact Hnew.
  - rewrite lookup_insert_ne in Hk by exact Hne. apply (Hp k s' Hk).
Qed.

Section SessionInvariant.
Context (uuidv4 : nat -> string) (P : Session -> Prop).
Hypothesis P_fresh : forall s,
  activeAgents s = [] -> agentContexts (context s) = [] -> P s.
Hypothesis P_spawn : forall s q sid aid agentConfig d,
  P s -> (Z.of_nat (length (activeAgents s)) < maxAgents (config s))%Z ->
  P (addAgent (newInstanceId uuidv4 q aid)
       (newInstance uuidv4 q sid aid agentConfig d) s).
Hypothesis P_history : forall aid r s,
  P s -> P (with_context (with_agentContexts (alterFound aid (push_history r))) s).
Hypothesis P_activity : forall t s, P s -> P (with_lastActivity t s).
Hypothesis P_message : forall m s, P s -> P (push_message m s).
Hypothesis P_deactivate : forall t s, P s -> P (deactivate t s).

Lemma run_maintains (ops : list Op) (p : Protocol) :
  sessionsAll P p -> sessionsAll P (run uuidv4 ops p).
Proof.
  apply (run_respects uuidv4 (fun q q' => sessionsAll P q -> sessionsAll P q')).
  - tauto.
  - intros p1 p2 p3 H1 H2 H. apply H2, H1, H.
  - intros q. apply sessionsAll_same. reflexivity.
  - intros e q. apply sessionsAll_same. reflexivity.
  - intros q sid aid cfg s d Hs Ha Hd Hroom.
    eapply (sessionsAll_alter P); [simpl; reflexivity|].
    intros s0 Hs0 HP. rewrite Hs in Hs0. injection Hs0 as <-.
    apply P_spawn; [exact HP|exact Hroom].
  - intros sid aid r q. eapply (sessionsAll_alter P); [simpl; reflexivity|].
    intros s _. apply P_history.
  - intros sid t q. eapply (sessionsAll_alter P); [simpl; reflexivity|].
    intros s _. apply P_activity.
  - intros sid m q. eapply (sessionsAll_alter P); [simpl; reflexivity|].
    intros s _. apply P_message.
  - intros uid cfg q. eapply (sessionsAll_insert P);
      [simpl; reflexivity|]. apply P_fresh; reflexivity.
  - intros sid q. destruct (closeSession_cases sid q) as [->|(s & _ & ->)]; [tauto|].
    eapply (sessionsAll_alter P); [simpl; reflexivity|].
    intros s0 _. apply P_deactivate.
  - intros dt q. apply sessionsAll_same. reflexivity.
Qed.

End SessionInvariant.

Lemma alterFound_keys (aid : string) (f : AgentInstance -> AgentInstance)
  (m : list (string * AgentInstance)) :
  map fst (alterFound aid f m) = map fst m.
Proof.
  induction m as [|[k a] m IH]; [reflexivity|]. simpl.
  destruct (String.eqb (agentId a) aid); simpl; [reflexivity|].
  f_equal. exact IH.
Qed.

Lemma alterFound_Forall (Q : string * AgentInstance -> Prop) (aid : string)
  (f : AgentInstance -> AgentInstance) (m : list (string * AgentInstance)) :
  (forall k a, Q (k, a) -> Q (k, f a)) ->
  Forall Q m -> Forall Q (alterFound aid f m).
Proof.
  intros Hf. induction m as [|[k a] m IH]; [constructor|]. simpl.
  intros Hm. apply Forall_cons in Hm. destruct Hm as [Hka Hm].
  destruct (String.eqb (agentId a) aid); constructor; auto.
Qed.

Lemma agentsInSync_run (uuidv4 : nat -> string) (ops : list Op) (p : Protocol) :
  sessionsAll agentsInSync p -> sessionsAll agentsInSync (run uuidv4 ops p).
Proof.
  apply run_maintains; unfold agentsInSync.
  - intros s Ha Hc. rewrite Ha, Hc. split_and!; constructor.
  - intros s q sid aid cfg d (Hk & Hn & Hi) _. simpl. split_and!.
    + rewrite Map_set_keys, Hk. reflexivity.
    + apply Set_add_NoDup, Hn.
    + apply Map_set_Forall; [exact Hi|reflexivity].
  - intros aid r s (Hk & Hn & Hi). simpl. split_and!.
    + rewrite alterFound_keys. exact Hk.
    + exact Hn.
    + apply alterFound_Forall; [|exact Hi]. intros k a H. exact H.
  - intros t s H. exact H.
  - intros m s H. exact H.
  - intros t s H. exact H.
Qed.


Lemma newProtocol_no_sessions (t0 : Z) : sessions (newProtocol t0) = ∅.
Proof. reflexivity. Qed.

Lemma sessionsAll_new (P : Session -> Prop) (t0 : Z) : sessionsAll P (newProtocol t0).
Proof.
  intros sid s H. rewrite newProtocol_no_sessions, lookup_empty in H. discriminate.
Qed.

Lemma Map_get_In {V} (k : string) (v : V) (m : list (string * V)) :
  Map_get k m = Some v -> In (k, v) m.
Proof.
  induction m as [|[k' v'] m IH]; simpl; [discriminate|].
  destruct (String.eqb_spec k' k) as [->|E].
  - intros [= ->]. left. reflexivity.
  - intros H. right. apply IH, H.
Qed.

Lemma In_Map_get {V} (k : string) (v : V) (m : list (string * V)) :
  NoDup (map fst m) -> In (k, v) m -> Map_get k m = Some v.
Proof.
  induction m as [|[k' v'] m IH]; simpl; [tauto|].
  intros Hn. apply NoDup_cons in Hn. destruct Hn as [Hk Hn].
  intros [[= -> ->]|Hin].
  - rewrite String.eqb_refl. reflexivity.
  - destruct (String.eqb_spec k' k) as [->|E]; [|apply IH; assumption].
    contradiction Hk. apply list_elem_of_In.
    apply (in_map fst _ (k, v)). exact Hin.
Qed.

(** In a session whose agent set and agent map agree, the check made
    before spawning and the lookup made by a step agree. *)
Lemma check_agrees_with_lookup (sid aid : string) (p : Protocol) (s : Session) :
  sessions p !! sid = Some s -> agentsInSync s ->
  (hasAgentInstance sid aid p = true <-> is_Some (findAgentInstance sid aid p)).
Proof.
  intros Hs (Hk & Hn & _). unfold hasAgentInstance, findAgentInstance.
  rewrite Hs. rewrite existsb_exists. split.
  - intros (i & Hi & Hm).
    destruct (Map_get i (agentContexts (context s))) as [a|] eqn:E; [|discriminate].
    apply Map_get_In in E.
    destruct (find_exists (fun x => String.eqb (agentId x) aid)
                (Map_values (agentContexts (context s))) a) as (y & Hy & _).
    + apply (in_map snd _ (i, a)). exact E.
    + exact Hm.
    + rewrite Hy. eexists. reflexivity.
  - intros [a Ha]. apply find_some in Ha. destruct Ha as [Hin Haid].
    unfold Map_values in Hin. apply in_map_iff in Hin.
    destruct Hin as ([k a'] & Hsnd & Hin). simpl in Hsnd. subst a'.
    exists k. split.
    + rewrite <- Hk. apply (in_map fst _ (k, a)). exact Hin.
    + rewrite (In_Map_get k a); [exact Haid| |exact Hin]. rewrite Hk. exact Hn.
Qed.

(** X10. In every state reached by calls from a state whose sessions have
    matching agent sets and agent maps (such as a protocol without
    sessions), every session lists exactly the ids of its agent map, in the
    same order and without repetition, each instance is stored under its own
    id, and a template passes the check made before spawning exactly when a
    step can find an instance of it. *)
Theorem agent_set_matches_agent_map (uuidv4 : nat -> string) (ops : list Op)
  (p : Protocol) (sid : string) (s : Session) :
  sessionsAll agentsInSync p ->
  sessions (run uuidv4 ops p) !! sid = Some s ->
  info_activeAgents <$> getSessionInfo sid (run uuidv4 ops p)
  = Some (map fst (agentContexts (context s)))
  /\ NoDup (activeAgents s)
  /\ Forall (fun ka => instanceId (snd ka) = fst ka) (agentContexts (context s))
  /\ (forall aid,
        hasAgentInstance sid aid (run uuidv4 ops p) = true
        <-> is_Some (findAgentInstance sid aid (run uuidv4 ops p))).
Proof.
  intros Hp Hs.
  pose proof (agentsInSync_run uuidv4 ops p Hp sid s Hs) as Hsync.
  destruct Hsync as (Hk & Hn & Hi) eqn:E. split_and!.
  - unfold getSessionInfo. rewrite Hs. simpl. rewrite Hk. reflexivity.
  - exact Hn.
  - exact Hi.
  - intros aid. apply (check_agrees_with_lookup sid aid _ s Hs). exact Hsync.
Qed.

Lemma agent_set_matches_agent_map_witness :
  info_activeAgents <$> getSessionInfo "u"
      (run Examples.P.uuid
         (CreateSession "alice" (Obj Examples.P.defaults) :: Examples.P.mixedCalls)
         Examples.P.fresh)
  = Some ["creative_agent_ux"; "research_agent_uxxxxxxxxx";
          "problem_solver_agent_uxxxxxxxxxxxxxx"].
Proof.
  assert (Hs : exists s,
             sessions (run Examples.P.uuid
                         (CreateSession "alice" (Obj Examples.P.defaults)
                          :: Examples.P.mixedCalls) Examples.P.fresh) !! "u"
             = Some s
             /\ map fst (agentContexts (context s))
                = ["creative_agent_ux"; "research_agent_uxxxxxxxxx";
                   "problem_solver_agent_uxxxxxxxxxxxxxx"]).
  { eexists. split; [vm_compute; reflexivity|]. reflexivity. }
  destruct Hs as (s & Hs & Hkeys).
  destruct (agent_set_matches_agent_map Examples.P.uuid
              (CreateSession "alice" (Obj Examples.P.defaults) :: Examples.P.mixedCalls)
              Examples.P.fresh "u" s) as (Hinfo & _).
  - intros k x Hx. vm_compute in Hx. discriminate.
  - exact Hs.
  - rewrite <- Hkeys. exact Hinfo.
Defined.



(** ** The context map and the statistics *)

Lemma contextsMatch_alter (g : Session -> Session) (sid : string) (p p' : Protocol) :
  (forall s, isActive (g s) = isActive s) ->
  sessions p' = alter g sid (sessions p) -> contexts p' = contexts p ->
  contextsMatch p -> contextsMatch p'.
Proof.
  intros Hg Hs Hc Hp k. rewrite Hc, Hs, (Hp k).
  destruct (decide (sid = k)) as [->|Hne].
  - rewrite lookup_alter_eq. destruct (sessions p !! k); simpl; [|tauto].
    rewrite Hg. tauto.
  - rewrite lookup_alter_ne by exact Hne. tauto.
Qed.

Lemma contextsMatch_same (p p' : Protocol) :
  sessions p' = sessions p -> contexts p' = contexts p ->
  contextsMatch p -> contextsMatch p'.
Proof. intros Hs Hc Hp k. rewrite Hc, Hs. apply Hp. Qed.

Lemma contextsMatch_run (uuidv4 : nat -> string) (ops : list Op) (p : Protocol) :
  contextsMatch p -> contextsMatch (run uuidv4 ops p).
Proof.
  apply (run_respects uuidv4 (fun q q' => contextsMatch q -> contextsMatch q')).
  - tauto.
  - intros p1 p2 p3 H1 H2 H. apply H2, H1, H.
  - intros q. apply contextsMatch_same; reflexivity.
  - intros e q. apply contextsMatch_same; reflexivity.
  - intros q sid aid cfg s d _ _ _ _.
    eapply contextsMatch_alter; [|simpl; reflexivity|reflexivity]. reflexivity.
  - intros sid aid r q.
    eapply contextsMatch_alter; [|simpl; reflexivity|reflexivity]. reflexivity.
  - intros sid t q.
    eapply contextsMatch_alter; [|simpl; reflexivity|reflexivity]. reflexivity.
  - intros sid m q.
    eapply contextsMatch_alter; [|simpl; reflexivity|reflexivity]. reflexivity.
  - intros uid cfg q Hq k. simpl.
    destruct (decide (uuidv4 (drawn q) = k)) as [->|Hne].
    + rewrite !lookup_insert_eq. simpl. split; [reflexivity|eexists; reflexivity].
    + rewrite !lookup_insert_ne by exact Hne. apply Hq.
  - intros sid q Hq. destruct (closeSession_cases sid q) as [->|(s & Hs & ->)];
      [exact Hq|].
    intros k. simpl. destruct (decide (sid = k)) as [->|Hne].
    + rewrite lookup_delete_eq, lookup_alter_eq, Hs. simpl.
      split; [intros [x Hx]; discriminate|discriminate].
    + rewrite lookup_delete_ne, lookup_alter_ne by exact Hne. apply Hq.
  - intros dt q. apply contextsMatch_same; reflexivity.
Qed.

Lemma count_active (m : gmap string Session) :
  length (filter (fun s => isActive s = true) (snd <$> map_to_list m))
  = size (filter (fun ks : string * Session => isActive (snd ks) = true) m).
Proof.
  induction m as [|i x m Hi IH] using map_ind.
  - rewrite map_to_list_empty, map_filter_empty, map_size_empty. reflexivity.
  - rewrite (map_to_list_insert m i x Hi). rewrite fmap_cons, filter_cons. simpl.
    destruct (decide (isActive x = true)) as [Hx|Hx].
    + rewrite map_filter_insert_True by exact Hx.
      rewrite map_size_insert_None.
      * simpl. rewrite IH. reflexivity.
      * apply map_lookup_filter_None. left. exact Hi.
    + rewrite map_filter_insert_not'; [exact IH|exact Hx|].
      intros y Hy. rewrite Hi in Hy. discriminate.
Qed.

Lemma count_contexts (p : Protocol) :
  contextsMatch p ->
  size (filter (fun ks : string * Session => isActive (snd ks) = true) (sessions p))
  = size (contexts p).
Proof.
  intros Hp. rewrite <- !(size_dom (D := gset string)). f_equal.
  apply set_eq. intros k. rewrite !elem_of_dom, (Hp k). unfold is_Some.
  split.
  - intros [s Hs]. apply map_lookup_filter_Some in Hs. destruct Hs as [Hs Ha].
    rewrite Hs. simpl in *. rewrite Ha. reflexivity.
  - intros Hk. destruct (sessions p !! k) as [s|] eqn:Hs; [|discriminate].
    exists s. apply map_lookup_filter_Some. split; [exact Hs|].
    simpl in *. congruence.
Qed.

(** X12. In every state reached by calls from a state in which the
    context map has an entry exactly for the active sessions (such as a
    protocol without sessions), this is still so, and the statistics report
    as many active sessions as contexts. *)
Theorem contexts_are_the_active_sessions (uuidv4 : nat -> string) (ops : list Op)
  (p : Protocol) :
  contextsMatch p ->
  contextsMatch (run uuidv4 ops p)
  /\ stats_activeSessions (getSystemStats (run uuidv4 ops p))
     = totalContexts (getSystemStats (run uuidv4 ops p)).
Proof.
  intros Hp. pose proof (contextsMatch_run uuidv4 ops p Hp) as H.
  split; [exact H|]. unfold getSystemStats. simpl.
  rewrite count_active. apply count_contexts, H.
Qed.

Lemma contexts_are_the_active_sessions_witness :
  let p := run Examples.P.uuid
             (CreateSession "alice" (Obj Examples.P.defaults) :: Examples.P.mixedCalls
              ++ [CloseSession "u"; CreateSession "carol" (Obj Examples.P.defaults)])
             Examples.P.fresh in
  stats_activeSessions (getSystemStats p) = totalContexts (getSystemStats p)
  /\ totalSessions (getSystemStats p) = 3
  /\ totalContexts (getSystemStats p) = 1.
Proof.
  split; [|split; vm_compute; reflexivity].
  apply (contexts_are_the_active_sessions Examples.P.uuid
           (CreateSession "alice" (Obj Examples.P.defaults) :: Examples.P.mixedCalls
            ++ [CloseSession "u"; CreateSession "carol" (Obj Examples.P.defaults)])
           Examples.P.fresh).
  intros k. split.
  - intros [x Hx]. vm_compute in Hx. discriminate.
  - intros Hx. vm_compute in Hx. discriminate.
Defined.

(** ** How a session changes over time *)

Lemma grows_refl (s : Session) : grows s s.
Proof. unfold grows. split_and!; reflexivity || tauto. Qed.

Lemma grows_trans (s1 s2 s3 : Session) : grows s1 s2 -> grows s2 s3 -> grows s1 s3.
Proof.
  unfold grows. intros (A1 & B1 & C1 & D1 & E1 & F1 & G1 & H1)
    (A2 & B2 & C2 & D2 & E2 & F2 & G2 & H2).
  split_and!; try congruence; try (etrans; eassumption). tauto.
Qed.

Lemma advances_same (sid : string) (p p' : Protocol) :
  sessions p' = sessions p -> advances grows sid p p'.
Proof. intros Hs s H. exists s. rewrite Hs. split; [exact H|apply grows_refl]. Qed.

Lemma advances_alter (g : Session -> Session) (sid sid' : string) (p p' : Protocol) :
  (forall s, grows s (g s)) -> sessions p' = alter g sid' (sessions p) ->
  advances grows sid p p'.
Proof.
  intros Hg Hs s H. rewrite Hs. destruct (decide (sid' = sid)) as [->|Hne].
  - exists (g s). rewrite lookup_alter_eq, H. split; [reflexivity|apply Hg].
  - exists s. rewrite lookup_alter_ne by exact Hne. split; [exact H|apply grows_refl].
Qed.

Lemma advances_trans (sid : string) (p1 p2 p3 : Protocol) :
  advances grows sid p1 p2 -> advances grows sid p2 p3 -> advances grows sid p1 p3.
Proof.
  intros H1 H2 s Hs. destruct (H1 s Hs) as (s2 & Hs2 & G1).
  destruct (H2 s2 Hs2) as (s3 & Hs3 & G2). exists s3.
  split; [exact Hs3|]. eapply grows_trans; eassumption.
Qed.

Lemma grows_addAgent (id : string) (a : AgentInstance) (s : Session) :
  grows s (addAgent id a s).
Proof.
  unfold grows. simpl. split_and!; try reflexivity; try tauto.
  - apply Set_add_prefix.
  - rewrite Map_set_keys. apply Set_add_prefix.
Qed.

Lemma grows_history (aid : string) (r : ActionResult) (s : Session) :
  grows s (with_context (with_agentContexts (alterFound aid (push_history r))) s).
Proof.
  unfold grows. simpl. split_and!; try reflexivity; try tauto.
  rewrite alterFound_keys. reflexivity.
Qed.

Lemma grows_message (m : MCPMessage) (s : Session) : grows s (push_message m s).
Proof.
  unfold grows. simpl. split_and!; try reflexivity; try tauto.
  apply prefix_app_r. reflexivity.
Qed.

Lemma grows_deactivate (t : Z) (s : Session) : grows s (deactivate t s).
Proof.
  unfold grows. simpl. split_and!; try reflexivity. discriminate.
Qed.

Lemma run_grows (uuidv4 : nat -> string) (sid : string) (n0 : nat) (ops : list Op)
  (p : Protocol) :
  (forall n, n0 <= n -> uuidv4 n <> sid) ->
  n0 <= drawn p ->
  advances grows sid p (run uuidv4 ops p) /\ n0 <= drawn (run uuidv4 ops p).
Proof.
  intros Hfresh.
  apply (run_respects uuidv4
           (fun q q' => n0 <= drawn q ->
                        advances grows sid q q' /\ n0 <= drawn q')).
  - intros q Hq. split; [apply advances_same; reflexivity|exact Hq].
  - intros p1 p2 p3 H1 H2 Hq. destruct (H1 Hq) as [A1 B1].
    destruct (H2 B1) as [A2 B2]. split; [eapply advances_trans; eassumption|exact B2].
  - intros q Hq. split; [apply advances_same; reflexivity|simpl; lia].
  - intros e q Hq. split; [apply advances_same; reflexivity|exact Hq].
  - intros q sid' aid cfg s d _ _ _ _ Hq. split; [|simpl; lia].
    eapply advances_alter; [|simpl; reflexivity]. intros x. apply grows_addAgent.
  - intros sid' aid r q Hq. split; [|exact Hq].
    eapply advances_alter; [|simpl; reflexivity]. intros x. apply grows_history.
  - intros sid' t q Hq. split; [|exact Hq].
    eapply advances_alter; [|simpl; reflexivity]. intros x.
    unfold grows. simpl. split_and!; reflexivity || tauto.
  - intros sid' m q Hq. split; [|exact Hq].
    eapply advances_alter; [|simpl; reflexivity]. intros x. apply grows_message.
  - intros uid cfg q Hq. split; [|simpl; lia].
    intros s Hs. exists s. split; [|apply grows_refl]. simpl.
    rewrite lookup_insert_ne; [exact Hs|]. apply Hfresh, Hq.
  - intros sid' q Hq. rewrite closeSession_drawn. split; [|exact Hq].
    destruct (closeSession_cases sid' q) as [->|(s & _ & ->)];
      [apply advances_same; reflexivity|].
    eapply advances_alter; [|simpl; reflexivity]. intros x. apply grows_deactivate.
  - intros dt q Hq. split; [apply advances_same; reflexivity|exact Hq].
Qed.

(** X13. Across any later calls, a session keeps its id, owner, creation
    time and limits; its agent list, the ids of its agent map and its
    message history are only ever extended at the end (nothing is evicted or
    reordered); and once closed it is never active again, provided the
    identifier generator never hands out the session's id again. *)
Theorem session_only_grows (uuidv4 : nat -> string) (p : Protocol) (sid : string)
  (s : Session) (later : list Op) :
  (forall n, drawn p <= n -> uuidv4 n <> sid) ->
  sessions p !! sid = Some s ->
  exists s',
    sessions (run uuidv4 later p) !! sid = Some s'
    /\ sessionId s' = sessionId s
    /\ userId s' = userId s
    /\ createdAt s' = createdAt s
    /\ config s' = config s
    /\ activeAgents s `prefix_of` activeAgents s'
    /\ messageHistory s `prefix_of` messageHistory s'
    /\ map fst (agentContexts (context s))
         `prefix_of` map fst (agentContexts (context s'))
    /\ (isActive s' = true -> isActive s = true).
Proof.
  intros Hfresh Hs.
  destruct (run_grows uuidv4 sid (drawn p) later p Hfresh (le_n _)) as [H _].
  destruct (H s Hs) as (s' & Hs' & Hg). exists s'. split; [exact Hs'|exact Hg].
Qed.

Lemma session_only_grows_witness :
  exists s',
    sessions (run Examples.P.uuid Examples.P.mixedCalls Examples.P.oneAgent) !! "u"
    = Some s'
    /\ ["research_agent_ux"] `prefix_of` activeAgents s'
    /\ config s' = {| maxAgents := 5; maxTools := 10; timeout := 300000 |}.
Proof.
  assert (Hs : exists s, sessions Examples.P.oneAgent !! "u" = Some s
                         /\ activeAgents s = ["research_agent_ux"]
                         /\ config s = {| maxAgents := 5; maxTools := 10;
                                          timeout := 300000 |}).
  { eexists. split; [vm_compute; reflexivity|]. split; reflexivity. }
  destruct Hs as (s & Hs & Hag & Hcfg).
  destruct (session_only_grows Examples.P.uuid Examples.P.oneAgent "u" s
              Examples.P.mixedCalls) as (s' & Hs' & _ & _ & _ & Hc & Ha & _).
  - intros n Hn. change (drawn Examples.P.oneAgent) with 2 in Hn.
    destruct n as [|n]; [lia|]. discriminate.
  - exact Hs.
  - exists s'. split; [exact Hs'|]. rewrite <- Hag, <- Hcfg. split; assumption.
Defined.

(** ** Instance ids *)

Lemma spawnAgent_returns (uuidv4 : nat -> string) (p p' : Protocol)
  (sid aid : string) (agentConfig : Config) (id : string) :
  spawnAgent uuidv4 sid aid agentConfig p = (Normal id, p') ->
  id = newInstanceId uuidv4 p aid /\ drawn p' = S (drawn p).
Proof.
  intros H. destruct (inactive_dec sid p) as [Hin|(s & Hs & Ha)].
  - rewrite (spawnAgent_no_session uuidv4 p sid aid agentConfig Hin) in H.
    discriminate.
  - destruct (agents p !! aid) as [d|] eqn:Hd.
    + destruct (Z_lt_le_dec (Z.of_nat (length (activeAgents s))) (maxAgents (config s)))
        as [Hroom|Hfull].
      * rewrite (spawnAgent_room uuidv4 p sid aid agentConfig s d Hs Ha Hd Hroom) in H.
        injection H as <- <-. split; reflexivity.
      * rewrite (spawnAgent_full uuidv4 p sid aid agentConfig s d Hs Ha Hd Hfull) in H.
        discriminate.
    + rewrite (spawnAgent_no_template uuidv4 p sid aid agentConfig s Hs Ha Hd) in H.
      discriminate.
Qed.

(** X14. With a generator that never repeats an identifier, two successful
    spawns of the same template, whatever the sessions and whatever calls
    are made in between, return different instance ids. *)
Theorem instance_ids_are_not_reused (uuidv4 : nat -> string) (p p1 p2 : Protocol)
  (sid sid' aid : string) (agentConfig agentConfig' : Config) (between : list Op)
  (id1 id2 : string) :
  (forall i j, uuidv4 i = uuidv4 j -> i = j) ->
  spawnAgent uuidv4 sid aid agentConfig p = (Normal id1, p1) ->
  spawnAgent uuidv4 sid' aid agentConfig' (run uuidv4 between p1) = (Normal id2, p2) ->
  id1 <> id2.
Proof.
  intros Hinj H1 H2 E.
  apply spawnAgent_returns in H1. destruct H1 as [-> Hd1].
  apply spawnAgent_returns in H2. destruct H2 as [-> _].
  unfold newInstanceId in E. apply append_inj_r, append_inj_r, Hinj in E.
  destruct (run_registriesKept uuidv4 between p1) as (_ & _ & Hd & _). lia.
Qed.

Lemma tally_inj (i j : nat) : Examples.P.tally i = Examples.P.tally j -> i = j.
Proof.
  revert j. induction i as [|i IH]; intros [|j]; simpl; try discriminate.
  - reflexivity.
  - intros [= H]. f_equal. apply IH, H.
Qed.

Lemma instance_ids_are_not_reused_witness :
  let r1 := spawnAgent Examples.P.uuid "u" "research_agent" [] Examples.P.oneSession in
  let r2 := spawnAgent Examples.P.uuid "u" "research_agent" []
              (run Examples.P.uuid Examples.P.mixedCalls (snd r1)) in
  exists id1 id2, fst r1 = Normal id1 /\ fst r2 = Normal id2 /\ id1 <> id2.
Proof.
  intros r1 r2. eexists _, _.
  split; [vm_compute; reflexivity|]. split; [vm_compute; reflexivity|].
  apply (instance_ids_are_not_reused Examples.P.uuid Examples.P.oneSession
           (snd r1) (snd r2) "u" "u" "research_agent" [] [] Examples.P.mixedCalls).
  - intros i j [= H]. apply tally_inj, H.
  - vm_compute. reflexivity.
  - vm_compute. reflexivity.
Defined.

(** ** A plan whose steps all find their agents *)

Lemma executeStep_keeps_templates (uuidv4 : nat -> string) (st : Step) (sid : string)
  (p : Protocol) :
  keeps templates sid p (snd (executeStep uuidv4 st sid p)).
Proof.
  pose proof (preserves_executeStep templates sid templates_history uuidv4 st sid p)
    as [H _].
  exact H.
Qed.

Lemma found_after_step (uuidv4 : nat -> string) (st : Step) (sid aid : string)
  (p : Protocol) :
  is_Some (findAgentInstance sid aid p) ->
  is_Some (findAgentInstance sid aid (snd (executeStep uuidv4 st sid p))).
Proof.
  intros [a Ha].
  destruct (findAgentInstance sid aid (snd (executeStep uuidv4 st sid p))) eqn:E;
    [eexists; reflexivity|].
  apply (findAgentInstance_keeps sid aid p _ (executeStep_keeps_templates _ _ _ _)) in E.
  congruence.
Qed.

Lemma executeSteps_complete (uuidv4 : nat -> string) (sid : string)
  (sts : list Step) (e : Execution) (p : Protocol) :
  Forall (fun st => is_Some (findAgentInstance sid (agent st) p)) sts ->
  exists e' p' done,
    executeSteps uuidv4 sts sid e p = (Normal tt, e', p')
    /\ status e' = status e
    /\ error e' = error e
    /\ startTime e' = startTime e
    /\ ex_steps e' = (ex_steps e ++ done)%list
    /\ results e' = (results e ++ map result done)%list
    /\ map se_action done = map action sts
    /\ Forall (fun se => se_status se = completed) done.
Proof.
  revert e p. induction sts as [|st sts IH]; intros e p Hall.
  - exists e, p, []. simpl. rewrite !app_nil_r. split_and!; try reflexivity.
    constructor.
  - inversion Hall as [|? ? Hst Hrest]; subst.
    destruct (executeStep_found uuidv4 st sid p Hst) as (se & p1 & Hse & Hc & Ha).
    assert (Hrest1 : Forall (fun x => is_Some (findAgentInstance sid (agent x) p1)) sts).
    { eapply Forall_impl; [exact Hrest|]. intros x Hx. simpl in Hx.
      pose proof (found_after_step uuidv4 st sid (agent x) p Hx) as H.
      rewrite Hse in H. exact H. }
    destruct (IH (record_step se (result se) e) p1 Hrest1)
      as (e' & p' & done & Hrun & Hs & He & Ht & Hd & Hr & Hact & Hcomp).
    exists e', p', (se :: done). simpl. rewrite Hse. split_and!.
    + exact Hrun.
    + exact Hs.
    + exact He.
    + exact Ht.
    + rewrite Hd. simpl. rewrite <- app_assoc. reflexivity.
    + rewrite Hr. simpl. rewrite <- app_assoc. reflexivity.
    + rewrite Ha, Hact. reflexivity.
    + constructor; assumption.
Qed.

Lemma response_has_closing_remark (rs : list ActionResult) (m : MCPMessage) :
  str_includes closingRemark (synthesizeResponse rs m) = true
  /\ startsWith "Based on my analysis:" (synthesizeResponse rs m) = true.
Proof.
  unfold synthesizeResponse. split.
  - do 5 apply str_includes_append. apply str_includes_refl.
  - apply startsWith_append.
Qed.

Lemma executePlan_complete (uuidv4 : nat -> string) (plan : Plan) (sid : string)
  (originalMessage : MCPMessage) (p p1 : Protocol) :
  ensureAgents uuidv4 (requiredAgents plan) sid p = (Normal tt, p1) ->
  Forall (fun st => is_Some (findAgentInstance sid (agent st) p1)) (steps plan) ->
  exists r p',
    executePlan uuidv4 plan sid originalMessage p = (Normal r, p')
    /\ status (execution r) = completed
    /\ error (execution r) = None
    /\ map se_action (ex_steps (execution r)) = map action (steps plan)
    /\ Forall (fun se => se_status se = completed) (ex_steps (execution r))
    /\ results (execution r) = map result (ex_steps (execution r))
    /\ stepsExecuted (plan_metadata r) = length (steps plan)
    /\ agentsUsed (plan_metadata r) = requiredAgents plan
    /\ toolsUsed (plan_metadata r) = requiredTools plan
    /\ response r = synthesizeResponse (results (execution r)) originalMessage
    /\ str_includes closingRemark (response r) = true
    /\ startsWith "Based on my analysis:" (response r) = true.
Proof.
  intros Hens Hall.
  destruct (executeSteps_complete uuidv4 sid (steps plan)
              {| ex_planId := planId plan; ex_sessionId := sid; startTime := now p;
                 ex_steps := []; results := []; status := executing; error := None;
                 ex_endTime := None; duration := None |} p1 Hall)
    as (e' & p' & done & Hrun & Hs & He & Ht & Hd & Hr & Hact & Hcomp).
  simpl in Hd, Hr.
  eexists _, p'. unfold executePlan, executePlan_trace. rewrite Hens, Hrun.
  split; [reflexivity|]. simpl. rewrite Hd, Hr.
  destruct (response_has_closing_remark (map result done) originalMessage) as [H1 H2].
  split_and!; try reflexivity; try assumption.
  rewrite <- (length_map se_action), Hact, length_map. reflexivity.
Qed.

(** X15. When, once the required agents are ensured, every step of the
    plan finds an instance of its agent, [executePlan] returns: the execution
    is [completed] without error, it holds one completed record and one
    result per step, in the order of the plan, the metadata count the steps
    and name the plan's agents and tools, and the response starts with the
    fixed heading and contains the closing remark. *)
Theorem executePlan_completes (uuidv4 : nat -> string) (plan : Plan) (sid : string)
  (originalMessage : MCPMessage) (p p1 : Protocol) :
  ensureAgents uuidv4 (requiredAgents plan) sid p = (Normal tt, p1) ->
  Forall (fun st => is_Some (findAgentInstance sid (agent st) p1)) (steps plan) ->
  exists r p',
    executePlan uuidv4 plan sid originalMessage p = (Normal r, p')
    /\ status (execution r) = completed
    /\ error (execution r) = None
    /\ map se_action (ex_steps (execution r)) = map action (steps plan)
    /\ Forall (fun se => se_status se = completed) (ex_steps (execution r))
    /\ results (execution r) = map result (ex_steps (execution r))
    /\ stepsExecuted (plan_metadata r) = length (steps plan)
    /\ agentsUsed (plan_metadata r) = requiredAgents plan
    /\ toolsUsed (plan_metadata r) = requiredTools plan
    /\ response r = synthesizeResponse (results (execution r)) originalMessage
    /\ str_includes closingRemark (response r) = true
    /\ startsWith "Based on my analysis:" (response r) = true.
Proof. apply executePlan_complete. Qed.

Lemma executePlan_completes_witness :
  exists r p',
    executePlan Examples.P.uuid
      (Spec.with_steps [Examples.P.firstStep; Examples.P.thirdStep] Examples.P.plan3)
      "u" Examples.P.question Examples.P.oneSession = (Normal r, p')
    /\ status (execution r) = completed
    /\ stepsExecuted (plan_metadata r) = 2.
Proof.
  destruct (executePlan_completes Examples.P.uuid
              (Spec.with_steps [Examples.P.firstStep; Examples.P.thirdStep]
                 Examples.P.plan3)
              "u" Examples.P.question Examples.P.oneSession
              (snd (ensureAgents Examples.P.uuid ["research_agent"] "u"
                      Examples.P.oneSession)))
    as (r & p' & Hrun & Hs & _ & _ & _ & _ & Hn & _).
  - vm_compute. reflexivity.
  - repeat constructor; vm_compute; eexists; reflexivity.
  - exists r, p'. split; [exact Hrun|]. split; [exact Hs|exact Hn].
Defined.

(** ** Information requests *)

Lemma processMessage_unfold (uuidv4 : nat -> string) (p : Protocol)
  (sid message : string) (options : MessageOptions) (s : Session) :
  sessions p !! sid = Some s -> isActive s = true ->
  processMessage uuidv4 sid message (Obj options) p
  = afterReceipt uuidv4 (analyzeIntent message (context s)) sid
      (newMessage uuidv4 p sid message options)
      (received p sid (newMessage uuidv4 p sid message options)).
Proof.
  intros Hs Ha. unfold processMessage.
  rewrite (bind_normal _ _ p p s (activeSession_ok p sid s Hs Ha)).
  erewrite bind_normal by reflexivity.
  erewrite bind_normal by reflexivity.
  erewrite bind_normal by reflexivity.
  erewrite bind_normal by reflexivity.
  erewrite bind_normal by reflexivity.
  reflexivity.
Qed.

Lemma received_session (p : Protocol) (sid : string) (m : MCPMessage) (s : Session) :
  sessions p !! sid = Some s ->
  sessions (received p sid m) !! sid
  = Some (push_message m (with_lastActivity (now p) s)).
Proof. intros Hs. simpl. rewrite !lookup_alter_eq, Hs. reflexivity. Qed.

Lemma templates_addAgent (id : string) (a : AgentInstance) (s : Session) (x : string) :
  In x (templates (addAgent id a s)) -> x = agentId a \/ In x (templates s).
Proof.
  unfold templates, Map_values. simpl. rewrite !in_map_iff.
  intros (y & <- & Hy). apply in_map_iff in Hy. destruct Hy as (e & <- & He).
  apply Map_set_In in He. destruct He as [->|He]; [left; reflexivity|].
  right. exists (snd e). split; [reflexivity|]. apply in_map. exact He.
Qed.

Lemma spawnAgent_lacks (uuidv4 : nat -> string) (p : Protocol)
  (sid sid' aid aid0 : string) (agentConfig : Config) :
  aid <> aid0 ->
  findAgentInstance sid aid0 p = None ->
  findAgentInstance sid aid0 (snd (spawnAgent uuidv4 sid' aid agentConfig p)) = None.
Proof.
  intros Hne Hnone.
  destruct (spawnAgent uuidv4 sid' aid agentConfig p) as [[id|e] p'] eqn:E.
  - destruct (inactive_dec sid' p) as [Hin|(s & Hs & Ha)];
      [rewrite (spawnAgent_no_session uuidv4 p sid' aid agentConfig Hin) in E;
       discriminate|].
    destruct (agents p !! aid) as [d|] eqn:Hd;
      [|rewrite (spawnAgent_no_template uuidv4 p sid' aid agentConfig s Hs Ha Hd) in E;
        discriminate].
    destruct (Z_lt_le_dec (Z.of_nat (length (activeAgents s))) (maxAgents (config s)))
      as [Hroom|Hfull];
      [|rewrite (spawnAgent_full uuidv4 p sid' aid agentConfig s d Hs Ha Hd Hfull) in E;
        discriminate].
    rewrite (spawnAgent_room uuidv4 p sid' aid agentConfig s d Hs Ha Hd Hroom) in E.
    injection E as <- <-. simpl snd.
    apply findAgentInstance_none. apply findAgentInstance_none in Hnone.
    simpl. destruct (decide (sid' = sid)) as [->|Hd'].
    + rewrite lookup_alter_eq, Hs. rewrite Hs in Hnone. simpl in *.
      intros Hin. apply templates_addAgent in Hin. simpl in Hin.
      destruct Hin as [Hin|Hin]; [congruence|contradiction].
    + rewrite lookup_alter_ne by exact Hd'. exact Hnone.
  - apply spawnAgent_failure_state in E. subst p'. exact Hnone.
Qed.

Lemma ensureAgents_lacks (uuidv4 : nat -> string) (required : list string)
  (sid aid0 : string) (p : Protocol) :
  ~ In aid0 required ->
  findAgentInstance sid aid0 p = None ->
  findAgentInstance sid aid0 (snd (ensureAgents uuidv4 required sid p)) = None.
Proof.
  revert p. induction required as [|aid rest IH]; intros p Hnot Hnone; [exact Hnone|].
  simpl in Hnot. simpl ensureAgents. unfold bind at 1. unfold gets at 1.
  destruct (hasAgentInstance sid aid p).
  - unfold bind at 1. simpl. apply IH; tauto.
  - unfold bind at 1. unfold bind at 1.
    pose proof (spawnAgent_lacks uuidv4 p sid sid aid aid0 [] ltac:(tauto) Hnone) as H.
    destruct (spawnAgent uuidv4 sid aid [] p) as [[id|e] p1]; simpl in H |- *.
    + apply IH; tauto.
    + exact H.
Qed.

Lemma executeSteps_throws (uuidv4 : nat -> string) (sid : string) (s : Step)
  (sts : list Step) (e : Execution) (p : Protocol) :
  In s sts -> findAgentInstance sid (agent s) p = None ->
  exists msg e' p', executeSteps uuidv4 sts sid e p = (Throw msg, e', p').
Proof.
  revert e p. induction sts as [|st sts IH]; intros e p Hin Hnone; [destruct Hin|].
  simpl. destruct (executeStep uuidv4 st sid p) as [[se|msg] p1] eqn:E.
  - destruct Hin as [->|Hin].
    + rewrite (executeStep_missing uuidv4 s sid p Hnone) in E. discriminate.
    + apply IH; [exact Hin|].
      pose proof (executeStep_keeps_templates uuidv4 st sid p) as Hk.
      rewrite E in Hk. apply (findAgentInstance_keeps sid (agent s) p p1 Hk). exact Hnone.
  - eexists _, _, _. reflexivity.
Qed.

Lemma executePlan_throws (uuidv4 : nat -> string) (plan : Plan) (sid : string)
  (originalMessage : MCPMessage) (s : Step) (p : Protocol) :
  In s (steps plan) -> ~ In (agent s) (requiredAgents plan) ->
  findAgentInstance sid (agent s) p = None ->
  exists msg p', executePlan uuidv4 plan sid originalMessage p = (Throw msg, p').
Proof.
  intros Hin Hnot Hnone. unfold executePlan, executePlan_trace.
  pose proof (ensureAgents_lacks uuidv4 (requiredAgents plan) sid (agent s) p
                Hnot Hnone) as H.
  destruct (ensureAgents uuidv4 (requiredAgents plan) sid p) as [[[]|msg] p1];
    simpl in H; [|eexists _, _; reflexivity].
  match goal with
  | |- context [executeSteps uuidv4 ?sts sid ?e0 p1] =>
      destruct (executeSteps_throws uuidv4 sid s sts e0 p1 Hin H)
        as (msg & e' & p' & ->)
  end.
  eexists _, _. reflexivity.
Qed.

(** X16. A message classified as an information request, sent to an
    active session that holds no instance of the analysis agent, is never
    answered: [processMessage] throws.  The plan for this intent requires
    the research agent only, while its second step runs on the analysis
    agent. *)
Theorem information_request_needs_analysis_agent (uuidv4 : nat -> string)
  (p : Protocol) (sid message : string) (options : Nullable MessageOptions)
  (s : Session) :
  sessions p !! sid = Some s ->
  isActive s = true ->
  intent_type (analyzeIntent message (context s)) = "information_retrieval" ->
  findAgentInstance sid "analysis_agent" p = None ->
  exists msg p', processMessage uuidv4 sid message options p = (Throw msg, p').
Proof.
  intros Hs Ha Hintent Hnone. destruct options as [|options].
  { rewrite (ProtocolFacts.processMessage_null uuidv4 p sid message s Hs Ha).
    eexists _, _. reflexivity. }
  rewrite (processMessage_unfold uuidv4 p sid message options s Hs Ha).
  unfold afterReceipt, createRoutingPlan. rewrite Hintent.
  erewrite bind_normal by reflexivity. cbn [routingTable String.eqb Ascii.eqb Bool.eqb].
  unfold bind at 1. unfold ret at 1.
  match goal with
  | |- context [executePlan uuidv4 ?plan sid ?m ?q] =>
      destruct (executePlan_throws uuidv4 plan sid m
                  (mkStep "synthesize_results" "analysis_agent" ["content_generation"]) q)
        as (msg & p' & E)
  end.
  - simpl. right. left. reflexivity.
  - simpl. intros [H|[]]. discriminate.
  - apply findAgentInstance_none. apply findAgentInstance_none in Hnone.
    simpl. rewrite !lookup_alter_eq, Hs. rewrite Hs in Hnone. exact Hnone.
  - exists msg, p'. apply bind_throw. exact E.
Qed.

Lemma information_request_needs_analysis_agent_witness :
  exists msg p',
    processMessage Examples.P.uuid "u" "Please find a paper" (Obj Examples.P.noOptions)
      Examples.P.oneAgent = (Throw msg, p').
Proof.
  assert (Hs : exists s, sessions Examples.P.oneAgent !! "u" = Some s
                         /\ isActive s = true
                         /\ intent_type (analyzeIntent "Please find a paper" (context s))
                            = "information_retrieval").
  { eexists. split; [vm_compute; reflexivity|]. split; reflexivity. }
  destruct Hs as (s & Hs & Ha & Hi).
  apply (information_request_needs_analysis_agent Examples.P.uuid Examples.P.oneAgent
           "u" "Please find a paper" (Obj Examples.P.noOptions) s Hs Ha Hi).
  vm_compute. reflexivity.
Defined.

(** ** Creating and closing *)

Lemma configValue_default (o : option Z) (d : Z) : configValue o d = default d o.
Proof. destruct o as [v|]; reflexivity. Qed.

(** X17. Called with a configuration object (whose limits, where given,
    are integers), [createSession] returns the identifier it draws; under
    that id the session is then reported active, owned by the caller, created
    now, without agents or messages; each limit is the caller's value when
    the caller gives one, zero included, and the default (5 agents, 10 tools,
    300000 ms) otherwise; the session sees the registered tools; the context
    map has an entry for it; and every other session and context entry, and
    the agent registry, are untouched.  Called with [null] for the
    configuration it throws a [TypeError], having drawn an identifier and
    done nothing else. *)
Theorem createSession_round_trip (uuidv4 : nat -> string) (uid : string)
  (sessionConfig : SessionOptions) (p : Protocol) :
  let sid := uuidv4 (drawn p) in
  let r := createSession uuidv4 uid (Obj sessionConfig) p in
  createSession uuidv4 uid Null p
  = (Throw (typeError "maxAgents"), with_drawn (S (drawn p)) p)
  /\ fst r = Normal sid
  /\ getSessionInfo sid (snd r)
     = Some {| info_sessionId := sid; info_userId := uid; info_createdAt := now p;
               info_lastActivity := now p; info_activeAgents := [];
               messageCount := 0; info_isActive := true |}
  /\ config <$> sessions (snd r) !! sid
     = Some {| maxAgents := default 5%Z (opt_maxAgents sessionConfig);
               maxTools := default 10%Z (opt_maxTools sessionConfig);
               timeout := default 300000%Z (opt_timeout sessionConfig) |}
  /\ availableTools <$> sessions (snd r) !! sid = Some (map fst (tools p))
  /\ contexts (snd r) !! sid = Some (ContextOf sid)
  /\ (forall k, k <> sid ->
        sessions (snd r) !! k = sessions p !! k
        /\ contexts (snd r) !! k = contexts p !! k)
  /\ agents (snd r) = agents p
  /\ events (snd r) = (events p ++ [sessionCreated sid uid])%list.
Proof.
  intros sid r. subst r sid. simpl. split_and!; try reflexivity.
  - unfold getSessionInfo. simpl. rewrite lookup_insert_eq. reflexivity.
  - rewrite lookup_insert_eq. simpl. rewrite !configValue_default. reflexivity.
  - rewrite lookup_insert_eq. reflexivity.
  - apply lookup_insert_eq.
  - intros k Hk. split; apply lookup_insert_ne; congruence.
Qed.

(** X18. A session created with [maxAgents] zero or negative never gets an
    agent: every spawn of a registered template into it, right after its
    creation, throws the capacity error (the caller's zero is kept, not
    replaced by the default of five). *)
Theorem zero_limit_is_honoured (uuidv4 : nat -> string) (uid : string)
  (sessionConfig : SessionOptions) (p : Protocol) (z : Z) (aid : string)
  (agentConfig : Config) (d : AgentDefinition) :
  opt_maxAgents sessionConfig = Some z -> (z <= 0)%Z ->
  agents p !! aid = Some d ->
  let p' := snd (createSession uuidv4 uid (Obj sessionConfig) p) in
  spawnAgent uuidv4 (uuidv4 (drawn p)) aid agentConfig p' = (Throw capacityError, p').
Proof.
  intros Hz Hle Hd p'. subst p'.
  eapply spawnAgent_full.
  - simpl. apply lookup_insert_eq.
  - reflexivity.
  - simpl. exact Hd.
  - simpl. rewrite configValue_default, Hz. simpl. lia.
Qed.

Lemma zero_limit_is_honoured_witness :
  let p' := snd (createSession Examples.P.uuid "dave" (Obj Examples.P.noAgentsAllowed)
                   Examples.P.fresh) in
  spawnAgent Examples.P.uuid "u" "research_agent" [] p'
  = (Throw "Maximum number of agents reached for this session", p').
Proof.
  eapply (zero_limit_is_honoured Examples.P.uuid "dave" Examples.P.noAgentsAllowed
            Examples.P.fresh 0 "research_agent" []).
  - reflexivity.
  - lia.
  - vm_compute. reflexivity.
Defined.

(** X19. Closing an existing session changes its activity flag and end
    time only: its agents, its context with the agent instances and their
    histories, its messages and its limits are kept, and it is still
    reported by [getSessionInfo]; the context map loses its entry; other
    sessions and context entries are untouched; one [sessionClosed] event is
    emitted.  Closing an id that has no session changes nothing and emits
    nothing. *)
Theorem closeSession_keeps_contents (p : Protocol) (sid : string) :
  (forall s, sessions p !! sid = Some s ->
     sessions (snd (closeSession sid p)) !! sid
     = Some {| sessionId := sessionId s; userId := userId s;
               createdAt := createdAt s; lastActivity := lastActivity s;
               config := config s; activeAgents := activeAgents s;
               availableTools := availableTools s; context := context s;
               messageHistory := messageHistory s; isActive := false;
               endTime := Some (now p) |}
     /\ contexts (snd (closeSession sid p)) = delete sid (contexts p)
     /\ events (snd (closeSession sid p)) = (events p ++ [sessionClosed sid])%list)
  /\ (sessions p !! sid = None -> closeSession sid p = (Normal tt, p))
  /\ (forall k, k <> sid ->
        sessions (snd (closeSession sid p)) !! k = sessions p !! k
        /\ contexts (snd (closeSession sid p)) !! k = contexts p !! k)
  /\ agents (snd (closeSession sid p)) = agents p.
Proof.
  split_and!.
  - intros s Hs. rewrite (closeSession_existing p sid s Hs). simpl.
    rewrite lookup_alter_eq, Hs. split_and!; reflexivity.
  - apply closeSession_missing.
  - intros k Hk. destruct (closeSession_cases sid p) as [->|(s & _ & ->)];
      [split; reflexivity|]. simpl.
    rewrite lookup_alter_ne, lookup_delete_ne by congruence. split; reflexivity.
  - destruct (closeSession_cases sid p) as [->|(s & _ & ->)]; reflexivity.
Qed.

Lemma closeSession_keeps_contents_witness :
  info_activeAgents <$> getSessionInfo "u"
      (snd (closeSession "u" Examples.P.fiveAgents))
  = info_activeAgents <$> getSessionInfo "u" Examples.P.fiveAgents
  /\ closeSession "ghost" Examples.P.fiveAgents = (Normal tt, Examples.P.fiveAgents).
Proof.
  destruct (closeSession_keeps_contents Examples.P.fiveAgents "u") as (Hs & _).
  destruct (closeSession_keeps_contents Examples.P.fiveAgents "ghost")
    as (_ & Hnone & _).
  split; [|apply Hnone; vm_compute; reflexivity].
  assert (H : exists s, sessions Examples.P.fiveAgents !! "u" = Some s)
    by (eexists; vm_compute; reflexivity).
  destruct H as (s & H). destruct (Hs s H) as (Hs' & _).
  unfold getSessionInfo. rewrite Hs', H. reflexivity.
Defined.

(** ** The classifier and the plans *)

(** X20. The classifier reads the lower-casing of the message and its
    length, and nothing else: two messages of the same length with the same
    lower-casing get the same intent, complexity included, whatever the
    contexts. *)
Theorem analyzeIntent_ignores_case (m1 m2 : string) (c1 c2 : Context) :
  toLowerCase m1 = toLowerCase m2 ->
  String.length m1 = String.length m2 ->
  analyzeIntent m1 c1 = analyzeIntent m2 c2.
Proof.
  intros Hlow Hlen. unfold analyzeIntent. rewrite Hlow, Hlen. reflexivity.
Qed.

Lemma analyzeIntent_ignores_case_witness :
  analyzeIntent "SEARCH the Web" Examples.P.emptyContext
  = analyzeIntent "search THE web" Examples.P.emptyContext.
Proof.
  apply (analyzeIntent_ignores_case "SEARCH the Web" "search THE web"
           Examples.P.emptyContext Examples.P.emptyContext); reflexivity.
Defined.

Lemma routingTable_shape (ty : string) :
  let '(ags, tls, sts) := routingTable ty in
  length sts = 2
  /\ (ty <> "information_retrieval" ->
      Forall (fun st => In (agent st) ags) sts
      /\ Forall (fun st => forall t, In t (step_tools st) -> In t tls) sts)
  /\ (ty = "information_retrieval" ->
      ags = ["research_agent"] /\ map agent sts = ["research_agent"; "analysis_agent"]).
Proof.
  unfold routingTable.
  destruct (String.eqb_spec ty "information_retrieval") as [->|H1].
  { split; [reflexivity|]. split; [intros H; contradiction H; reflexivity|].
    intros _. split; reflexivity. }
  destruct (String.eqb ty "analysis");
    [|destruct (String.eqb ty "content_creation");
      [|destruct (String.eqb ty "problem_solving")]].
  all: split; [reflexivity|]; split; [|intros H; contradiction].
  all: intros _; split;
    repeat first [apply List.Forall_nil | apply List.Forall_cons];
    try intros t; simpl; tauto.
Qed.

(** X21. Every routing plan has two steps, an estimated duration of 10000
    ms, the identifier drawn as its id, and the intent it was built for.
    For every intent type but [information_retrieval] each step runs on one
    of the plan's required agents with tools among the plan's required
    tools; the plan for [information_retrieval] requires the research agent
    only and runs its second step on the analysis agent. *)
Theorem createRoutingPlan_shape (uuidv4 : nat -> string) (i : Intent) (sid : string)
  (p : Protocol) :
  exists plan,
    createRoutingPlan uuidv4 i sid p = (Normal plan, with_drawn (S (drawn p)) p)
    /\ planId plan = uuidv4 (drawn p)
    /\ intent plan = i
    /\ length (steps plan) = 2
    /\ estimatedDuration plan = 10000%Z
    /\ (intent_type i <> "information_retrieval" ->
        Forall (fun st => In (agent st) (requiredAgents plan)) (steps plan)
        /\ Forall (fun st => forall t, In t (step_tools st) -> In t (requiredTools plan))
             (steps plan))
    /\ (intent_type i = "information_retrieval" ->
        requiredAgents plan = ["research_agent"]
        /\ map agent (steps plan) = ["research_agent"; "analysis_agent"]).
Proof.
  unfold createRoutingPlan. erewrite bind_normal by reflexivity.
  pose proof (routingTable_shape (intent_type i)) as H.
  destruct (routingTable (intent_type i)) as [[ags tls] sts].
  destruct H as (Hlen & Hok & Hbad).
  eexists. split; [reflexivity|]. simpl.
  split_and!; try reflexivity; try assumption. rewrite Hlen. reflexivity.
Qed.

Lemma createRoutingPlan_shape_witness :
  exists plan,
    fst (createRoutingPlan Examples.P.uuid Examples.P.learn "u" Examples.P.oneSession)
    = Normal plan
    /\ Forall (fun st => In (agent st) (requiredAgents plan)) (steps plan).
Proof.
  destruct (createRoutingPlan_shape Examples.P.uuid Examples.P.learn "u"
              Examples.P.oneSession) as (plan & Hrun & _ & _ & _ & _ & Hok & _).
  exists plan. split; [rewrite Hrun; reflexivity|]. apply Hok. discriminate.
Defined.

Lemma createSession_round_trip_witness :
  sessions (snd (createSession Examples.P.uuid "bob" (Obj Examples.P.defaults)
                   Examples.P.oneAgent)) !! "u"
  = sessions Examples.P.oneAgent !! "u".
Proof.
  destruct (createSession_round_trip Examples.P.uuid "bob" Examples.P.defaults
              Examples.P.oneAgent) as (_ & _ & _ & _ & _ & _ & Hother & _).
  apply Hother. discriminate.
Defined.

(** ** Messages that are answered *)

Lemma wellKeyed_run (uuidv4 : nat -> string) (ops : list Op) (p : Protocol) :
  sessionsAll wellKeyed p -> sessionsAll wellKeyed (run uuidv4 ops p).
Proof.
  apply run_maintains; unfold wellKeyed.
  - intros s _ Hc. rewrite Hc. constructor.
  - intros s q sid aid cfg d H _. simpl. apply Map_set_Forall; [exact H|].
    simpl. eexists. reflexivity.
  - intros aid r s H. simpl. apply alterFound_Forall; [|exact H].
    intros k a Hk. exact Hk.
  - intros t s H. exact H.
  - intros m s H. exact H.
  - intros t s H. exact H.
Qed.

Lemma Map_set_keeps {V} (k k0 : string) (v v0 : V) (m : list (string * V)) :
  In (k, v) m -> k <> k0 -> In (k, v) (Map_set k0 v0 m).
Proof.
  intros Hin Hne. induction m as [|[k' v'] m IH]; [destruct Hin|]. simpl.
  destruct Hin as [[= -> ->]|Hin].
  - destruct (String.eqb_spec k k0); [contradiction|]. left. reflexivity.
  - destruct (String.eqb k' k0); right; [exact Hin|apply IH, Hin].
Qed.

Lemma found_templates (sid x : string) (q : Protocol) (s : Session) :
  sessions q !! sid = Some s ->
  (is_Some (findAgentInstance sid x q) <-> In x (templates s)).
Proof.
  intros Hs. pose proof (findAgentInstance_none sid x q) as H.
  rewrite Hs in H. simpl in H.
  destruct (findAgentInstance sid x q) as [a|]; split.
  - intros _. destruct (in_dec string_dec x (templates s)) as [Hin|Hn]; [exact Hin|].
    apply H in Hn. discriminate.
  - intros _. eexists. reflexivity.
  - intros [a Ha]. discriminate.
  - intros Hin. destruct H as [H _]. contradiction (H eq_refl).
Qed.

Lemma templates_entry (x : string) (s : Session) :
  In x (templates s) <->
  exists k a, In (k, a) (agentContexts (context s)) /\ agentId a = x.
Proof.
  unfold templates, Map_values. rewrite in_map_iff. split.
  - intros (a & Ha & Hin). apply in_map_iff in Hin.
    destruct Hin as ([k a'] & Hsnd & Hin). simpl in Hsnd. subst a'.
    exists k, a. split; assumption.
  - intros (k & a & Hin & Ha). exists a. split; [exact Ha|].
    apply (in_map snd _ (k, a)). exact Hin.
Qed.

Lemma agentsInSync_addAgent (uuidv4 : nat -> string) (q : Protocol)
  (sid aid : string) (cfg : Config) (d : AgentDefinition) (s : Session) :
  agentsInSync s ->
  agentsInSync (addAgent (newInstanceId uuidv4 q aid)
                  (newInstance uuidv4 q sid aid cfg d) s).
Proof.
  unfold agentsInSync. intros (Hk & Hn & Hi). simpl. split_and!.
  - rewrite Map_set_keys, Hk. reflexivity.
  - apply Set_add_NoDup, Hn.
  - apply Map_set_Forall; [exact Hi|reflexivity].
Qed.

Lemma wellKeyed_addAgent (uuidv4 : nat -> string) (q : Protocol)
  (sid aid : string) (cfg : Config) (d : AgentDefinition) (s : Session) :
  wellKeyed s ->
  wellKeyed (addAgent (newInstanceId uuidv4 q aid)
               (newInstance uuidv4 q sid aid cfg d) s).
Proof.
  unfold wellKeyed. intros H. simpl. apply Map_set_Forall; [exact H|].
  simpl. eexists. reflexivity.
Qed.

(** The state in which an agent is ensured. *)
Section Ensure.
Context (uuidv4 : nat -> string) (sid : string).

Lemma ensure_one (aid : string) (q : Protocol) (s : Session) :
  ready sid q s -> is_Some (agents q !! aid) ->
  (Z.of_nat (length (activeAgents s)) < maxAgents (config s))%Z ->
  exists q1 s1,
    (present <- gets (hasAgentInstance sid aid);;
     (if present then ret tt else (_ <- spawnAgent uuidv4 sid aid [];; ret tt))) q
    = (Normal tt, q1)
    /\ ready sid q1 s1
    /\ agents q1 = agents q
    /\ config s1 = config s
    /\ length (activeAgents s1) <= S (length (activeAgents s))
    /\ found sid aid q1
    /\ (forall x, found sid x q -> x = aid \/ apart x aid -> found sid x q1).
Proof.
  intros (Hs & Ha & Hsync & Hkey) [d Hd] Hroom. unfold ready, found.
  unfold bind at 1. unfold gets at 1.
  destruct (hasAgentInstance sid aid q) eqn:Hhas.
  - exists q, s. split; [reflexivity|]. split; [unfold ready; split_and!; assumption|].
    split; [reflexivity|]. split; [reflexivity|]. split; [lia|].
    split; [|tauto]. apply (check_agrees_with_lookup sid aid q s Hs Hsync), Hhas.
  - unfold bind at 1.
    rewrite (spawnAgent_room uuidv4 q sid aid [] s d Hs Ha Hd Hroom).
    pose proof (afterSpawn_session uuidv4 q sid aid [] d s Hs) as Hs'.
    eexists _, _. split; [reflexivity|].
    split; [split; [exact Hs'|]; split; [exact Ha|]; split;
            [apply agentsInSync_addAgent, Hsync|apply wellKeyed_addAgent, Hkey]|].
    split; [reflexivity|]. split; [reflexivity|].
    split; [simpl; apply Set_add_length|].
    assert (Hnew : found sid aid (afterSpawn uuidv4 q sid aid [] d)).
    { apply (found_templates sid aid _ _ Hs'), templates_entry.
      exists (newInstanceId uuidv4 q aid), (newInstance uuidv4 q sid aid [] d).
      split; [simpl; apply Map_set_has|reflexivity]. }
    split; [exact Hnew|].
    intros x Hx [->|Hapart]; [exact Hnew|].
    apply (found_templates sid x _ _ Hs'), templates_entry.
    apply (found_templates sid x q s Hs), templates_entry in Hx.
    destruct Hx as (k & a & Hin & Hid). exists k, a. split; [|exact Hid].
    simpl. apply Map_set_keeps; [exact Hin|].
    unfold wellKeyed in Hkey. rewrite Forall_forall in Hkey.
    destruct (Hkey (k, a) ltac:(apply list_elem_of_In; exact Hin)) as [u Hu].
    simpl in Hu. rewrite Hu, Hid. apply Hapart.
Qed.

Lemma ensureAgents_success (required : list string) (q : Protocol) (s : Session) :
  ready sid q s ->
  (forall a, In a required -> is_Some (agents q !! a)) ->
  (Z.of_nat (length (activeAgents s)) + Z.of_nat (length required)
   <= maxAgents (config s))%Z ->
  (forall x y, In x required -> In y required -> x = y \/ apart x y) ->
  exists q1 s1,
    ensureAgents uuidv4 required sid q = (Normal tt, q1)
    /\ ready sid q1 s1
    /\ (forall x, found sid x q -> (forall y, In y required -> x = y \/ apart x y) ->
                  found sid x q1)
    /\ (forall a, In a required -> found sid a q1).
Proof.
  revert q s. induction required as [|aid rest IH]; intros q s Hready Hreg Hroom Hpair.
  - exists q, s. split; [reflexivity|]. split; [exact Hready|].
    split; [tauto|]. intros a [].
  - simpl length in Hroom.
    destruct (ensure_one aid q s Hready (Hreg aid (or_introl eq_refl)) ltac:(lia))
      as (q' & s' & Hrun & Hready' & Hag & Hcfg & Hlen & Hfound & Hmono).
    destruct (IH q' s' Hready') as (q1 & s1 & Hrun1 & Hready1 & Hmono1 & Hfound1).
    + intros a Ha. rewrite Hag. apply Hreg. right. exact Ha.
    + rewrite Hcfg. lia.
    + intros x y Hx Hy. apply Hpair; right; assumption.
    + exists q1, s1. split.
      { simpl ensureAgents.
        change (ensureAgents uuidv4 (aid :: rest) sid)
          with (bind (bind (gets (hasAgentInstance sid aid))
                        (fun present =>
                           if present then ret tt
                           else bind (spawnAgent uuidv4 sid aid [])
                                  (fun _ => ret tt)))
                  (fun _ => ensureAgents uuidv4 rest sid))
          || idtac.
        unfold bind at 1.
        unfold bind at 1 in Hrun. unfold bind at 1.
        destruct (gets (hasAgentInstance sid aid) q) as [[present|e] q0] eqn:E.
        - unfold gets in E. injection E as <- <-.
          unfold gets in Hrun. rewrite Hrun. exact Hrun1.
        - unfold gets in E. discriminate. }
      split; [exact Hready1|]. split.
      * intros x Hx Hall. apply Hmono1.
        -- apply Hmono; [exact Hx|]. apply Hall. left. reflexivity.
        -- intros y Hy. apply Hall. right. exact Hy.
      * intros a [<-|Ha]; [|apply Hfound1, Ha].
        apply Hmono1; [exact Hfound|].
        intros y Hy. apply Hpair; [left; reflexivity|right; exact Hy].
Qed.

End Ensure.

Lemma routingTable_agents (t0 : Z) (ty : string) :
  let '(ags, tls, sts) := routingTable ty in
  length ags <= 2
  /\ (forall a, In a ags -> is_Some (agents (newProtocol t0) !! a))
  /\ (forall x y, In x ags -> In y ags -> x = y \/ apart x y)
  /\ (forall y, In y ags -> "analysis_agent" = y \/ apart "analysis_agent" y)
  /\ Forall (fun st => In (agent st) ags
                       \/ (ty = "information_retrieval"
                           /\ agent st = "analysis_agent")) sts.
Proof.
  unfold routingTable.
  destruct (String.eqb_spec ty "information_retrieval") as [->|_];
    [|destruct (String.eqb ty "analysis");
      [|destruct (String.eqb ty "content_creation");
        [|destruct (String.eqb ty "problem_solving")]]].
  all: split; [simpl; lia|]; split; [|split; [|split]].
  all: lazymatch goal with
       | |- forall a, In a _ -> is_Some _ =>
           intros a Ha; simpl in Ha;
           repeat (destruct Ha as [<-|Ha]; [eexists; reflexivity|]); destruct Ha
       | |- Forall _ _ =>
           repeat first [apply List.Forall_nil | apply List.Forall_cons];
           simpl; tauto
       | |- forall y, In y _ -> _ = y \/ _ =>
           intros y Hy; simpl in Hy;
           repeat (destruct Hy as [<-|Hy]); try destruct Hy;
           first [left; reflexivity | right; intros u u'; simpl; discriminate]
       | |- forall x y, _ =>
           intros x y Hx Hy; simpl in Hx, Hy;
           repeat (destruct Hx as [<-|Hx]); try destruct Hx;
           repeat (destruct Hy as [<-|Hy]); try destruct Hy;
           first [left; reflexivity | right; intros u u'; simpl; discriminate]
       end.
Qed.

Lemma found_received (uuidv4 : nat -> string) (p : Protocol) (sid x : string)
  (m : MCPMessage) (s : Session) :
  sessions p !! sid = Some s ->
  found sid x p ->
  found sid x (with_drawn (S (drawn (received p sid m))) (received p sid m)).
Proof.
  intros Hs Hx. apply (found_templates sid x p s Hs) in Hx.
  apply (found_templates sid x _ _ (received_session p sid m s Hs)). exact Hx.
Qed.

Lemma plan_is_answered (uuidv4 : nat -> string) (t0 : Z) (p : Protocol)
  (sid message : string) (options : MessageOptions) (s : Session) :
  ready sid p s ->
  agents p = agents (newProtocol t0) ->
  intent_type (analyzeIntent message (context s)) <> "information_retrieval"
  \/ found sid "analysis_agent" p ->
  (Z.of_nat (length (activeAgents s)) + 2 <= maxAgents (config s))%Z ->
  exists r p',
    processMessage uuidv4 sid message (Obj options) p = (Normal r, p')
    /\ status (execution r) = completed
    /\ error (execution r) = None
    /\ Forall (fun se => se_status se = completed) (ex_steps (execution r))
    /\ stepsExecuted (plan_metadata r) = 2
    /\ str_includes closingRemark (response r) = true
    /\ startsWith "Based on my analysis:" (response r) = true.
Proof.
  intros (Hs & Ha & Hsync & Hkey) Hag Hty Hroom.
  rewrite (processMessage_unfold uuidv4 p sid message options s Hs Ha).
  set (m := newMessage uuidv4 p sid message options).
  set (i := analyzeIntent message (context s)) in *.
  pose proof (routingTable_agents t0 (intent_type i)) as Hshape.
  pose proof (routingTable_shape (intent_type i)) as Hlen.
  destruct (routingTable (intent_type i)) as [[ags tls] sts] eqn:Hrt.
  destruct Hshape as (Hn & Hreg & Hpair & Hana & Hsteps). destruct Hlen as (Hlen & _).
  set (plan := {| planId := uuidv4 (drawn (received p sid m)); intent := i;
                  steps := sts;
                  estimatedDuration := (Z.of_nat (length sts) * 5000)%Z;
                  requiredAgents := ags; requiredTools := tls |}).
  set (q := with_drawn (S (drawn (received p sid m))) (received p sid m)).
  assert (Hplan : createRoutingPlan uuidv4 i sid (received p sid m) = (Normal plan, q)).
  { unfold createRoutingPlan. erewrite bind_normal by reflexivity.
    rewrite Hrt. reflexivity. }
  unfold afterReceipt. rewrite (bind_normal _ _ _ _ _ Hplan).
  unfold bind at 1.
  assert (Hq : ready sid q (push_message m (with_lastActivity (now p) s))).
  { split; [exact (received_session p sid m s Hs)|]. split; [exact Ha|].
    split; [exact Hsync|exact Hkey]. }
  destruct (ensureAgents_success uuidv4 sid ags q _ Hq)
    as (q1 & s1 & Hens & _ & Hmono & Hfound).
  - intros a Hin. change (agents q) with (agents p). rewrite Hag. apply Hreg, Hin.
  - simpl. lia.
  - exact Hpair.
  - destruct (executePlan_complete uuidv4 plan sid m q q1 Hens)
      as (r & p' & Hrun & Hst & Herr & _ & Hall & _ & Hcount & _ & _ & _ & Hrem & Hhead).
    + simpl. eapply Forall_impl; [exact Hsteps|]. intros st [Hin|[Hr Hst]].
      * apply Hfound, Hin.
      * rewrite Hst. destruct Hty as [Hty|Hty]; [contradiction|].
        apply Hmono; [|exact Hana].
        apply (found_received uuidv4 p sid _ m s Hs Hty).
    + exists r, (emit (messageProcessed sid (messageId m)) p').
      rewrite Hrun. split; [reflexivity|].
      split_and!; try assumption. rewrite Hcount. exact Hlen.
Qed.

(** X22. In every state reached by calls from a new protocol, a message
    sent with an options object (not [null]) to an active session that has
    room for two more agents is answered when it is not classified as an
    information request, or when the session holds an instance of the
    analysis agent: [processMessage] returns, the
    execution is [completed] without error, both steps of the plan are
    completed, and the response starts with the fixed heading and contains
    the closing remark. *)
Theorem message_is_answered (uuidv4 : nat -> string) (t0 : Z) (ops : list Op)
  (sid message : string) (options : MessageOptions) (s : Session) :
  sessions (run uuidv4 ops (newProtocol t0)) !! sid = Some s ->
  isActive s = true ->
  intent_type (analyzeIntent message (context s)) <> "information_retrieval"
  \/ is_Some (findAgentInstance sid "analysis_agent" (run uuidv4 ops (newProtocol t0))) ->
  (Z.of_nat (length (activeAgents s)) + 2 <= maxAgents (config s))%Z ->
  exists r p',
    processMessage uuidv4 sid message (Obj options) (run uuidv4 ops (newProtocol t0))
    = (Normal r, p')
    /\ status (execution r) = completed
    /\ error (execution r) = None
    /\ Forall (fun se => se_status se = completed) (ex_steps (execution r))
    /\ stepsExecuted (plan_metadata r) = 2
    /\ str_includes closingRemark (response r) = true
    /\ startsWith "Based on my analysis:" (response r) = true.
Proof.
  intros Hs Ha Hty Hroom.
  apply (plan_is_answered uuidv4 t0 _ sid message options s); try assumption.
  - split; [exact Hs|]. split; [exact Ha|]. split.
    + exact (agentsInSync_run uuidv4 ops _ (sessionsAll_new _ t0) sid s Hs).
    + exact (wellKeyed_run uuidv4 ops _ (sessionsAll_new _ t0) sid s Hs).
  - apply (run_registriesKept uuidv4 ops (newProtocol t0)).
Qed.

Lemma message_is_answered_witness :
  exists r p',
    processMessage Examples.P.uuid "u" "Please make a poem" (Obj Examples.P.noOptions)
      (run Examples.P.uuid [CreateSession "alice" (Obj Examples.P.defaults)] (newProtocol 0))
    = (Normal r, p')
    /\ status (execution r) = completed
    /\ stepsExecuted (plan_metadata r) = 2.
Proof.
  assert (Hs : exists s,
             sessions (run Examples.P.uuid [CreateSession "alice" (Obj Examples.P.defaults)]
                         (newProtocol 0)) !! "u" = Some s
             /\ isActive s = true
             /\ intent_type (analyzeIntent "Please make a poem" (context s))
                <> "information_retrieval"
             /\ (Z.of_nat (length (activeAgents s)) + 2 <= maxAgents (config s))%Z).
  { eexists. split; [vm_compute; reflexivity|]. split; [reflexivity|].
    split; [vm_compute; discriminate|vm_compute; discriminate]. }
  destruct Hs as (s & Hs & Ha & Hty & Hroom).
  destruct (message_is_answered Examples.P.uuid 0
              [CreateSession "alice" (Obj Examples.P.defaults)]
              "u" "Please make a poem" Examples.P.noOptions s Hs Ha (or_introl Hty) Hroom)
    as (r & p' & Hrun & Hst & _ & _ & Hn & _).
  exists r, p'. split; [exact Hrun|]. split; [exact Hst|exact Hn].
Defined.

End ProtocolMore.

(** * The HTTP handlers *)

Module RoutesFacts.
Import JS MCPProtocol Routes JSFacts ProtocolFacts ProtocolMore.
Import Spec (closed, inactive, templates).
Import Inv.Protocol.

Lemma orEmptyObject_fmap {A} (empty : A) (field : option A) :
  orEmptyObject empty (Obj <$> field) = Obj (default empty field).
Proof. destruct field; reflexivity. Qed.

Lemma missing_false (field : option string) :
  missing field = false -> field = Some (orEmpty field) /\ orEmpty field <> "".
Proof.
  destruct field as [v|]; simpl; [|discriminate].
  destruct (String.eqb_spec v ""); [discriminate|]. intros _. split; [reflexivity|assumption].
Qed.

(** ** The router over HTTP *)

(** X23. [POST /llm/route] answers 400 and leaves the router as it is
    when a required field is absent or empty.  With the three fields present
    it answers 500 with the error thrown, the router unchanged, in three
    cases: the profile lookup rejects (as it does for a [userId] that cannot
    be cast to an ObjectId), the error then being the lookup's; the context
    is [null]; no model is registered.  Otherwise it answers 200 with a
    routing whose model is one of the registry, the registry itself
    unchanged. *)
Theorem postLlmRoute_status
  (UserProfile_findOne : string -> Completion (option MultiLLMRouter.UserProfile))
  (requestType content userId : option string)
  (context : option (Nullable MultiLLMRouter.RequestContext)) (r : Binary64.Router) :
  let absent := missing requestType || missing content || missing userId in
  let resp :=
    fst (postLlmRoute UserProfile_findOne requestType content userId context r) in
  let r' :=
    snd (postLlmRoute UserProfile_findOne requestType content userId context r) in
  (absent = true ->
   resp = badRequest "Missing required fields: requestType, content, userId"
   /\ r' = r)
  /\ (absent = false ->
      (forall e, UserProfile_findOne (orEmpty userId) = Throw e ->
         resp = serverError e /\ r' = r)
      /\ (forall found, UserProfile_findOne (orEmpty userId) = Normal found ->
            (context = Some Null ->
             resp = serverError (typeError "urgency") /\ r' = r)
            /\ (context <> Some Null -> Binary64.llmModels r = [] ->
                resp = serverError "No suitable LLM model found for request"
                /\ r' = r)
            /\ (context <> Some Null -> Binary64.llmModels r <> [] ->
                exists routing,
                  resp = ok (Routed routing)
                  /\ In (Binary64.model routing) (Map_values (Binary64.llmModels r))
                  /\ Binary64.llmModels r' = Binary64.llmModels r
                  /\ Binary64.estimatedLatency routing
                     = Binary64.averageLatency
                         (Binary64.performance (Binary64.model routing))))).
Proof.
  intros absent resp r'. subst resp r'. unfold postLlmRoute. fold absent.
  destruct absent.
  - split; [intros _; split; reflexivity|discriminate].
  - split; [discriminate|]. intros _. unfold Binary64.routeRequest. split.
    + intros e He. rewrite He. split; reflexivity.
    + intros found Hfound. rewrite Hfound. split; [|split].
      * intros ->. split; reflexivity.
      * intros Hctx Hnone.
        destruct context as [[|c]|]; [contradiction Hctx; reflexivity| |];
          cbn [orEmptyObject];
          rewrite (proj2 (Router64Facts.selection64_none_iff r _ _ _ _) Hnone);
          split; reflexivity.
      * intros Hctx Hsome.
        assert (Hc : exists c,
                   orEmptyObject {| MultiLLMRouter.urgency := None |} context = Obj c).
        { destruct context as [[|c]|]; [contradiction Hctx; reflexivity| |];
            eexists; reflexivity. }
        destruct Hc as [c ->].
        destruct (Router64Facts.selection64_returns r (orEmpty requestType)
                    (orEmpty content) found c) as [[best|] Hsel].
        -- rewrite Hsel. eexists. split; [reflexivity|]. cbn.
           split; [|split; reflexivity].
           exact (Router64Facts.selected64_is_registered _ _ _ _ _ _ Hsel).
        -- contradiction Hsome.
           exact (proj1 (Router64Facts.selection64_none_iff r _ _ _ _) Hsel).
Qed.

Lemma postLlmRoute_status_witness :
  fst (postLlmRoute Examples.D.noProfiles (Some "chat") None
         (Some Examples.D.someUser) None Examples.D.registry2)
  = badRequest "Missing required fields: requestType, content, userId"
  /\ fst (postLlmRoute Examples.D.noProfiles (Some "chat") (Some "hi") (Some "u1") None
            Examples.D.registry2)
     = serverError "Cast to ObjectId failed for value u1"
  /\ fst (postLlmRoute Examples.D.noProfiles (Some "chat") (Some "hi")
            (Some Examples.D.someUser) (Some Null) Examples.D.registry2)
     = serverError "Cannot read properties of null (reading 'urgency')"
  /\ fst (postLlmRoute Examples.D.noProfiles (Some "chat") (Some "hi")
            (Some Examples.D.someUser) None Binary64.emptyRouter)
     = serverError "No suitable LLM model found for request"
  /\ exists routing,
       fst (postLlmRoute Examples.D.noProfiles (Some "chat") (Some "hi")
              (Some Examples.D.someUser) None Examples.D.registry2)
       = ok (Routed routing).
Proof.
  split; [|split; [|split; [|split]]].
  - apply (postLlmRoute_status Examples.D.noProfiles (Some "chat") None
             (Some Examples.D.someUser) None Examples.D.registry2). reflexivity.
  - destruct (postLlmRoute_status Examples.D.noProfiles (Some "chat") (Some "hi")
                (Some "u1") None Examples.D.registry2) as (_ & H).
    destruct (H eq_refl) as (He & _). apply (He _ eq_refl).
  - destruct (postLlmRoute_status Examples.D.noProfiles (Some "chat") (Some "hi")
                (Some Examples.D.someUser) (Some Null) Examples.D.registry2)
      as (_ & H).
    destruct (H eq_refl) as (_ & Hf). destruct (Hf None eq_refl) as (Hnull & _).
    apply (Hnull eq_refl).
  - destruct (postLlmRoute_status Examples.D.noProfiles (Some "chat") (Some "hi")
                (Some Examples.D.someUser) None Binary64.emptyRouter) as (_ & H).
    destruct (H eq_refl) as (_ & Hf). destruct (Hf None eq_refl) as (_ & Hempty & _).
    apply Hempty; [discriminate|reflexivity].
  - destruct (postLlmRoute_status Examples.D.noProfiles (Some "chat") (Some "hi")
                (Some Examples.D.someUser) None Examples.D.registry2) as (_ & H).
    destruct (H eq_refl) as (_ & Hf). destruct (Hf None eq_refl) as (_ & _ & Hok).
    destruct Hok as (routing & Hr & _); [discriminate|vm_compute; discriminate|].
    exists routing. exact Hr.
Defined.

Lemma currentLoad_after (profiles : list MultiLLMRouter.UserProfile)
  (r r' : MultiLLMRouter.Router) (requestType content uid : string)
  (context : MultiLLMRouter.RequestContext) (routing : MultiLLMRouter.Routing)
  (n : Z) (m : MultiLLMRouter.LLMModel) :
  MultiLLMRouter.routeRequest profiles r requestType content uid context
  = (Normal routing, r') ->
  MultiLLMRouter.loadBalancer r
    !! MultiLLMRouter.name (MultiLLMRouter.model routing)
  = Some (MultiLLMRouter.Count n) ->
  MultiLLMRouter.currentLoad r' m
  = (MultiLLMRouter.currentLoad r m
     + if String.eqb (MultiLLMRouter.name m)
            (MultiLLMRouter.name (MultiLLMRouter.model routing))
       then 1 else 0)%Z.
Proof.
  intros H Hn. apply RouterMore.routeRequest_normal in H.
  destruct H as (_ & _ & Hl & _). unfold MultiLLMRouter.currentLoad. rewrite Hl.
  destruct (String.eqb_spec (MultiLLMRouter.name m)
              (MultiLLMRouter.name (MultiLLMRouter.model routing))) as [E|E].
  - rewrite E, Hn, lookup_insert_eq. reflexivity.
  - rewrite lookup_insert_ne by congruence.
    destruct (MultiLLMRouter.loadBalancer r !! MultiLLMRouter.name m) as [[k|]|]; lia.
Qed.

(** X24. After a routed request whose model had a numeric counter,
    [GET /llm/models] reports the same models in the same order as before,
    each with the same fields, except that the load of every entry with the
    chosen model's name is one higher. *)
Theorem getLlmModels_after_route (profiles : list MultiLLMRouter.UserProfile)
  (r r' : MultiLLMRouter.Router) (requestType content uid : string)
  (context : MultiLLMRouter.RequestContext) (routing : MultiLLMRouter.Routing)
  (n : Z) :
  MultiLLMRouter.routeRequest profiles r requestType content uid context
  = (Normal routing, r') ->
  MultiLLMRouter.loadBalancer r
    !! MultiLLMRouter.name (MultiLLMRouter.model routing)
  = Some (MultiLLMRouter.Count n) ->
  getLlmModels r'
  = ok (Models (map (Inv.Router.served
                       (MultiLLMRouter.name (MultiLLMRouter.model routing)))
                  (MultiLLMRouter.getModelStatus r))).
Proof.
  intros H Hn. unfold getLlmModels, MultiLLMRouter.getModelStatus. do 2 f_equal.
  pose proof (RouterMore.routeRequest_normal _ _ _ _ _ _ _ _ H) as (_ & -> & _).
  rewrite map_map. apply map_ext. intros m. unfold Inv.Router.served. simpl.
  rewrite (currentLoad_after profiles r r' requestType content uid context routing n m
             H Hn).
  destruct (String.eqb (MultiLLMRouter.name m)
              (MultiLLMRouter.name (MultiLLMRouter.model routing)));
    [reflexivity|]. rewrite Z.add_0_r. reflexivity.
Qed.

Lemma getLlmModels_after_route_witness :
  exists routing r',
    MultiLLMRouter.routeRequest [] Examples.R.registry3 "analysis"
      Examples.R.plainContent "u1" Examples.R.noContext = (Normal routing, r')
    /\ getLlmModels r'
       = ok (Models (map (Inv.Router.served
                            (MultiLLMRouter.name (MultiLLMRouter.model routing)))
                       (MultiLLMRouter.getModelStatus Examples.R.registry3))).
Proof.
  eexists _, _. split; [vm_compute; reflexivity|].
  apply (getLlmModels_after_route [] Examples.R.registry3 _ "analysis"
           Examples.R.plainContent "u1" Examples.R.noContext _ 0).
  - vm_compute. reflexivity.
  - vm_compute. reflexivity.
Defined.

(** ** The agent protocol over HTTP *)

Section Handlers.
Context (uuidv4 : nat -> string).

Lemma inactive_after_close (sid : string) (p : Protocol) :
  inactive sid (snd (closeSession sid p)).
Proof.
  destruct (sessions p !! sid) as [s|] eqn:Hs.
  - destruct (closeSession_closed p sid) as [H _]; [eexists; exact Hs|].
    unfold inactive. rewrite H. discriminate.
  - rewrite (closeSession_missing p sid Hs). unfold inactive. simpl.
    rewrite Hs. discriminate.
Qed.

Lemma deleteSession_unfold (sid : string) (p : Protocol) :
  deleteSession sid p
  = (ok (Closed "Session closed successfully"), snd (closeSession sid p)).
Proof.
  unfold deleteSession. pose proof (closeSession_returns p sid) as H.
  destruct (closeSession sid p) as [[[]|e] p']; [reflexivity|discriminate].
Qed.

(** X25. [DELETE /mcp/session/:id] answers 200 for every id, known or
    not.  Afterwards the message route and the agent route answer 500
    [Invalid or inactive session] for that id and change nothing; the info
    route answers 404 when the id was unknown, the state then being as
    before the call, and otherwise 200 with the session reported inactive,
    its owner, agents and message count as they were. *)
Theorem deleteSession_then (sid : string) (p : Protocol) :
  let resp := fst (deleteSession sid p) in
  let p' := snd (deleteSession sid p) in
  resp = ok (Closed "Session closed successfully")
  /\ (forall message options,
        missing message = false ->
        postMessage uuidv4 sid message options p' = (serverError sessionError, p'))
  /\ (forall agentId agentConfig,
        missing agentId = false ->
        postAgent uuidv4 sid agentId agentConfig p' = (serverError sessionError, p'))
  /\ (sessions p !! sid = None ->
      p' = p /\ getInfo sid p' = Routes.notFound "Session not found")
  /\ (forall s,
        sessions p !! sid = Some s ->
        getInfo sid p'
        = ok (Info {| info_sessionId := sessionId s; info_userId := userId s;
                      info_createdAt := createdAt s;
                      info_lastActivity := lastActivity s;
                      info_activeAgents := activeAgents s;
                      messageCount := length (messageHistory s);
                      info_isActive := false |})).
Proof.
  intros resp p'. subst resp p'. rewrite deleteSession_unfold. simpl.
  pose proof (inactive_after_close sid p) as Hin.
  split; [reflexivity|]. split; [|split; [|split]].
  - intros message options Hm. unfold postMessage. rewrite Hm.
    rewrite (inactive_rejects_processMessage uuidv4 _ sid _ _ Hin). reflexivity.
  - intros agentId agentConfig Hm. unfold postAgent. rewrite Hm.
    rewrite (inactive_rejects_spawnAgent uuidv4 _ sid _ _ Hin). reflexivity.
  - intros Hs. rewrite (closeSession_missing p sid Hs). simpl.
    split; [reflexivity|].
    unfold getInfo, getSessionInfo. rewrite Hs. reflexivity.
  - intros s Hs. rewrite (closeSession_existing p sid s Hs).
    unfold getInfo, getSessionInfo. simpl. rewrite lookup_alter_eq, Hs. reflexivity.
Qed.

(** X26. [POST /mcp/session] answers 400 and changes nothing when
    [userId] is absent or empty.  With a [sessionConfig] of [null] it answers
    500 with the [TypeError] of [createSession], an identifier drawn and no
    session created.  Otherwise ([sessionConfig] absent or an object) it
    answers 200 with the identifier drawn; the info route then reports that
    session as active, owned by the caller, without agents or messages; and
    when the id was not in use the statistics count one session and one
    active session more, with the same numbers of agents and tools. *)
Theorem postSession_then (userId : option string)
  (sessionConfig : option (Nullable SessionOptions)) (p : Protocol) :
  let sid := uuidv4 (drawn p) in
  let resp := fst (postSession uuidv4 userId sessionConfig p) in
  let p' := snd (postSession uuidv4 userId sessionConfig p) in
  (missing userId = true ->
   resp = badRequest "Missing required field: userId" /\ p' = p)
  /\ (missing userId = false -> sessionConfig = Some Null ->
      resp = serverError (typeError "maxAgents")
      /\ p' = with_drawn (S (drawn p)) p)
  /\ (missing userId = false -> sessionConfig <> Some Null ->
      resp = ok (SessionCreated sid)
      /\ getInfo sid p'
         = ok (Info {| info_sessionId := sid; info_userId := orEmpty userId;
                       info_createdAt := now p; info_lastActivity := now p;
                       info_activeAgents := []; messageCount := 0;
                       info_isActive := true |})
      /\ registeredAgents (getSystemStats p') = registeredAgents (getSystemStats p)
      /\ registeredTools (getSystemStats p') = registeredTools (getSystemStats p)
      /\ (sessions p !! sid = None ->
          totalSessions (getSystemStats p') = S (totalSessions (getSystemStats p))
          /\ stats_activeSessions (getSystemStats p')
             = S (stats_activeSessions (getSystemStats p)))).
Proof.
  intros sid resp p'. subst resp p'. unfold postSession.
  destruct (missing userId).
  - split; [intros _; split; reflexivity|]. split; discriminate.
  - split; [discriminate|]. split; [intros _ ->; split; reflexivity|].
    intros _ Hcfg.
    assert (Hc : exists cfg, orEmptyObject noSessionOptions sessionConfig = Obj cfg).
    { destruct sessionConfig as [[|cfg]|]; [contradiction Hcfg; reflexivity| |];
        eexists; reflexivity. }
    destruct Hc as [cfg ->]. simpl.
    split; [reflexivity|]. split.
    { unfold getInfo, getSessionInfo. simpl. rewrite lookup_insert_eq. reflexivity. }
    split; [reflexivity|]. split; [reflexivity|].
    intros Hnone. unfold getSystemStats. simpl. split.
    + rewrite map_size_insert_None by exact Hnone. reflexivity.
    + rewrite !count_active. rewrite map_filter_insert_True by reflexivity.
      rewrite map_size_insert_None; [reflexivity|].
      apply map_lookup_filter_None. left. exact Hnone.
Qed.

(** X27. [POST /mcp/session/:id/agent] answers 400 when [agentId] is
    absent or empty and 500 in three cases, each time leaving the state as
    it is: no active session under the id; the template not registered; the
    session holding as many agents as its limit.  In the remaining case it
    answers 200 with the template name, an underscore and the identifier
    drawn, and the info route then lists that instance among the agents of
    the session. *)
Theorem postAgent_status (sid : string) (agentId : option string)
  (agentConfig : option Config) (p : Protocol) :
  let aid := orEmpty agentId in
  let r := postAgent uuidv4 sid agentId agentConfig p in
  (missing agentId = true ->
   r = (badRequest "Missing required field: agentId", p))
  /\ (missing agentId = false ->
      (inactive sid p -> r = (serverError sessionError, p))
      /\ (forall s,
            sessions p !! sid = Some s -> isActive s = true ->
            (agents p !! aid = None -> r = (serverError (templateError aid), p))
            /\ (is_Some (agents p !! aid) ->
                (maxAgents (config s) <= Z.of_nat (length (activeAgents s)))%Z ->
                r = (serverError capacityError, p))
            /\ (is_Some (agents p !! aid) ->
                (Z.of_nat (length (activeAgents s)) < maxAgents (config s))%Z ->
                let id := (aid ++ "_" ++ uuidv4 (drawn p))%string in
                fst r = ok (AgentSpawned id)
                /\ exists info,
                     getInfo sid (snd r) = ok (Info info)
                     /\ info_activeAgents info = Set_add id (activeAgents s)
                     /\ info_isActive info = true))).
Proof.
  intros aid r. subst r. unfold postAgent.
  destruct (missing agentId).
  - split; [intros _; reflexivity|discriminate].
  - split; [discriminate|]. intros _. fold aid. split.
    + intros Hin. rewrite (inactive_rejects_spawnAgent uuidv4 p sid aid _ Hin).
      reflexivity.
    + intros s Hs Ha. split; [|split].
      * intros Hnone.
        rewrite (spawnAgent_no_template uuidv4 p sid aid _ s Hs Ha Hnone). reflexivity.
      * intros [d Hd] Hfull.
        rewrite (spawnAgent_full uuidv4 p sid aid _ s d Hs Ha Hd Hfull). reflexivity.
      * intros [d Hd] Hroom.
        rewrite (spawnAgent_room uuidv4 p sid aid _ s d Hs Ha Hd Hroom). simpl fst.
        split; [reflexivity|]. simpl snd.
        unfold getInfo, getSessionInfo.
        rewrite (afterSpawn_session uuidv4 p sid aid _ d s Hs).
        eexists. split; [reflexivity|]. simpl. split; [reflexivity|exact Ha].
Qed.

Lemma information_request_error (t0 : Z) (p : Protocol)
  (sid message : string) (options : MessageOptions) (s : Session) :
  ready sid p s ->
  agents p = agents (newProtocol t0) ->
  intent_type (analyzeIntent message (context s)) = "information_retrieval" ->
  findAgentInstance sid "analysis_agent" p = None ->
  (Z.of_nat (length (activeAgents s)) + 1 <= maxAgents (config s))%Z ->
  exists p', processMessage uuidv4 sid message (Obj options) p
             = (Throw "Agent analysis_agent not found in session", p').
Proof.
  intros (Hs & Ha & Hsync & Hkey) Hag Hty Hnone Hroom.
  rewrite (processMessage_unfold uuidv4 p sid message options s Hs Ha).
  set (m := newMessage uuidv4 p sid message options).
  set (i := analyzeIntent message (context s)) in *.
  set (st1 := mkStep "search_information" "research_agent" ["web_search"]).
  set (st2 := mkStep "synthesize_results" "analysis_agent" ["content_generation"]).
  set (plan := {| planId := uuidv4 (drawn (received p sid m)); intent := i;
                  steps := [st1; st2]; estimatedDuration := 10000%Z;
                  requiredAgents := ["research_agent"];
                  requiredTools := ["web_search"] |}).
  set (q := with_drawn (S (drawn (received p sid m))) (received p sid m)).
  assert (Hplan : createRoutingPlan uuidv4 i sid (received p sid m) = (Normal plan, q)).
  { unfold createRoutingPlan. erewrite bind_normal by reflexivity.
    rewrite Hty. reflexivity. }
  unfold afterReceipt. rewrite (bind_normal _ _ _ _ _ Hplan).
  assert (Hq : ready sid q (push_message m (with_lastActivity (now p) s))).
  { split; [exact (received_session p sid m s Hs)|]. split; [exact Ha|].
    split; [exact Hsync|exact Hkey]. }
  assert (HnoneQ : findAgentInstance sid "analysis_agent" q = None).
  { apply findAgentInstance_none. apply findAgentInstance_none in Hnone.
    simpl. rewrite !lookup_alter_eq, Hs. rewrite Hs in Hnone. exact Hnone. }
  destruct (ensureAgents_success uuidv4 sid (requiredAgents plan) q _ Hq)
    as (q1 & s1 & Hens & _ & _ & Hfound).
  - intros a [<-|[]]. change (agents q) with (agents p). rewrite Hag.
    eexists. reflexivity.
  - simpl. lia.
  - intros x y [<-|[]] [<-|[]]. left. reflexivity.
  - pose proof (ensureAgents_lacks uuidv4 (requiredAgents plan) sid "analysis_agent" q)
      as Hlack.
    rewrite Hens in Hlack. simpl in Hlack.
    assert (Hnone1 : findAgentInstance sid (agent st2) q1 = None).
    { apply Hlack; [|exact HnoneQ]. intros [H|[]]. discriminate. }
    destruct (executeSteps_abort uuidv4 sid st2 [st1]
                {| ex_planId := planId plan; ex_sessionId := sid; startTime := now q;
                   ex_steps := []; results := []; status := executing; error := None;
                   ex_endTime := None; duration := None |} q1)
      as (e' & p2 & Hrun & _).
    + constructor; [|constructor]. apply Hfound. left. reflexivity.
    + exact Hnone1.
    + exists p2. apply bind_throw. unfold executePlan, executePlan_trace.
      rewrite Hens. specialize (Hrun []). simpl app in Hrun.
      change (steps plan) with [st1; st2]. rewrite Hrun. reflexivity.
Qed.

(** X28. In every state reached by calls from a new protocol, creating a
    session over HTTP with a limit of at least two agents (the default is
    five) and sending it a first message, the configuration and the options
    being absent or objects (not [null]), gives: 500 with the error
    [Agent analysis_agent not found in session] when the message is
    classified as an information request, and 200 with a completed
    execution of two steps otherwise. *)
Theorem first_message_over_http (t0 : Z) (ops : list Op) (userId message : option string)
  (sessionConfig : option SessionOptions) (options : option MessageOptions)
  (c : Context) :
  let p := run uuidv4 ops (newProtocol t0) in
  let sid := uuidv4 (drawn p) in
  let p1 := snd (postSession uuidv4 userId (Obj <$> sessionConfig) p) in
  let r := postMessage uuidv4 sid message (Obj <$> options) p1 in
  missing userId = false ->
  missing message = false ->
  (2 <= configValue (opt_maxAgents (default noSessionOptions sessionConfig)) 5)%Z ->
  fst (postSession uuidv4 userId (Obj <$> sessionConfig) p) = ok (SessionCreated sid)
  /\ (intent_type (analyzeIntent (orEmpty message) c) = "information_retrieval" ->
      fst r = serverError "Agent analysis_agent not found in session")
  /\ (intent_type (analyzeIntent (orEmpty message) c) <> "information_retrieval" ->
      exists result,
        fst r = ok (Processed result)
        /\ status (execution result) = completed
        /\ stepsExecuted (plan_metadata result) = 2
        /\ str_includes closingRemark (response result) = true).
Proof.
  intros p sid p1 r Hu Hm Hmax. subst r p1. unfold postSession, postMessage.
  rewrite Hu, Hm, !orEmptyObject_fmap.
  set (cfg := default noSessionOptions sessionConfig) in *.
  set (p1 := snd (createSession uuidv4 (orEmpty userId) (Obj cfg) p)).
  assert (Hc : createSession uuidv4 (orEmpty userId) (Obj cfg) p = (Normal sid, p1))
    by reflexivity.
  rewrite Hc. simpl fst. simpl snd. split; [reflexivity|].
  assert (Hs : exists s, ready sid p1 s /\ activeAgents s = []
                         /\ maxAgents (config s) = configValue (opt_maxAgents cfg) 5).
  { eexists. split.
    - split; [subst p1; simpl; apply lookup_insert_eq|].
      split; [reflexivity|]. split.
      + unfold agentsInSync. simpl. split_and!; constructor.
      + unfold wellKeyed. simpl. constructor.
    - split; reflexivity. }
  destruct Hs as (s & Hready & Hnil & Hcfg).
  assert (Hag : agents p1 = agents (newProtocol t0)).
  { change (agents p1) with (agents p).
    apply (run_registriesKept uuidv4 ops (newProtocol t0)). }
  split.
  - intros Hty.
    destruct (information_request_error t0 p1 sid (orEmpty message)
                (default noMessageOptions options) s Hready Hag Hty)
      as (p2 & ->).
    + apply findAgentInstance_none. destruct Hready as (Hs & _ & (Hk & _) & _).
      rewrite Hs. simpl. intros Hin. apply templates_entry in Hin.
      destruct Hin as (k & a & Hin & _).
      apply (in_map fst) in Hin. rewrite Hk, Hnil in Hin. destruct Hin.
    + rewrite Hnil, Hcfg. simpl. lia.
    + reflexivity.
  - intros Hty.
    destruct (plan_is_answered uuidv4 t0 p1 sid (orEmpty message)
                (default noMessageOptions options) s Hready Hag (or_introl Hty))
      as (result & p2 & -> & Hst & _ & _ & Hn & Hrem & _).
    + rewrite Hnil, Hcfg. simpl. lia.
    + exists result. split; [reflexivity|]. split; [exact Hst|]. split; assumption.
Qed.

End Handlers.

Lemma deleteSession_then_witness :
  fst (deleteSession "u" Examples.P.oneSession)
  = ok (Closed "Session closed successfully")
  /\ postMessage Examples.P.uuid "u" (Some "hello") None
       (snd (deleteSession "u" Examples.P.oneSession))
     = (serverError sessionError, snd (deleteSession "u" Examples.P.oneSession))
  /\ fst (deleteSession "nobody" Examples.P.oneSession)
     = ok (Closed "Session closed successfully").
Proof.
  destruct (deleteSession_then Examples.P.uuid "u" Examples.P.oneSession)
    as (H1 & H2 & _).
  destruct (deleteSession_then Examples.P.uuid "nobody" Examples.P.oneSession)
    as (H3 & _).
  split; [exact H1|]. split; [apply H2; reflexivity|exact H3].
Defined.

Lemma postSession_then_witness :
  fst (postSession Examples.P.uuid (Some "alice") None Examples.P.fresh)
  = ok (SessionCreated (Examples.P.uuid (drawn Examples.P.fresh)))
  /\ totalSessions
       (getSystemStats
          (snd (postSession Examples.P.uuid (Some "alice") None Examples.P.fresh)))
     = S (totalSessions (getSystemStats Examples.P.fresh))
  /\ fst (postSession Examples.P.uuid (Some "") None Examples.P.fresh)
     = badRequest "Missing required field: userId".
Proof.
  destruct (postSession_then Examples.P.uuid (Some "alice") None Examples.P.fresh)
    as (_ & _ & H).
  destruct (H eq_refl ltac:(discriminate)) as (H1 & _ & _ & _ & H5).
  destruct (postSession_then Examples.P.uuid (Some "") None Examples.P.fresh)
    as (H0 & _).
  split; [exact H1|]. split; [apply H5; vm_compute; reflexivity|apply H0; reflexivity].
Defined.

Lemma postAgent_status_witness :
  fst (postAgent Examples.P.uuid "u" (Some "research_agent") None Examples.P.oneSession)
  = ok (AgentSpawned
          ("research_agent" ++ "_" ++ Examples.P.uuid (drawn Examples.P.oneSession)))
  /\ postAgent Examples.P.uuid "u" (Some "research_agent") None Examples.P.fiveAgents
     = (serverError capacityError, Examples.P.fiveAgents)
  /\ postAgent Examples.P.uuid "u" (Some "translator") None Examples.P.oneSession
     = (serverError (templateError "translator"), Examples.P.oneSession).
Proof.
  assert (Hs : exists s,
             sessions Examples.P.oneSession !! "u" = Some s
             /\ isActive s = true
             /\ (Z.of_nat (length (activeAgents s)) < maxAgents (config s))%Z).
  { eexists. split; [vm_compute; reflexivity|]. split; reflexivity. }
  assert (Hf : exists s,
             sessions Examples.P.fiveAgents !! "u" = Some s
             /\ isActive s = true
             /\ (maxAgents (config s) <= Z.of_nat (length (activeAgents s)))%Z).
  { eexists. split; [vm_compute; reflexivity|]. split; [reflexivity|].
    vm_compute. discriminate. }
  destruct Hs as (s & Hs & Ha & Hroom). destruct Hf as (s5 & Hs5 & Ha5 & Hfull).
  destruct (postAgent_status Examples.P.uuid "u" (Some "research_agent") None
              Examples.P.oneSession) as (_ & H).
  destruct (H eq_refl) as (_ & H1). destruct (H1 s Hs Ha) as (_ & _ & H2).
  destruct H2 as (H3 & _); [eexists; vm_compute; reflexivity|exact Hroom|].
  destruct (postAgent_status Examples.P.uuid "u" (Some "research_agent") None
              Examples.P.fiveAgents) as (_ & H').
  destruct (H' eq_refl) as (_ & H4). destruct (H4 s5 Hs5 Ha5) as (_ & H5 & _).
  destruct (postAgent_status Examples.P.uuid "u" (Some "translator") None
              Examples.P.oneSession) as (_ & H'').
  destruct (H'' eq_refl) as (_ & H6). destruct (H6 s Hs Ha) as (H7 & _).
  split; [exact H3|]. split.
  - apply H5; [eexists; vm_compute; reflexivity|exact Hfull].
  - apply H7. vm_compute. reflexivity.
Defined.

Lemma first_message_over_http_witness :
  let p := run Examples.P.uuid [] (newProtocol 0) in
  let sid := Examples.P.uuid (drawn p) in
  let p1 := snd (postSession Examples.P.uuid (Some "alice") None p) in
  fst (postMessage Examples.P.uuid sid (Some "Please find a paper") None p1)
  = serverError "Agent analysis_agent not found in session"
  /\ exists result,
       fst (postMessage Examples.P.uuid sid (Some "Please make a poem") None p1)
       = ok (Processed result)
       /\ status (execution result) = completed.
Proof.
  intros p sid p1. split.
  - destruct (first_message_over_http Examples.P.uuid 0 [] (Some "alice")
                (Some "Please find a paper") None None Examples.P.emptyContext
                eq_refl eq_refl) as (_ & H & _); [vm_compute; discriminate|].
    apply H. reflexivity.
  - destruct (first_message_over_http Examples.P.uuid 0 [] (Some "alice")
                (Some "Please make a poem") None None Examples.P.emptyContext
                eq_refl eq_refl) as (_ & _ & H); [vm_compute; discriminate|].
    destruct H as (result & Hr & Hst & _); [vm_compute; discriminate|].
    exists result. split; [exact Hr|exact Hst].
Defined.

End RoutesFacts.
